(** * AI-Study-Assistant: retrieval ranking, routing and orchestration

    A shallow embedding of the query pipeline of the repository
    (app/nodes/document_retriever.py, app/nodes/doubt_resolver.py,
    app/workflows/graph.py, app/api/chat.py) and the properties its
    specification states about it.

    Python [float] is IEEE-754 binary64; it is modelled by Rocq's primitive
    floats, which are the same format with the same rounding, so score
    arithmetic and comparisons are bit-exact.

    Part I holds the embedding, one module per Python module.
    Part II holds the lemmas and the theorems of the specification. *)

From Stdlib Require Import List String Ascii ZArith Lia Bool Floats DecimalString.
From Stdlib Require Import Sorting.Sorted Sorting.Permutation.
Import ListNotations.

Set Implicit Arguments.
Open Scope string_scope.
Set Warnings "-inexact-float".

(** * Part I: the embedding *)

(** ** Python values and builtins used by the code *)

Module PyFloat.

(** A float that is not NaN compares equal to itself. *)
Definition is_num (x : float) : bool := (x =? x)%float.

(** [int * float]: the integer operand is converted to float first. *)
Definition of_nat (n : nat) : float :=
  PrimFloat.of_uint63 (Uint63.of_Z (Z.of_nat n)).

(** [x >= y] on floats. *)
Definition geb (x y : float) : bool := (y <=? x)%float.

End PyFloat.

Module Py.

(** An exception value: [type(e).__name__] and [str(e)]. Only subclasses of
    [Exception] are modelled: they are what the stages raise. *)
Record exn : Type := Exception { exn_type : string; exn_str : string }.

Inductive Result (A : Type) : Type :=
| Ok (a : A)
| Raise (e : exn).

Arguments Ok {A} a.
Arguments Raise {A} e.

(** Effectful code: it reads and changes the world outside the program
    (clock, vector store, language model) and returns or raises. *)
Definition M (World A : Type) : Type := World -> Result A * World.

Section Monad.

Variable World : Type.

Definition ret {A} (a : A) : M World A := fun w => (Ok a, w).

Definition raise {A} (e : exn) : M World A := fun w => (Raise e, w).

Definition bind {A B} (c : M World A) (k : A -> M World B) : M World B :=
  fun w =>
    match c w with
    | (Ok a, w') => k a w'
    | (Raise e, w') => (Raise e, w')
    end.

(** [try: body  except Exception as e: handler(e)] *)
Definition try_except {A} (body : M World A) (handler : exn -> M World A)
  : M World A :=
  fun w =>
    match body w with
    | (Ok a, w') => (Ok a, w')
    | (Raise e, w') => handler e w'
    end.

End Monad.

Arguments ret {World A} a.
Arguments raise {World A} e.

Notation "x <- c ;; k" := (bind c (fun x => k))
  (at level 61, c at next level, right associativity).

(** [d.get(key, default)] on a key the record marks optional. *)
Definition get {A} (field : option A) (default : A) : A :=
  match field with
  | Some a => a
  | None => default
  end.

(** [a != b] on optional integers and strings ([None] is a value). *)
Definition opt_Z_neq (a b : option Z) : bool :=
  match a, b with
  | Some x, Some y => negb (Z.eqb x y)
  | None, None => false
  | _, _ => true
  end.

Definition opt_str_neq (a b : option string) : bool :=
  match a, b with
  | Some x, Some y => negb (String.eqb x y)
  | None, None => false
  | _, _ => true
  end.

(** [l.index(x)] when [x in l], else [None]. *)
Fixpoint index (x : string) (l : list string) : option nat :=
  match l with
  | [] => None
  | y :: l' =>
      if String.eqb x y then Some 0%nat
      else match index x l' with
           | Some i => Some (S i)
           | None => None
           end
  end.

(** [l[:n]] for any integer [n]: a negative bound counts from the end. *)
Definition slice_to {A} (n : Z) (l : list A) : list A :=
  if (0 <=? n)%Z then firstn (Z.to_nat n) l
  else firstn (Z.to_nat (Z.of_nat (List.length l) + n)) l.

(** [l[:-1]] *)
Definition drop_last {A} (l : list A) : list A := slice_to (-1) l.

(** [l.sort(key=key, reverse=True)] with float keys: Python's sort is stable
    and compares keys with [<] only; with [reverse=True] the order is
    descending and equal keys keep their original order. [insert_desc x l]
    places [x], which comes before the elements of [l] in the original
    list, into the sorted [l]. *)
Section Sort.

Variables (A : Type) (key : A -> float).

Fixpoint insert_desc (x : A) (l : list A) : list A :=
  match l with
  | [] => [x]
  | y :: l' =>
      if (key x <? key y)%float then y :: insert_desc x l'
      else x :: y :: l'
  end.

Fixpoint sort_reverse (l : list A) : list A :=
  match l with
  | [] => []
  | x :: l' => insert_desc x (sort_reverse l')
  end.

(** What the sort is to achieve. [a] may stand before [b] when its key is
    at least [b]'s. *)
Definition desc (a b : A) : Prop := PyFloat.geb (key a) (key b) = true.

(** The elements whose key ties with [s], in the order of the list. *)
Definition ties (s : float) (l : list A) : list A :=
  filter (fun a => (key a =? s)%float) l.

(** No key is NaN. *)
Definition num_keys (l : list A) : Prop :=
  Forall (fun a => PyFloat.is_num (key a) = true) l.

End Sort.

(** Strings. A [str] is a sequence of code points; it is held here as its
    UTF-8 encoding, one [ascii] per byte. *)
Definition nl : string := String (ascii_of_nat 10) EmptyString.

Definition byte (c : ascii) : N := N_of_ascii c.

(** The second and later bytes of a code point of several bytes. *)
Definition continuation (c : ascii) : bool :=
  ((128 <=? byte c) && (byte c <? 192))%N.

(** [len(s)]: the number of code points, one for every byte that starts
    one. *)
Fixpoint len (s : string) : nat :=
  match s with
  | EmptyString => O
  | String c s' => if continuation c then len s' else S (len s')
  end.

(** [s.replace(a, b)] for one-character [a] and [b]. *)
Fixpoint replace_char (a b : ascii) (s : string) : string :=
  match s with
  | EmptyString => EmptyString
  | String c s' => String (if Ascii.eqb c a then b else c) (replace_char a b s')
  end.

(** White space as [str.strip()] and [str.isspace()] have it, by the
    length of the encoding. One byte: U+0009..U+000D, U+001C..U+001F and
    U+0020. *)
Definition space1 (c : ascii) : bool :=
  (((9 <=? byte c) && (byte c <=? 13))
   || ((28 <=? byte c) && (byte c <=? 32)))%N.

(** Two bytes: U+0085 (C2 85) and U+00A0 (C2 A0). *)
Definition space2 (c1 c2 : ascii) : bool :=
  (((byte c2 =? 133) || (byte c2 =? 160)) && (byte c1 =? 194))%N.

(** Three bytes: U+1680 (E1 9A 80); U+2000..U+200A, U+2028, U+2029 and
    U+202F (E2 80 80..8A, A8, A9, AF); U+205F (E2 81 9F); U+3000
    (E3 80 80). *)
Definition space3 (c1 c2 c3 : ascii) : bool :=
  (continuation c3
   && (((byte c1 =? 225) && (byte c2 =? 154) && (byte c3 =? 128))
       || ((byte c1 =? 226) && (byte c2 =? 128)
           && ((byte c3 <=? 138) || (byte c3 =? 168) || (byte c3 =? 169)
               || (byte c3 =? 175)))
       || ((byte c1 =? 226) && (byte c2 =? 129) && (byte c3 =? 159))
       || ((byte c1 =? 227) && (byte c2 =? 128) && (byte c3 =? 128))))%N.

Section StripWith.

(** What counts as white space at the head of the bytes: in one byte, in
    two, in three. *)
Variable s1 : ascii -> bool.
Variable s2 : ascii -> ascii -> bool.
Variable s3 : ascii -> ascii -> ascii -> bool.

(** The bytes without the white space they start with. *)
Fixpoint strip_with (l : list ascii) : list ascii :=
  match l with
  | [] => []
  | c1 :: l1 =>
      if s1 c1 then strip_with l1
      else
        match l1 with
        | [] => l
        | c2 :: l2 =>
            if s2 c1 c2 then strip_with l2
            else
              match l2 with
              | [] => l
              | c3 :: l3 => if s3 c1 c2 c3 then strip_with l3 else l
              end
        end
  end.

End StripWith.

(** [s.lstrip()] on the bytes. *)
Definition lstrip_chars : list ascii -> list ascii :=
  strip_with space1 space2 space3.

(** [s.rstrip()] on the bytes in reverse: the last byte of a code point
    comes first. *)
Definition rstrip_reversed : list ascii -> list ascii :=
  strip_with space1 (fun c2 c1 => space2 c1 c2)
    (fun c3 c2 c1 => space3 c1 c2 c3).

(** [s.strip()] *)
Definition strip (s : string) : string :=
  string_of_list_ascii
    (rev (rstrip_reversed (rev (lstrip_chars (list_ascii_of_string s))))).

(** [str(n)] for a non-negative integer. *)
Definition str_of_nat (n : nat) : string :=
  NilZero.string_of_uint (Nat.to_uint n).

(** Truthiness of an optional string: [None] and the empty string are false. *)
Definition truthy_str (s : option string) : bool :=
  match s with
  | Some (String _ _) => true
  | _ => false
  end.

Definition truthy_list {A} (l : option (list A)) : bool :=
  match l with
  | Some (_ :: _) => true
  | _ => false
  end.

End Py.

Import Py.

(** ** app/core/state.py and app/core/config.py: the data the nodes share

    Neither file is among the sources; the types are read off their uses in
    the nodes, and the one setting the retriever reads has the default of
    backend_config_old.py. *)

Module State.

Inductive Intent : Type :=
| ANSWER_GENERATION
| ANSWER_EVALUATION
| DOUBT_CLARIFICATION
| QUESTION_GENERATION
| EXAM_PAPER_GENERATION.

(** [intent.value] *)
Definition Intent_value (i : Intent) : string :=
  match i with
  | ANSWER_GENERATION => "answer_generation"
  | ANSWER_EVALUATION => "answer_evaluation"
  | DOUBT_CLARIFICATION => "doubt_clarification"
  | QUESTION_GENERATION => "question_generation"
  | EXAM_PAPER_GENERATION => "exam_paper_generation"
  end.

(** The two members graph.py uses. *)
Inductive ProcessingStatus : Type := IN_PROGRESS | COMPLETED.

(** The metadata dict of a chunk; every key is read with [.get]. *)
Record Metadata : Type := {
  md_user_id : option Z;
  md_visibility : option string;
  md_document_type : option string;
  md_document_id : option Z
}.

(** [{}] *)
Definition empty_metadata : Metadata :=
  {| md_user_id := None; md_visibility := None;
     md_document_type := None; md_document_id := None |}.

(** One entry of [search_results["results"]]. *)
Record Hit : Type := {
  hit_document : option string;
  hit_metadata : option Metadata;
  hit_similarity : option float
}.

Record RetrievedDocument : Type := {
  document_id : Z;
  document_type : string;
  chunk_text : string;
  similarity_score : float;
  metadata : Metadata
}.

Record TaskData : Type := {
  source_type : option string;
  has_relevant_notes : option bool
}.

(** [intent = None] is a state without the key, as [state.get("intent", ...)]
    reads it. The evaluation and the questions are dicts of the task nodes;
    only their presence is read here. *)
Record GraphState : Type := {
  user_id : Z;
  query : string;
  conversation_id : option Z;
  intent : option Intent;
  retrieved_documents : list RetrievedDocument;
  context : string;
  document_types_available : list string;
  retrieval_query : option string;
  nodes_visited : list string;
  status : option ProcessingStatus;
  processing_time : option float;
  generated_answer : option string;
  evaluation_result : option (list (string * string));
  final_response : option string;
  generated_questions : option (list (list (string * string)));
  task_data : TaskData
}.

(** Modelled from the spec: [create_initial_state] (app/core/state.py), the
    pipeline state "created at pipeline start" with nothing retrieved,
    nothing visited and no output yet. *)
Definition create_initial_state (uid : Z) (q : string) (cid : option Z)
  : GraphState :=
  {| user_id := uid; query := q; conversation_id := cid; intent := None;
     retrieved_documents := []; context := ""; document_types_available := [];
     retrieval_query := None; nodes_visited := []; status := None;
     processing_time := None; generated_answer := None;
     evaluation_result := None; final_response := None;
     generated_questions := None;
     task_data := {| source_type := None; has_relevant_notes := None |} |}.

(** In-place updates of the state dict, one per assignment in the nodes. *)
Definition set_intent (st : GraphState) (i : option Intent) : GraphState :=
  {| user_id := user_id st; query := query st;
     conversation_id := conversation_id st; intent := i;
     retrieved_documents := retrieved_documents st; context := context st;
     document_types_available := document_types_available st;
     retrieval_query := retrieval_query st; nodes_visited := nodes_visited st;
     status := status st; processing_time := processing_time st;
     generated_answer := generated_answer st;
     evaluation_result := evaluation_result st;
     final_response := final_response st;
     generated_questions := generated_questions st;
     task_data := task_data st |}.

Definition set_retrieved_documents (st : GraphState)
  (docs : list RetrievedDocument) : GraphState :=
  {| user_id := user_id st; query := query st;
     conversation_id := conversation_id st; intent := intent st;
     retrieved_documents := docs; context := context st;
     document_types_available := document_types_available st;
     retrieval_query := retrieval_query st; nodes_visited := nodes_visited st;
     status := status st; processing_time := processing_time st;
     generated_answer := generated_answer st;
     evaluation_result := evaluation_result st;
     final_response := final_response st;
     generated_questions := generated_questions st;
     task_data := task_data st |}.

Definition set_context (st : GraphState) (c : string) : GraphState :=
  {| user_id := user_id st; query := query st;
     conversation_id := conversation_id st; intent := intent st;
     retrieved_documents := retrieved_documents st; context := c;
     document_types_available := document_types_available st;
     retrieval_query := retrieval_query st; nodes_visited := nodes_visited st;
     status := status st; processing_time := processing_time st;
     generated_answer := generated_answer st;
     evaluation_result := evaluation_result st;
     final_response := final_response st;
     generated_questions := generated_questions st;
     task_data := task_data st |}.

Definition set_document_types_available (st : GraphState)
  (types : list string) : GraphState :=
  {| user_id := user_id st; query := query st;
     conversation_id := conversation_id st; intent := intent st;
     retrieved_documents := retrieved_documents st; context := context st;
     document_types_available := types;
     retrieval_query := retrieval_query st; nodes_visited := nodes_visited st;
     status := status st; processing_time := processing_time st;
     generated_answer := generated_answer st;
     evaluation_result := evaluation_result st;
     final_response := final_response st;
     generated_questions := generated_questions st;
     task_data := task_data st |}.

Definition set_retrieval_query (st : GraphState) (q : string) : GraphState :=
  {| user_id := user_id st; query := query st;
     conversation_id := conversation_id st; intent := intent st;
     retrieved_documents := retrieved_documents st; context := context st;
     document_types_available := document_types_available st;
     retrieval_query := Some q; nodes_visited := nodes_visited st;
     status := status st; processing_time := processing_time st;
     generated_answer := generated_answer st;
     evaluation_result := evaluation_result st;
     final_response := final_response st;
     generated_questions := generated_questions st;
     task_data := task_data st |}.

(** [state["nodes_visited"].append(name)] *)
Definition append_visited (st : GraphState) (name : string) : GraphState :=
  {| user_id := user_id st; query := query st;
     conversation_id := conversation_id st; intent := intent st;
     retrieved_documents := retrieved_documents st; context := context st;
     document_types_available := document_types_available st;
     retrieval_query := retrieval_query st;
     nodes_visited := (nodes_visited st ++ [name])%list;
     status := status st; processing_time := processing_time st;
     generated_answer := generated_answer st;
     evaluation_result := evaluation_result st;
     final_response := final_response st;
     generated_questions := generated_questions st;
     task_data := task_data st |}.

Definition set_status (st : GraphState) (s : ProcessingStatus) : GraphState :=
  {| user_id := user_id st; query := query st;
     conversation_id := conversation_id st; intent := intent st;
     retrieved_documents := retrieved_documents st; context := context st;
     document_types_available := document_types_available st;
     retrieval_query := retrieval_query st; nodes_visited := nodes_visited st;
     status := Some s; processing_time := processing_time st;
     generated_answer := generated_answer st;
     evaluation_result := evaluation_result st;
     final_response := final_response st;
     generated_questions := generated_questions st;
     task_data := task_data st |}.

Definition set_processing_time (st : GraphState) (t : float) : GraphState :=
  {| user_id := user_id st; query := query st;
     conversation_id := conversation_id st; intent := intent st;
     retrieved_documents := retrieved_documents st; context := context st;
     document_types_available := document_types_available st;
     retrieval_query := retrieval_query st; nodes_visited := nodes_visited st;
     status := status st; processing_time := Some t;
     generated_answer := generated_answer st;
     evaluation_result := evaluation_result st;
     final_response := final_response st;
     generated_questions := generated_questions st;
     task_data := task_data st |}.

Definition set_final_response (st : GraphState) (r : string) : GraphState :=
  {| user_id := user_id st; query := query st;
     conversation_id := conversation_id st; intent := intent st;
     retrieved_documents := retrieved_documents st; context := context st;
     document_types_available := document_types_available st;
     retrieval_query := retrieval_query st; nodes_visited := nodes_visited st;
     status := status st; processing_time := processing_time st;
     generated_answer := generated_answer st;
     evaluation_result := evaluation_result st;
     final_response := Some r;
     generated_questions := generated_questions st;
     task_data := task_data st |}.

Definition set_task_data (st : GraphState) (d : TaskData) : GraphState :=
  {| user_id := user_id st; query := query st;
     conversation_id := conversation_id st; intent := intent st;
     retrieved_documents := retrieved_documents st; context := context st;
     document_types_available := document_types_available st;
     retrieval_query := retrieval_query st; nodes_visited := nodes_visited st;
     status := status st; processing_time := processing_time st;
     generated_answer := generated_answer st;
     evaluation_result := evaluation_result st;
     final_response := final_response st;
     generated_questions := generated_questions st;
     task_data := d |}.

Record Settings : Type := { SIMILARITY_THRESHOLD : float }.

Definition settings : Settings := {| SIMILARITY_THRESHOLD := 0.7 |}.

End State.

Import State.

(** ** app/nodes/document_retriever.py *)

Module DocumentRetriever.

(** Number of documents to retrieve per intent. *)
Definition RETRIEVAL_COUNTS (i : Intent) : Z :=
  match i with
  | ANSWER_GENERATION => 10
  | ANSWER_EVALUATION => 5
  | DOUBT_CLARIFICATION => 8
  | QUESTION_GENERATION => 10
  | EXAM_PAPER_GENERATION => 15
  end.

(** Document type priorities per intent. *)
Definition DOCUMENT_TYPE_PRIORITIES (i : Intent) : list string :=
  match i with
  | ANSWER_GENERATION => ["marking_scheme"; "notes"; "question_paper"]
  | ANSWER_EVALUATION => ["marking_scheme"]
  | DOUBT_CLARIFICATION => ["notes"; "marking_scheme"]
  | QUESTION_GENERATION => ["notes"; "question_paper"]
  | EXAM_PAPER_GENERATION => ["notes"; "question_paper"; "marking_scheme"]
  end.

Definition _enhance_query (query : string) (i : Intent) : string :=
  let enhancement :=
    match i with
    | ANSWER_GENERATION => "answer solution explanation"
    | ANSWER_EVALUATION => "marking scheme grading criteria"
    | DOUBT_CLARIFICATION => "explanation concept definition"
    | QUESTION_GENERATION => "questions examples problems"
    | EXAM_PAPER_GENERATION => "questions topics syllabus"
    end in
  strip (query ++ " " ++ enhancement).

(** [{"result": result, "score": score}] *)
Record Scored : Type := { result : Hit; score : float }.

(** The access check of the loop: true when the hit is skipped. *)
Definition access_denied (uid : Z) (md : Metadata) : bool :=
  opt_Z_neq (md_user_id md) (Some uid)
  && opt_str_neq (md_visibility md) (Some "public").

(** The score the loop computes for a hit: its similarity, plus the boost of
    its document type when the type is in the priority list. *)
Definition boosted_score (type_priorities : list string) (r : Hit) : float :=
  let md := get (hit_metadata r) empty_metadata in
  let score := get (hit_similarity r) 0%float in
  let doc_type := get (md_document_type md) "other" in
  match index doc_type type_priorities with
  | Some priority_index =>
      let boost :=
        (PyFloat.of_nat (List.length type_priorities - priority_index) * 0.1)%float in
      (score + boost)%float
  | None => score
  end.

(** The [for result in results] loop: the scored results it appends. *)
Fixpoint score_results (cfg : Settings) (type_priorities : list string)
  (uid : Z) (results : list Hit) : list Scored :=
  match results with
  | [] => []
  | r :: rest =>
      let md := get (hit_metadata r) empty_metadata in
      if access_denied uid md then
        score_results cfg type_priorities uid rest
      else
        let s := boosted_score type_priorities r in
        if PyFloat.geb s (SIMILARITY_THRESHOLD cfg) then
          {| result := r; score := s |}
            :: score_results cfg type_priorities uid rest
        else score_results cfg type_priorities uid rest
  end.

(** [search_results] is the list under its ["results"] key ([[]] when the
    key is absent). *)
Definition _filter_and_rank_results (cfg : Settings) (search_results : list Hit)
  (i : Intent) (uid : Z) (n_results : Z) : list Hit :=
  match search_results with
  | [] => []
  | _ =>
      let type_priorities := DOCUMENT_TYPE_PRIORITIES i in
      let scored_results := score_results cfg type_priorities uid search_results in
      let scored_results := sort_reverse score scored_results in
      map result (slice_to n_results scored_results)
  end.

Definition format_document (r : Hit) : RetrievedDocument :=
  let md := get (hit_metadata r) empty_metadata in
  {| document_id := get (md_document_id md) 0%Z;
     document_type := get (md_document_type md) "other";
     chunk_text := get (hit_document r) "";
     similarity_score := get (hit_similarity r) 0%float;
     metadata := md |}.

Definition _format_retrieved_documents (results : list Hit)
  : list RetrievedDocument :=
  map format_document results.

(** [by_type]: a dict keeps its keys in insertion order. *)
Fixpoint group_add (doc : RetrievedDocument)
  (by_type : list (string * list RetrievedDocument))
  : list (string * list RetrievedDocument) :=
  match by_type with
  | [] => [(document_type doc, [doc])]
  | (t, docs) :: rest =>
      if String.eqb t (document_type doc) then (t, (docs ++ [doc])%list) :: rest
      else (t, docs) :: group_add doc rest
  end.

Definition group_by_type (documents : list RetrievedDocument)
  : list (string * list RetrievedDocument) :=
  fold_left (fun by_type doc => group_add doc by_type) documents [].

Section Context.

(** [s.upper()], the uppercase mapping of Unicode. *)
Variable upper : string -> string.

(** [f"{x:.2f}"], the two-decimal rendering of a float. *)
Variable format_2f : float -> string.

(** [enumerate(docs, 1)] with the chunk lines of one group. *)
Fixpoint chunk_parts (i : nat) (docs : list RetrievedDocument) : list string :=
  match docs with
  | [] => []
  | doc :: rest =>
      let chunk_info :=
        "[Chunk " ++ str_of_nat i ++ " | Similarity: "
        ++ format_2f (similarity_score doc) ++ "]" in
      (chunk_info ++ nl ++ chunk_text doc ++ nl) :: chunk_parts (S i) rest
  end.

Definition group_parts (g : string * list RetrievedDocument) : list string :=
  let (doc_type, docs) := g in
  (nl ++ "--- " ++ replace_char "_" " " (upper doc_type) ++ " ---" ++ nl)
    :: chunk_parts 1 docs.

Definition _build_context (documents : list RetrievedDocument) : string :=
  match documents with
  | [] => ""
  | _ => String.concat nl (flat_map group_parts (group_by_type documents))
  end.

End Context.

(** [list(set(...))] of strings: every element once, in the order the set
    happens to iterate, which the language leaves open. *)
Definition ListOfSet : Type :=
  forall l : list string,
    {l' : list string | NoDup l' /\ forall t, In t l' <-> In t l}.

Section Retrieve.

Variable World : Type.
Variable upper : string -> string.
Variable format_2f : float -> string.
Variable list_of_set : ListOfSet.

Definition distinct_types (docs : list RetrievedDocument) : list string :=
  proj1_sig (list_of_set (map document_type docs)).

(** [self.vector_store.search(query=..., n_results=...)], with the lazy
    [get_vector_store()] before it: the search capability, which may raise. *)
Variable vector_search : string -> Z -> M World (list Hit).

Variable cfg : Settings.

Definition retrieve (state : GraphState) : M World GraphState :=
  let query := query state in
  let i := get (intent state) DOUBT_CLARIFICATION in
  let uid := user_id state in
  try_except
    (let enhanced_query := _enhance_query query i in
     let n_results := RETRIEVAL_COUNTS i in
     search_results <- vector_search enhanced_query (n_results * 2)%Z ;;
     let filtered_results :=
       _filter_and_rank_results cfg search_results i uid n_results in
     let retrieved_docs := _format_retrieved_documents filtered_results in
     let context := _build_context upper format_2f retrieved_docs in
     let doc_types := distinct_types retrieved_docs in
     let state := set_retrieved_documents state retrieved_docs in
     let state := set_context state context in
     let state := set_document_types_available state doc_types in
     let state := set_retrieval_query state enhanced_query in
     let state := append_visited state "document_retriever" in
     ret state)
    (fun e =>
     let state := set_retrieved_documents state [] in
     let state := set_context state "" in
     let state := set_document_types_available state [] in
     let state := append_visited state "document_retriever" in
     ret state).

(** The LangGraph node function. *)
Definition retrieve_documents_node (state : GraphState) : M World GraphState :=
  retrieve state.

End Retrieve.

End DocumentRetriever.

(** ** app/nodes/doubt_resolver.py *)

Module DoubtResolver.

(** [doc.get("similarity_score", 0) >= 0.7] is counted over the documents;
    a [RetrievedDocument] always carries its score. *)
Definition _check_relevance (retrieved_docs : list RetrievedDocument) : bool :=
  match retrieved_docs with
  | [] => false
  | _ =>
      let relevant_count :=
        List.length
          (filter (fun doc => PyFloat.geb (similarity_score doc) 0.7)
                  retrieved_docs) in
      (2 <=? relevant_count)%nat
  end.

Definition _format_response (answer source_type : string)
  (has_relevant_notes : bool) : string :=
  let (header, footer) :=
    if String.eqb source_type "notes" then
      ("## Answer (Based on Your Notes)" ++ nl ++ nl,
       nl ++ nl ++ "---" ++ nl
       ++ "📚 *This answer is based on your uploaded notes.*")
    else
      ("## Answer" ++ nl ++ nl,
       nl ++ nl ++ "---" ++ nl
       ++ "⚠️ *This answer is based on general knowledge as your uploaded notes don't contain sufficient information on this topic. Please verify with your study materials.*")
  in header ++ answer ++ footer.

Section Resolve.

Variable World : Type.

(** [llm_service.generate(prompt, system_prompt, temperature, max_tokens)],
    with [get_llm_service()] before it. *)
Variable llm_generate : string -> string -> float -> Z -> M World string.

(** app/core/prompts.py: the two system prompts, and the two templates as
    the functions [.format(query=..., context=...)] makes of them. *)
Variables DOUBT_RESOLVER_SYSTEM DOUBT_RESOLVER_GENERAL_SYSTEM : string.
Variable DOUBT_RESOLVER_NOTES_PROMPT : string -> string -> string.
Variable DOUBT_RESOLVER_GENERAL_PROMPT : string -> string.

(** [str(WorkflowNodeException(node_name, reason, ...))]
    (app/core/exceptions.py is not among the sources). *)
Variable node_exception_str : string -> string -> string.

Definition WorkflowNodeException (node_name reason : string) : exn :=
  Exception "WorkflowNodeException" (node_exception_str node_name reason).

Definition _answer_from_notes (query context : string)
  : M World (string * string) :=
  let prompt := DOUBT_RESOLVER_NOTES_PROMPT query context in
  let system_prompt := DOUBT_RESOLVER_SYSTEM in
  answer <- llm_generate prompt system_prompt 0.7%float 1500%Z ;;
  ret (strip answer, "notes").

Definition _answer_from_general_knowledge (query : string)
  : M World (string * string) :=
  let prompt := DOUBT_RESOLVER_GENERAL_PROMPT query in
  let system_prompt := DOUBT_RESOLVER_GENERAL_SYSTEM in
  answer <- llm_generate prompt system_prompt 0.8%float 1500%Z ;;
  ret (strip answer, "general_knowledge").

Definition resolve (state : GraphState) : M World GraphState :=
  let query := query state in
  let context := context state in
  let retrieved_docs := retrieved_documents state in
  try_except
    (let has_relevant_notes := _check_relevance retrieved_docs in
     r <- (if has_relevant_notes then _answer_from_notes query context
           else _answer_from_general_knowledge query) ;;
     let (answer, source_type) := r in
     let formatted_response :=
       _format_response answer source_type has_relevant_notes in
     let state := set_final_response state formatted_response in
     let state :=
       set_task_data state
         {| State.source_type := Some source_type;
            State.has_relevant_notes := State.has_relevant_notes (task_data state) |} in
     let state :=
       set_task_data state
         {| State.source_type := Some source_type;
            State.has_relevant_notes := Some has_relevant_notes |} in
     let state := append_visited state "doubt_resolver" in
     ret state)
    (fun e => raise (WorkflowNodeException "doubt_resolver" (exn_str e))).

Definition resolve_doubt_node (state : GraphState) : M World GraphState :=
  resolve state.

End Resolve.

End DoubtResolver.

(** ** app/nodes/router.py *)

Module Router.

(** Modelled from the spec: [route_after_intent] (app/nodes/router.py is not
    among the sources). "If the classified intent is unrecognized or
    classification failed, transition directly to DONE; otherwise transition
    to RETRIEVE for all five known intents." The value is the route key
    that graph.py maps to a node or to END. *)
Definition route_after_intent (state : GraphState) : Result string :=
  match intent state with
  | Some _ => Ok "retrieve_documents"
  | None => Ok "end"
  end.

(** Modelled from the spec: the [UnsupportedIntent] of the error taxonomy,
    "(router has no bound executor) — fatal but distinct from classification
    failure". Like the other fatal errors it is an exception, named as the
    taxonomy names it. *)
Definition UnsupportedIntent : exn :=
  Exception "UnsupportedIntent" "unsupported intent".

(** Modelled from the spec: [route_after_retrieval] (app/nodes/router.py is
    not among the sources). "A 1:1 mapping from Intent to its task state";
    "EXAM_PAPER_GENERATION currently has no bound executor and must route
    to DONE with an explicit unsupported intent signal rather than silently
    no-op". The router gives graph.py a route key, or signals by raising. *)
Definition route_after_retrieval (state : GraphState) : Result string :=
  match intent state with
  | Some ANSWER_GENERATION => Ok "generate_answer"
  | Some ANSWER_EVALUATION => Ok "evaluate_answer"
  | Some DOUBT_CLARIFICATION => Ok "resolve_doubt"
  | Some QUESTION_GENERATION => Ok "generate_questions"
  | Some EXAM_PAPER_GENERATION => Raise UnsupportedIntent
  | None => Ok "end"
  end.

End Router.

(** ** app/workflows/graph.py *)

Module Workflow.

(** [d[key]] on a dict given as its items. *)
Fixpoint lookup {B : Type} (key : string) (items : list (string * B)) : option B :=
  match items with
  | [] => None
  | (k, v) :: rest => if String.eqb key k then Some v else lookup key rest
  end.

Record ResponseMetadata : Type := {
  meta_user_id : Z;
  meta_conversation_id : option Z;
  document_types_used : list string;
  num_documents_retrieved : nat;
  context_length : option nat
}.

(** The dict [process_query] returns: ["success": True] with the fields of
    [_build_response], or ["success": False] with the error fields. *)
Inductive Response : Type :=
| Success (intent_value : string) (processing_time : float)
    (nodes_visited : list string) (metadata : ResponseMetadata)
    (answer : option string) (evaluation : option (list (string * string)))
    (response : option string)
    (questions : option (list (list (string * string))))
| Failure (error : string) (error_type : string) (processing_time : float)
    (user_id : Z) (query : string).

Definition success (r : Response) : bool :=
  match r with
  | Success _ _ _ _ _ _ _ _ => true
  | Failure _ _ _ _ _ => false
  end.

Definition response_nodes_visited (r : Response) : option (list string) :=
  match r with
  | Success _ _ nodes _ _ _ _ _ => Some nodes
  | Failure _ _ _ _ _ => None
  end.

Definition response_intent (r : Response) : option string :=
  match r with
  | Success i _ _ _ _ _ _ _ => Some i
  | Failure _ _ _ _ _ => None
  end.

Definition response_processing_time (r : Response) : float :=
  match r with
  | Success _ t _ _ _ _ _ _ => t
  | Failure _ _ t _ _ => t
  end.

Definition _build_response (state : GraphState) : Response :=
  Success
    (match intent state with Some i => Intent_value i | None => "unknown" end)
    (get (State.processing_time state) 0%float)
    (State.nodes_visited state)
    {| meta_user_id := State.user_id state;
       meta_conversation_id := conversation_id state;
       document_types_used := document_types_available state;
       num_documents_retrieved := List.length (retrieved_documents state);
       context_length :=
         match context state with
         | EmptyString => None
         | c => Some (len c)
         end |}
    (if truthy_str (generated_answer state) then generated_answer state else None)
    (if truthy_list (evaluation_result state) then evaluation_result state else None)
    (if truthy_str (final_response state) then final_response state else None)
    (if truthy_list (generated_questions state) then generated_questions state else None).

Record WorkflowInfo : Type := {
  info_nodes : list string;
  info_entry_point : string;
  supported_intents : list string
}.

Definition get_workflow_info : WorkflowInfo :=
  {| info_nodes :=
       ["classify_intent"; "retrieve_documents"; "generate_answer";
        "evaluate_answer"; "resolve_doubt"; "generate_questions"];
     info_entry_point := "classify_intent";
     supported_intents :=
       ["answer_generation"; "answer_evaluation"; "doubt_clarification";
        "question_generation"] |}.

Section Graph.

Variable World : Type.

Definition NodeFn : Type := GraphState -> M World GraphState.

(** The target of an edge: a node, or LangGraph's [END]. *)
Inductive Target : Type :=
| Node (name : string)
| END.

(** A [StateGraph] as the builder calls leave it. *)
Record StateGraph : Type := {
  nodes : list (string * NodeFn);
  entry_point : option string;
  conditional_edges :
    list (string * ((GraphState -> Result string) * list (string * Target)));
  edges : list (string * Target)
}.

Definition empty_graph : StateGraph :=
  {| nodes := []; entry_point := None; conditional_edges := []; edges := [] |}.

Definition add_node (g : StateGraph) (name : string) (f : NodeFn) : StateGraph :=
  {| nodes := (nodes g ++ [(name, f)])%list; entry_point := entry_point g;
     conditional_edges := conditional_edges g; edges := edges g |}.

Definition set_entry_point (g : StateGraph) (name : string) : StateGraph :=
  {| nodes := nodes g; entry_point := Some name;
     conditional_edges := conditional_edges g; edges := edges g |}.

Definition add_conditional_edges (g : StateGraph) (source : string)
  (router : GraphState -> Result string) (path_map : list (string * Target))
  : StateGraph :=
  {| nodes := nodes g; entry_point := entry_point g;
     conditional_edges :=
       (conditional_edges g ++ [(source, (router, path_map))])%list;
     edges := edges g |}.

Definition add_edge (g : StateGraph) (source : string) (target : Target)
  : StateGraph :=
  {| nodes := nodes g; entry_point := entry_point g;
     conditional_edges := conditional_edges g;
     edges := (edges g ++ [(source, target)])%list |}.

(** LangGraph's run of a compiled graph from one node: call the node, then
    follow its conditional edge (the router's key looked up in the path
    map) or its plain edge. A node or router that raises ends the run with
    that exception. LangGraph stops a run after [recursion_limit] steps. *)
Fixpoint run_from (g : StateGraph) (steps : nat) (name : string)
  (state : GraphState) : M World GraphState :=
  match steps with
  | O => raise (Exception "GraphRecursionError" "Recursion limit reached")
  | S steps' =>
      match lookup name (nodes g) with
      | None => raise (Exception "ValueError" name)
      | Some f =>
          state' <- f state ;;
          match lookup name (conditional_edges g) with
          | Some (router, path_map) =>
              match router state' with
              | Raise e => raise e
              | Ok key =>
                  match lookup key path_map with
                  | Some (Node next) => run_from g steps' next state'
                  | Some END => ret state'
                  | None => raise (Exception "KeyError" key)
                  end
              end
          | None =>
              match lookup name (edges g) with
              | Some (Node next) => run_from g steps' next state'
              | Some END => ret state'
              | None => ret state'
              end
          end
      end
  end.

Definition recursion_limit : nat := 25.

(** [graph.ainvoke(initial_state)] *)
Definition ainvoke (g : StateGraph) (state : GraphState) : M World GraphState :=
  match entry_point g with
  | Some name => run_from g recursion_limit name state
  | None => raise (Exception "ValueError" "Graph must have an entrypoint")
  end.

End Graph.

Section Orchestrator.

Variable World : Type.

(** The node functions of the modules that are not among the sources. *)
Variables classify_intent_node generate_answer_node evaluate_answer_node
  generate_questions_node : NodeFn World.

(** The node functions of document_retriever.py and doubt_resolver.py. *)
Variables retrieve_documents_node resolve_doubt_node : NodeFn World.

(** [time.time()]: reads the clock of the world; it does not raise. *)
Variable time_time : World -> float * World.

Definition now : M World float :=
  fun w => let (t, w') := time_time w in (Ok t, w').

Definition _build_graph : StateGraph World :=
  let workflow := empty_graph World in
  let workflow := add_node workflow "classify_intent" classify_intent_node in
  let workflow := add_node workflow "retrieve_documents" retrieve_documents_node in
  let workflow := add_node workflow "generate_answer" generate_answer_node in
  let workflow := add_node workflow "evaluate_answer" evaluate_answer_node in
  let workflow := add_node workflow "resolve_doubt" resolve_doubt_node in
  let workflow := add_node workflow "generate_questions" generate_questions_node in
  let workflow := set_entry_point workflow "classify_intent" in
  let workflow :=
    add_conditional_edges workflow "classify_intent" Router.route_after_intent
      [("retrieve_documents", Node "retrieve_documents"); ("end", END)] in
  let workflow :=
    add_conditional_edges workflow "retrieve_documents"
      Router.route_after_retrieval
      [("generate_answer", Node "generate_answer");
       ("evaluate_answer", Node "evaluate_answer");
       ("resolve_doubt", Node "resolve_doubt");
       ("generate_questions", Node "generate_questions");
       ("end", END)] in
  let workflow := add_edge workflow "generate_answer" END in
  let workflow := add_edge workflow "evaluate_answer" END in
  let workflow := add_edge workflow "resolve_doubt" END in
  let workflow := add_edge workflow "generate_questions" END in
  workflow.

Definition process_query (uid : Z) (q : string) (cid : option Z)
  : M World Response :=
  start_time <- now ;;
  try_except
    (let initial_state := create_initial_state uid q cid in
     let initial_state := set_status initial_state IN_PROGRESS in
     final_state <- ainvoke _build_graph initial_state ;;
     end_time <- now ;;
     let processing_time := (end_time - start_time)%float in
     let final_state := set_processing_time final_state processing_time in
     let final_state := set_status final_state COMPLETED in
     ret (_build_response final_state))
    (fun e =>
     end_time <- now ;;
     let processing_time := (end_time - start_time)%float in
     ret (Failure (exn_str e) (exn_type e) processing_time uid q)).

End Orchestrator.

End Workflow.

(** ** app/api/chat.py: the streaming endpoint up to the generation call *)

Module Chat.

(** A row of the [messages] table. [id] is its primary key. *)
Record MessageRow : Type := {
  id : Z;
  row_conversation_id : Z;
  role : string;
  content : string;
  row_intent : option string;
  row_metadata : option string
}.

(** The table: its rows, in whatever order they are stored. *)
Definition Table : Type := list MessageRow.

(** The id SQLite gives an inserted row: one past the largest in use. *)
Definition next_id (db : Table) : Z := 1 + fold_right Z.max 0%Z (map id db).

(** [save_message]: [INSERT INTO messages (...) VALUES (...)]. *)
Definition save_message (db : Table) (cid : Z) (r c : string)
  (i metadata_json : option string) : Table :=
  (db ++ [{| id := next_id db; row_conversation_id := cid; role := r;
             content := c; row_intent := i;
             row_metadata := metadata_json |}])%list.

(** [ORDER BY id DESC] *)
Fixpoint insert_by_id_desc (r : MessageRow) (l : list MessageRow)
  : list MessageRow :=
  match l with
  | [] => [r]
  | r' :: l' =>
      if (id r <? id r')%Z then r' :: insert_by_id_desc r l'
      else r :: r' :: l'
  end.

Definition order_by_id_desc (l : list MessageRow) : list MessageRow :=
  fold_right insert_by_id_desc [] l.

(** Rows in the order of their ids, oldest first, and newest first. *)
Definition chronological (rows : list MessageRow) : Prop :=
  StronglySorted (fun a b => (id a <= id b)%Z) rows.

Definition newest_first (rows : list MessageRow) : Prop :=
  StronglySorted (fun a b => (id b <= id a)%Z) rows.

(** [WHERE conversation_id = ?] *)
Definition conversation_rows (db : Table) (cid : Z) : list MessageRow :=
  filter (fun r => Z.eqb (row_conversation_id r) cid) db.

(** The rows of
    [SELECT role, content FROM messages WHERE conversation_id = ?
     ORDER BY id DESC LIMIT 10]
    before the projection to [(role, content)]. *)
Definition select_last_rows (db : Table) (cid : Z) : list MessageRow :=
  firstn 10 (order_by_id_desc (conversation_rows db cid)).

(** [cursor.fetchall()]: each row is [(row[0], row[1])]. *)
Definition fetchall (rows : list MessageRow) : list (string * string) :=
  map (fun r => (role r, content r)) rows.

(** [cursor.fetchall()[::-1]] *)
Definition fetch_history (db : Table) (cid : Z) : list (string * string) :=
  rev (fetchall (select_last_rows db cid)).

(** One entry of the [messages] list handed to the chat model. *)
Record Message : Type := { msg_role : string; msg_content : string }.

(** [if history_rows and history_rows[-1][1] == query:
       history_rows = history_rows[:-1]] *)
Definition exclude_current (history_rows : list (string * string))
  (query : string) : list (string * string) :=
  match rev history_rows with
  | last_row :: _ =>
      if String.eqb (snd last_row) query then drop_last history_rows
      else history_rows
  | [] => history_rows
  end.

Section Messages.

Variables DOUBT_RESOLVER_SYSTEM DOUBT_RESOLVER_GENERAL_SYSTEM : string.

Definition final_query_of (context query : string) : string :=
  match context with
  | EmptyString => query
  | _ =>
      "Context information is below." ++ nl
      ++ "---------------------" ++ nl
      ++ context ++ nl
      ++ "---------------------" ++ nl
      ++ "Given the context information and not prior knowledge, answer the query."
      ++ nl ++ "Query: " ++ query
  end.

Definition system_prompt_of (context : string) : string :=
  match context with
  | EmptyString => DOUBT_RESOLVER_GENERAL_SYSTEM
  | _ => DOUBT_RESOLVER_SYSTEM
  end.

(** Step 3 of [event_generator]: the system prompt, the history, then the
    current query. *)
Definition build_messages (history_rows : list (string * string))
  (context query : string) : list Message :=
  let system_prompt_text := system_prompt_of context in
  let final_query := final_query_of context query in
  let messages := [{| msg_role := "system"; msg_content := system_prompt_text |}] in
  let history_rows := exclude_current history_rows query in
  let messages :=
    (messages
     ++ map (fun row => {| msg_role := fst row; msg_content := snd row |})
            history_rows)%list in
  (messages ++ [{| msg_role := "user"; msg_content := final_query |}])%list.

Variable World : Type.

(** [DocumentRetriever().retrieve] *)
Variable retrieve : GraphState -> M World GraphState.

(** [event_generator] from the history query to the message list it passes
    to [llm_service.chat_stream]; [db] is the table as it reads it. *)
Definition event_generator_messages (db : Table) (uid : Z) (query : string)
  (cid : Z) : M World (list Message) :=
  let history_rows := fetch_history db cid in
  let state := create_initial_state uid query None in
  let state := set_intent state (Some DOUBT_CLARIFICATION) in
  state <- retrieve state ;;
  let context := State.context state in
  ret (build_messages history_rows context query).

(** [stream_query]: the user message is saved first, then the generator
    runs on the table that holds it. *)
Definition stream_query (db : Table) (uid : Z) (query : string) (cid : Z)
  : Table * M World (list Message) :=
  let db := save_message db cid "user" query None None in
  (db, event_generator_messages db uid query cid).

End Messages.

End Chat.

(** ** Vocabulary of the specification, and sample inputs *)

Module Spec.

Import DocumentRetriever.

(** The metadata the ranking code reads from a hit. *)
Definition metadata_of (r : Hit) : Metadata := get (hit_metadata r) empty_metadata.

(** A hit passes when access is granted and its boosted score reaches the
    threshold. *)
Definition passes (cfg : Settings) (type_priorities : list string) (uid : Z)
  (r : Hit) : bool :=
  negb (access_denied uid (metadata_of r))
  && PyFloat.geb (boosted_score type_priorities r) (SIMILARITY_THRESHOLD cfg).

(** The hits that pass, in the order of the search. *)
Definition admitted (cfg : Settings) (type_priorities : list string) (uid : Z)
  (hits : list Hit) : list Hit :=
  filter (passes cfg type_priorities uid) hits.

Definition mk_hit (text : string) (owner : Z) (visibility doc_type : string)
  (doc_id : Z) (similarity : float) : Hit :=
  {| hit_document := Some text;
     hit_metadata :=
       Some {| md_user_id := Some owner; md_visibility := Some visibility;
               md_document_type := Some doc_type;
               md_document_id := Some doc_id |};
     hit_similarity := Some similarity |}.

(** Sample hits for user 1: own notes below the threshold before the boost,
    a private chunk of user 2, a public marking scheme of user 2, own
    notes, and two own chunks of a type no intent lists. *)
Definition own_low_notes : Hit := mk_hit "n1" 1 "private" "notes" 10 0.65.
Definition foreign_private : Hit := mk_hit "x" 2 "private" "notes" 20 0.95.
Definition foreign_public : Hit := mk_hit "m" 2 "public" "marking_scheme" 30 0.9.
Definition own_notes : Hit := mk_hit "n2" 1 "private" "notes" 11 0.9.
Definition own_other : Hit := mk_hit "o" 1 "private" "slides" 12 0.9.
Definition own_other_2 : Hit := mk_hit "p" 1 "private" "slides" 13 0.9.

Definition sample_hits : list Hit :=
  [own_low_notes; foreign_private; own_other; foreign_public; own_other_2;
   own_notes].

(** The documents the doubt resolver counts as relevant. *)
Definition relevant_count (docs : list RetrievedDocument) : nat :=
  List.length (filter (fun doc => PyFloat.geb (similarity_score doc) 0.7) docs).

Section Pipeline.

Variable World : Type.

Variables classify_intent_node generate_answer_node evaluate_answer_node
  generate_questions_node retrieve_documents_node resolve_doubt_node
  : Workflow.NodeFn World.

(** The task executor bound to the intent of the state. None is bound to
    EXAM_PAPER_GENERATION, where the router signals, nor to a state without
    intent, where the run ends. *)
Definition dispatch (state : GraphState) : M World GraphState :=
  match intent state with
  | Some ANSWER_GENERATION => generate_answer_node state
  | Some ANSWER_EVALUATION => evaluate_answer_node state
  | Some DOUBT_CLARIFICATION => resolve_doubt_node state
  | Some QUESTION_GENERATION => generate_questions_node state
  | Some EXAM_PAPER_GENERATION => raise Router.UnsupportedIntent
  | None => ret state
  end.

(** The pipeline in the words of the specification: classify; stop when no
    intent was recognised; otherwise retrieve, then run the task executor
    of the intent. *)
Definition pipeline (state : GraphState) : M World GraphState :=
  state1 <- classify_intent_node state ;;
  match intent state1 with
  | None => ret state1
  | Some _ =>
      state2 <- retrieve_documents_node state1 ;;
      dispatch state2
  end.

End Pipeline.

End Spec.

(** ** A small world to run the pipeline in

    The world is a clock that counts the calls made to the collaborators;
    the stand-ins for the nodes that are not among the sources record the
    names the specification expects of them. *)

Module Demo.

Definition World : Type := nat.

Definition time_time (w : World) : float * World := (PyFloat.of_nat w, w).

(** A collaborator call that takes one tick and returns [a]. *)
Definition tick {A : Type} (a : A) : M World A := fun w => (Ok a, S w).

(** A collaborator call that takes one tick and raises [e]. *)
Definition fail {A : Type} (e : exn) : M World A := fun w => (Raise e, S w).

Definition format_2f (x : float) : string := "0.00".

(** A stand-in for [str.upper()]: the letters a to z only. *)
Definition upper_ascii (c : ascii) : ascii :=
  let n := nat_of_ascii c in
  if (97 <=? n)%nat && (n <=? 122)%nat then ascii_of_nat (n - 32) else c.

Fixpoint upper (s : string) : string :=
  match s with
  | EmptyString => EmptyString
  | String c s' => String (upper_ascii c) (upper s')
  end.

(** A stand-in for the order of a set: every element where it occurs
    last. *)
Definition list_of_set : DocumentRetriever.ListOfSet :=
  fun l =>
    exist _ (nodup string_dec l)
      (conj (NoDup_nodup string_dec l) (fun t => nodup_In string_dec l t)).

Definition search_finds (hits : list Hit) (q : string) (n : Z)
  : M World (list Hit) := tick hits.

Definition search_down (q : string) (n : Z) : M World (list Hit) :=
  fail (Exception "ConnectionError" "vector store unreachable").

Definition classify_as (i : Intent) (state : GraphState) : M World GraphState :=
  tick (append_visited (set_intent state (Some i)) "classify_intent").

Definition task (name : string) (state : GraphState) : M World GraphState :=
  tick (append_visited state name).

Definition broken_task (state : GraphState) : M World GraphState :=
  fail (Exception "GenerationError" "model unavailable").

Definition llm (prompt system_prompt : string) (temperature : float)
  (max_tokens : Z) : M World string := tick " Paris. ".

Definition node_exception_str (node_name reason : string) : string :=
  node_name ++ ": " ++ reason.

Definition retrieve (search : string -> Z -> M World (list Hit))
  : Workflow.NodeFn World :=
  DocumentRetriever.retrieve_documents_node upper format_2f list_of_set search
    settings.

Definition resolve_doubt : Workflow.NodeFn World :=
  DoubtResolver.resolve_doubt_node llm "notes system" "general system"
    (fun q c => q ++ " / " ++ c) (fun q => q) node_exception_str.

(** [process_query] with a classifier that answers [i], the given search
    and the given answer generator. *)
Definition process_query (i : Intent)
  (search : string -> Z -> M World (list Hit))
  (generate_answer_node : Workflow.NodeFn World)
  : Z -> string -> option Z -> M World Workflow.Response :=
  Workflow.process_query (classify_as i) generate_answer_node
    (task "evaluate_answer") (task "generate_questions")
    (retrieve search) resolve_doubt time_time.

(** The state of the example at the end of doubt_resolver.py: one document
    of similarity 0.85 and a context that is not empty. *)
Definition one_good_document : GraphState :=
  set_context
    (set_retrieved_documents
       (create_initial_state 1 "What is supervised learning?" None)
       [{| document_id := 0; document_type := "notes";
           chunk_text := "Supervised learning..."; similarity_score := 0.85;
           metadata := empty_metadata |}])
    "--- NOTES --- Supervised learning is ...".

(** A table with twelve earlier messages of conversation 7, numbered from
    1, and one message of conversation 8 between them. *)
Definition earlier_messages : Chat.Table :=
  let say db n :=
    Chat.save_message db 7 (if Nat.even n then "assistant" else "user")
      ("m" ++ str_of_nat n) None None in
  let db := fold_left say (seq 1 6) [] in
  let db := Chat.save_message db 8 "user" "elsewhere" None None in
  fold_left say (seq 7 6) db.

End Demo.

(** ** app/nodes/document_retriever.py: retrieval by document type *)

Module RetrieveByType.

Import DocumentRetriever.

Section ByType.

Variable World : Type.

(** [self.vector_store.search(query=..., n_results=...,
      where={"document_type": doc_type})], with the lazy
    [get_vector_store()] before it. *)
Variable vector_search_where : string -> Z -> string -> M World (list Hit).

(** The [for doc_type in document_types] loop, from the results gathered
    so far. *)
Fixpoint search_types (query : string) (n_results : Z)
  (document_types : list string) (all_results : list RetrievedDocument)
  : M World (list RetrievedDocument) :=
  match document_types with
  | [] => ret all_results
  | doc_type :: rest =>
      results <- vector_search_where query n_results doc_type ;;
      let formatted := _format_retrieved_documents results in
      search_types query n_results rest (all_results ++ formatted)%list
  end.

Definition retrieve_by_document_type (state : GraphState)
  (document_types : list string) (n_results : Z)
  : M World (list RetrievedDocument) :=
  search_types (query state) n_results document_types [].

End ByType.

End RetrieveByType.

(** ** app/api/chat.py: the endpoints on conversations *)

Module ChatApi.

Import Chat.

(** A row of the [conversations] table, with the columns the code names in
    its conditions; [conv_id] is the primary key. *)
Record ConversationRow : Type := {
  conv_id : Z;
  conv_user_id : Z;
  session_id : string
}.

Record Database : Type := {
  conversations : list ConversationRow;
  messages : Table
}.

(** What an endpoint gives its caller: a value, or
    [HTTPException(status_code, detail)]. *)
Inductive Http (A : Type) : Type :=
| Returns (a : A)
| HTTPException (status_code : Z) (detail : string).

Arguments Returns {A} a.
Arguments HTTPException {A} status_code detail.

Definition next_conversation_id (db : Database) : Z :=
  1 + fold_right Z.max 0%Z (map conv_id (conversations db)).

(** [create_conversation]: the row is inserted with a fresh session id and
    [cursor.lastrowid] is returned, the id SQLite gives the row: one past
    the largest in use. *)
Definition create_conversation (db : Database) (uid : Z) (uuid : string)
  : Database * Z :=
  let cid := next_conversation_id db in
  ({| conversations :=
        (conversations db
         ++ [{| conv_id := cid; conv_user_id := uid; session_id := uuid |}])%list;
      messages := messages db |}, cid).

Definition save (db : Database) (cid : Z) (r c : string)
  (i metadata_json : option string) : Database :=
  {| conversations := conversations db;
     messages := save_message (messages db) cid r c i metadata_json |}.

(** [SELECT * FROM conversations WHERE id = ? AND user_id = ?] *)
Definition owned (cid uid : Z) (c : ConversationRow) : bool :=
  Z.eqb (conv_id c) cid && Z.eqb (conv_user_id c) uid.

Definition find_conversation (db : Database) (cid uid : Z)
  : option ConversationRow :=
  find (owned cid uid) (conversations db).

Record ChatRequest : Type := {
  req_query : string;
  req_conversation_id : option Z
}.

Record ChatResponse : Type := {
  resp_success : bool;
  resp_intent : string;
  resp_response : option string;
  resp_answer : option string;
  resp_evaluation : option (list (string * string));
  resp_questions : option (list (list (string * string)));
  resp_processing_time : float;
  resp_metadata : Workflow.ResponseMetadata
}.

(** [not conversation_id]: absent, or the integer 0. *)
Definition no_conversation (cid : option Z) : bool :=
  match cid with
  | None => true
  | Some c => Z.eqb c 0
  end.

(** The text saved as the assistant's message: the response, else the
    answer, else the score and feedback of the evaluation, else nothing.
    [eval_result['obtained_marks']] raises KeyError on a missing key; the
    values of the evaluation are given as [str] renders them. *)
Definition response_content (response answer : option string)
  (evaluation : option (list (string * string))) : Result string :=
  if truthy_str response then Ok (get response "")
  else if truthy_str answer then Ok (get answer "")
  else if truthy_list evaluation then
    let eval_result := get evaluation [] in
    match Workflow.lookup "obtained_marks" eval_result with
    | None => Raise (Exception "KeyError" "'obtained_marks'")
    | Some obtained =>
        match Workflow.lookup "total_marks" eval_result with
        | None => Raise (Exception "KeyError" "'total_marks'")
        | Some total =>
            Ok ("Score: " ++ obtained ++ "/" ++ total ++ nl ++ nl
                ++ get (Workflow.lookup "feedback" eval_result) "")
        end
    end
  else Ok "".

Section Endpoints.

Variable World : Type.

(** [uuid.uuid4()], read from the world. *)
Variable uuid4 : World -> string * World.

(** [process_user_query] of graph.py. *)
Variable process_user_query :
  Z -> string -> option Z -> M World Workflow.Response.

(** [json.dumps(metadata)] *)
Variable json_dumps : Workflow.ResponseMetadata -> string.

(** [POST /query]. The database is passed in and out; what the endpoint
    raises is an HTTPException in every case. *)
Definition process_query (db : Database) (uid : Z) (request : ChatRequest)
  : World -> (Database * Http ChatResponse) * World :=
  fun w =>
    let query := req_query request in
    let '(db, conversation_id, w) :=
      if no_conversation (req_conversation_id request) then
        let (uuid, w) := uuid4 w in
        let (db, cid) := create_conversation db uid uuid in
        (db, cid, w)
      else (db, get (req_conversation_id request) 0%Z, w) in
    let db := save db conversation_id "user" query None None in
    match process_user_query uid query (Some conversation_id) w with
    | (Raise e, w) =>
        ((db, HTTPException 500 ("Failed to process query: " ++ exn_str e)), w)
    | (Ok (Workflow.Failure error _ _ _ _), w) =>
        ((db, HTTPException 500 error), w)
    | (Ok (Workflow.Success intent_value processing_time _ metadata answer
             evaluation response questions), w) =>
        match response_content response answer evaluation with
        | Raise e =>
            ((db, HTTPException 500
                    ("Failed to process query: " ++ exn_str e)), w)
        | Ok content =>
            let db :=
              save db conversation_id "assistant" content (Some intent_value)
                (Some (json_dumps metadata)) in
            ((db,
              Returns
                {| resp_success := true; resp_intent := intent_value;
                   resp_response := response; resp_answer := answer;
                   resp_evaluation := evaluation;
                   resp_questions := questions;
                   resp_processing_time := processing_time;
                   resp_metadata := metadata |}), w)
        end
    end.

(** The [timestamp], [started_at] and [last_message_at] columns, which the
    database fills in. *)
Variable timestamp : MessageRow -> Z.
Variables started_at last_message_at : ConversationRow -> Z.

(** [ORDER BY timestamp ASC] *)
Fixpoint insert_by_timestamp (r : MessageRow) (l : list MessageRow)
  : list MessageRow :=
  match l with
  | [] => [r]
  | r' :: l' =>
      if (timestamp r' <? timestamp r)%Z then r' :: insert_by_timestamp r l'
      else r :: r' :: l'
  end.

Definition order_by_timestamp (l : list MessageRow) : list MessageRow :=
  fold_right insert_by_timestamp [] l.

Record MessageView : Type := {
  view_role : string;
  view_content : string;
  view_intent : option string;
  view_timestamp : Z
}.

Definition view (r : MessageRow) : MessageView :=
  {| view_role := role r; view_content := content r;
     view_intent := row_intent r; view_timestamp := timestamp r |}.

(** [GET /conversations/{conversation_id}] *)
Definition get_conversation (db : Database) (cid uid : Z)
  : Http (Z * list MessageView) :=
  match find_conversation db cid uid with
  | None => HTTPException 404 "Conversation not found"
  | Some _ =>
      Returns
        (cid,
         map view (order_by_timestamp (conversation_rows (messages db) cid)))
  end.

(** [DELETE /conversations/{conversation_id}]: the rows the statement
    deletes are counted before the commit. *)
Definition delete_conversation (db : Database) (cid uid : Z)
  : Database * Http (string * Z) :=
  let rowcount := List.length (filter (owned cid uid) (conversations db)) in
  if (rowcount =? 0)%nat then
    (db, HTTPException 404 "Conversation not found")
  else
    ({| conversations :=
          filter (fun c => negb (owned cid uid c)) (conversations db);
        messages := messages db |},
     Returns ("Conversation deleted successfully", cid)).

(** [ORDER BY c.last_message_at DESC] *)
Fixpoint insert_by_last_message (c : ConversationRow)
  (l : list ConversationRow) : list ConversationRow :=
  match l with
  | [] => [c]
  | c' :: l' =>
      if (last_message_at c <? last_message_at c')%Z
      then c' :: insert_by_last_message c l'
      else c :: c' :: l'
  end.

Record ConversationView : Type := {
  view_conversation_id : Z;
  view_started_at : Z;
  view_last_message_at : Z;
  message_count : nat
}.

(** [GET /conversations]: the user's conversations with the number of
    their messages, the most recently used first, twenty at most. *)
Definition list_conversations (db : Database) (uid : Z)
  : list ConversationView :=
  map (fun c =>
         {| view_conversation_id := conv_id c;
            view_started_at := started_at c;
            view_last_message_at := last_message_at c;
            message_count :=
              List.length (conversation_rows (messages db) (conv_id c)) |})
      (firstn 20
         (fold_right insert_by_last_message []
            (filter (fun c => Z.eqb (conv_user_id c) uid) (conversations db)))).

End Endpoints.

End ChatApi.

(** ** app/api/auth.py: login *)

Module Auth.

Record User : Type := {
  user_row_id : Z;
  username : string;
  email : string;
  hashed_password : string;
  full_name : string;
  user_role : string
}.

(** [SELECT * FROM users WHERE username = ?] and [fetchone]. *)
Definition get_user_by_username (users : list User) (name : string)
  : option User :=
  find (fun u => String.eqb (username u) name) users.

Record Token : Type := { access_token : string; token_type : string }.

Section Login.

Variable World : Type.

(** [verify_password]: [bcrypt.checkpw] on the encoded password and hash.
    It answers or raises (a hash that is no bcrypt hash, a password bcrypt
    does not take); it has no other effect. *)
Variable verify_password : string -> string -> Result bool.

(** [create_access_token(data={"sub": ..., "user_id": ...})]: it reads the
    clock for the expiry and signs. *)
Variable create_access_token : string -> Z -> World -> string * World.

(** [POST /login]. An HTTPException is the endpoint's own answer; any
    other exception leaves the endpoint as it is, and login catches none. *)
Definition login (users : list User) (form_username form_password : string)
  : M World (ChatApi.Http Token) :=
  fun w =>
    match get_user_by_username users form_username with
    | None =>
        (Ok (ChatApi.HTTPException 401 "Incorrect username or password"), w)
    | Some user =>
        match verify_password form_password (hashed_password user) with
        | Raise e => (Raise e, w)
        | Ok false =>
            (Ok (ChatApi.HTTPException 401 "Incorrect username or password"),
             w)
        | Ok true =>
            let (token, w) :=
              create_access_token (username user) (user_row_id user) w in
            (Ok (ChatApi.Returns
                   {| access_token := token; token_type := "bearer" |}), w)
        end
    end.

End Login.

End Auth.

(** ** Vocabulary and sample data for the further properties *)

Module More.

(** The distinct elements of a list, each at its first occurrence. *)
Fixpoint first_seen (l : list string) : list string :=
  match l with
  | [] => []
  | x :: l' => x :: filter (fun y => negb (String.eqb y x)) (first_seen l')
  end.

Definition is_type (t : string) (doc : RetrievedDocument) : bool :=
  String.eqb (document_type doc) t.

(** The groups a grouping by type is to give: one per type, in the order
    the types are first seen, each with its documents in order. *)
Definition groups_of (docs : list RetrievedDocument)
  : list (string * list RetrievedDocument) :=
  map (fun t => (t, filter (is_type t) docs))
      (first_seen (map document_type docs)).

(** The requesting user may read the hit: it is their own, or public. *)
Definition permitted (uid : Z) (r : Hit) : Prop :=
  md_user_id (Spec.metadata_of r) = Some uid
  \/ md_visibility (Spec.metadata_of r) = Some "public".

(** The keywords [_enhance_query] adds for an intent. *)
Definition enhancement (i : Intent) : string :=
  match i with
  | ANSWER_GENERATION => "answer solution explanation"
  | ANSWER_EVALUATION => "marking scheme grading criteria"
  | DOUBT_CLARIFICATION => "explanation concept definition"
  | QUESTION_GENERATION => "questions examples problems"
  | EXAM_PAPER_GENERATION => "questions topics syllabus"
  end.

(** [s.lstrip()] *)
Definition lstrip (s : string) : string :=
  string_of_list_ascii (lstrip_chars (list_ascii_of_string s)).

Section Collect.

Variable World : Type.
Variable vector_search_where : string -> Z -> string -> M World (list Hit).

(** The searches for the given types, one after the other, and all their
    hits in that order. *)
Fixpoint collect (query : string) (n_results : Z) (types : list string)
  : M World (list Hit) :=
  match types with
  | [] => ret []
  | t :: rest =>
      hits <- vector_search_where query n_results t ;;
      more <- collect query n_results rest ;;
      ret (hits ++ more)%list
  end.

End Collect.

(** The ["response"] and the metadata of a success envelope. *)
Definition response_text (r : Workflow.Response) : option string :=
  match r with
  | Workflow.Success _ _ _ _ _ _ response _ => response
  | Workflow.Failure _ _ _ _ _ => None
  end.

Definition response_metadata (r : Workflow.Response)
  : option Workflow.ResponseMetadata :=
  match r with
  | Workflow.Success _ _ _ metadata _ _ _ _ => Some metadata
  | Workflow.Failure _ _ _ _ _ => None
  end.

(** The hits the doubt resolver would count, by the similarity the search
    reported. *)
Definition similar_hits (hits : list Hit) : list Hit :=
  filter (fun r => PyFloat.geb (get (hit_similarity r) 0%float) 0.7) hits.

Section ModelCall.

Variable World : Type.
Variable llm_generate : string -> string -> float -> Z -> M World string.
Variables SYSTEM GENERAL_SYSTEM : string.
Variable NOTES_PROMPT : string -> string -> string.
Variable GENERAL_PROMPT : string -> string.

(** The call the doubt resolver makes to the model for a state. *)
Definition model_call (state : GraphState) : M World string :=
  if DoubtResolver._check_relevance (retrieved_documents state) then
    llm_generate (NOTES_PROMPT (query state) (context state)) SYSTEM
      0.7%float 1500%Z
  else
    llm_generate (GENERAL_PROMPT (query state)) GENERAL_SYSTEM 0.8%float
      1500%Z.

End ModelCall.

(** The source the doubt resolver names for a state. *)
Definition source_of (state : GraphState) : string :=
  if DoubtResolver._check_relevance (retrieved_documents state) then "notes"
  else "general_knowledge".

(** Two notes of similarity 0.65, the user's own. *)
Definition low_notes : list Hit :=
  [Spec.mk_hit "a" 1 "private" "notes" 1 0.65;
   Spec.mk_hit "b" 1 "private" "notes" 2 0.65].

Definition sample_database : ChatApi.Database :=
  {| ChatApi.conversations :=
       [{| ChatApi.conv_id := 7; ChatApi.conv_user_id := 1;
           ChatApi.session_id := "s7" |};
        {| ChatApi.conv_id := 8; ChatApi.conv_user_id := 2;
           ChatApi.session_id := "s8" |}];
     ChatApi.messages := Demo.earlier_messages |}.

End More.

(** * Part II: properties *)

(** ** Order facts on floats

    The comparisons of [SpecFloat], to which the primitive ones are specified
    equal, form a total preorder away from NaN. *)

Section SpecFloatOrder.

Local Open Scope Z_scope.

Lemma cont_is_compare (p q : positive) :
  Pos.compare_cont Eq p q = Pos.compare p q.
Proof. reflexivity. Qed.

Ltac cmp_cases :=
  repeat (cbv beta iota delta [CompOpp];
          match goal with
          | |- context [Z.compare ?a ?b] => destruct (Z.compare_spec a b)
          | |- context [Pos.compare_cont Eq ?a ?b] =>
              rewrite (cont_is_compare a b); destruct (Pos.compare_spec a b)
          end).

Ltac sf_crush :=
  unfold SFleb, SFltb, SFeqb, SFcompare;
  repeat match goal with
  | |- forall x : spec_float, _ => intros [[]|[]| |[] ? ?]
  end;
  cbv beta iota; try congruence; try reflexivity;
  cmp_cases; cbv beta iota; intros; subst;
  try congruence; try reflexivity; try lia.

Lemma sf_ltb_leb : forall x y, SFltb x y = true -> SFleb x y = true.
Proof. sf_crush. Qed.

Lemma sf_leb_total : forall x y,
  SFeqb x x = true -> SFeqb y y = true -> SFltb x y = false -> SFleb y x = true.
Proof. sf_crush. Qed.

Lemma sf_leb_trans : forall x y z,
  SFleb x y = true -> SFleb y z = true -> SFleb x z = true.
Proof. sf_crush. Qed.

Lemma sf_eqb_not_ltb : forall x y s,
  SFeqb x s = true -> SFeqb y s = true -> SFltb x y = false.
Proof. sf_crush. Qed.

Lemma sf_leb_num_r : forall t x, SFleb t x = true -> SFeqb x x = true.
Proof. sf_crush. Qed.

Lemma sf_leb_antisym : forall x y,
  SFleb x y = true -> SFleb y x = true -> SFeqb x y = true.
Proof. sf_crush. Qed.

Lemma sf_eqb_sym : forall x y, SFeqb x y = SFeqb y x.
Proof. sf_crush. Qed.

End SpecFloatOrder.

Section FloatOrder.

Local Open Scope float_scope.

Ltac to_spec :=
  unfold PyFloat.geb, PyFloat.is_num; rewrite ?ltb_spec, ?leb_spec, ?eqb_spec.

Lemma float_ltb_leb x y : (x <? y) = true -> (x <=? y) = true.
Proof. to_spec. apply sf_ltb_leb. Qed.

Lemma float_leb_total x y :
  PyFloat.is_num x = true -> PyFloat.is_num y = true ->
  (x <? y) = false -> (y <=? x) = true.
Proof. to_spec. apply sf_leb_total. Qed.

Lemma float_leb_trans x y z :
  (x <=? y) = true -> (y <=? z) = true -> (x <=? z) = true.
Proof. to_spec. apply sf_leb_trans. Qed.

Lemma float_eqb_not_ltb x y s :
  (x =? s) = true -> (y =? s) = true -> (x <? y) = false.
Proof. to_spec. apply sf_eqb_not_ltb. Qed.

Lemma float_geb_num x t : PyFloat.geb x t = true -> PyFloat.is_num x = true.
Proof. to_spec. apply sf_leb_num_r. Qed.

Lemma float_leb_antisym x y :
  (x <=? y) = true -> (y <=? x) = true -> (x =? y) = true.
Proof. to_spec. apply sf_leb_antisym. Qed.

Lemma float_eqb_sym x y : (x =? y) = (y =? x).
Proof. to_spec. apply sf_eqb_sym. Qed.

End FloatOrder.

(** ** [list.sort(key=..., reverse=True)]: a stable descending sort *)

Section SortFacts.

Variables (A : Type) (key : A -> float).

Lemma insert_desc_perm x l : Permutation (insert_desc key x l) (x :: l).
Proof.
  induction l as [|y l IH]; simpl; [reflexivity|].
  destruct (key x <? key y)%float; [|reflexivity].
  rewrite IH. apply perm_swap.
Qed.

Lemma sort_reverse_perm l : Permutation (sort_reverse key l) l.
Proof.
  induction l as [|x l IH]; simpl; [constructor|].
  rewrite insert_desc_perm. now constructor.
Qed.

Lemma sort_reverse_length l : List.length (sort_reverse key l) = List.length l.
Proof. apply Permutation_length, sort_reverse_perm. Qed.

Lemma num_keys_perm l l' : Permutation l l' -> num_keys key l -> num_keys key l'.
Proof. intros P H. unfold num_keys in *. now rewrite <- P. Qed.

Lemma desc_trans a b c : desc key a b -> desc key b c -> desc key a c.
Proof. unfold desc, PyFloat.geb. intros H1 H2. eapply float_leb_trans; eassumption. Qed.

Lemma insert_desc_sorted x l :
  PyFloat.is_num (key x) = true -> num_keys key l ->
  StronglySorted (desc key) l -> StronglySorted (desc key) (insert_desc key x l).
Proof.
  intros Hx Hl Hs. induction Hs as [|y l Hs IH Hy]; simpl.
  - repeat constructor.
  - inversion Hl as [|? ? Hny Hnl]; subst.
    destruct (key x <? key y)%float eqn:E.
    + constructor; [now apply IH|].
      rewrite (insert_desc_perm x l). constructor; [|assumption].
      unfold desc, PyFloat.geb. now apply float_ltb_leb.
    + assert (Hxy : desc key x y)
        by (unfold desc, PyFloat.geb; now apply float_leb_total).
      constructor; [now constructor|].
      constructor; [assumption|].
      eapply Forall_impl; [|exact Hy].
      intros z Hz. eapply desc_trans; eassumption.
Qed.

Lemma sort_reverse_sorted l :
  num_keys key l -> StronglySorted (desc key) (sort_reverse key l).
Proof.
  induction l as [|x l IH]; simpl; intros H; [constructor|].
  inversion H; subst.
  apply insert_desc_sorted; auto.
  eapply num_keys_perm; [symmetry; apply sort_reverse_perm|assumption].
Qed.

Lemma insert_desc_ties s x l :
  ties key s (insert_desc key x l) = ties key s (x :: l).
Proof.
  unfold ties. induction l as [|y l IH]; [reflexivity|].
  simpl insert_desc. destruct (key x <? key y)%float eqn:E; [|reflexivity].
  simpl in *. rewrite IH.
  destruct (key x =? s)%float eqn:Ex, (key y =? s)%float eqn:Ey; try reflexivity.
  rewrite (float_eqb_not_ltb Ex Ey) in E. discriminate.
Qed.

(** Stability: among equal keys the original order is kept. *)
Lemma sort_reverse_ties s l : ties key s (sort_reverse key l) = ties key s l.
Proof.
  induction l as [|x l IH]; [reflexivity|].
  simpl sort_reverse. rewrite insert_desc_ties.
  unfold ties in *. simpl. now rewrite IH.
Qed.

Lemma ties_In s a l : In a (ties key s l) -> In a l.
Proof. unfold ties. intros H. now apply filter_In in H. Qed.

Lemma ties_self a l :
  PyFloat.is_num (key a) = true -> In a l -> In a (ties key (key a) l).
Proof. unfold ties. intros H Hin. apply filter_In. split; assumption. Qed.

(** A sorted list is determined by its groups of tied elements: there is
    one stable descending arrangement. *)
Lemma stable_sorted_unique l1 : forall l2,
  num_keys key l1 -> num_keys key l2 ->
  StronglySorted (desc key) l1 -> StronglySorted (desc key) l2 ->
  (forall s, ties key s l1 = ties key s l2) -> l1 = l2.
Proof.
  induction l1 as [|x l1 IH]; intros l2 N1 N2 S1 S2 T.
  - destruct l2 as [|y l2]; [reflexivity|].
    inversion N2 as [|? ? Hy _]; subst.
    specialize (T (key y)). unfold ties in T. simpl in T.
    unfold PyFloat.is_num in Hy. rewrite Hy in T. discriminate.
  - inversion N1 as [|? ? Hx N1']; subst.
    destruct l2 as [|y l2].
    + specialize (T (key x)). unfold ties in T. simpl in T.
      unfold PyFloat.is_num in Hx. rewrite Hx in T. discriminate.
    + inversion N2 as [|? ? Hy N2']; subst.
      inversion S1 as [|? ? S1' F1]; subst.
      inversion S2 as [|? ? S2' F2]; subst.
      assert (Exy : (key y =? key x)%float = true).
      { destruct (key y =? key x)%float eqn:E; [reflexivity|].
        assert (Hxin : In x (ties key (key x) (y :: l2))).
        { rewrite <- T. apply ties_self; [assumption|now left]. }
        unfold ties in Hxin. simpl in Hxin. rewrite E in Hxin.
        apply filter_In in Hxin. destruct Hxin as [Hxin _].
        assert (Hyin : In y (ties key (key y) (x :: l1))).
        { rewrite T. apply ties_self; [assumption|now left]. }
        unfold ties in Hyin. simpl in Hyin.
        rewrite float_eqb_sym, E in Hyin.
        apply filter_In in Hyin. destruct Hyin as [Hyin _].
        rewrite Forall_forall in F1, F2.
        specialize (F1 _ Hyin). specialize (F2 _ Hxin).
        unfold desc, PyFloat.geb in F1, F2.
        rewrite (float_leb_antisym F1 F2) in E. discriminate. }
      assert (x = y).
      { specialize (T (key x)). unfold ties in T. simpl in T.
        unfold PyFloat.is_num in Hx. rewrite Hx, Exy in T. congruence. }
      subst y. f_equal. apply IH; auto.
      intros s. specialize (T s). unfold ties in *. simpl in T.
      destruct (key x =? s)%float; congruence.
Qed.

(** Sorting commutes with a map that preserves keys. *)
Lemma insert_desc_map (B : Type) (f : B -> A) x l :
  insert_desc key (f x) (map f l) =
  map f (insert_desc (fun b => key (f b)) x l).
Proof.
  induction l as [|y l IH]; [reflexivity|].
  simpl. destruct (key (f x) <? key (f y))%float; simpl; [now rewrite IH|reflexivity].
Qed.

Lemma sort_reverse_map (B : Type) (f : B -> A) l :
  sort_reverse key (map f l) = map f (sort_reverse (fun b => key (f b)) l).
Proof.
  induction l as [|x l IH]; [reflexivity|].
  simpl. now rewrite IH, insert_desc_map.
Qed.

End SortFacts.

(** ** The retrieval scorer *)

Section Scorer.

Import DocumentRetriever Spec.

Local Open Scope float_scope.

Lemma opt_Z_neq_true (a b : option Z) : a <> b -> opt_Z_neq a b = true.
Proof.
  destruct a as [x|], b as [y|]; simpl; try reflexivity; try congruence.
  intros H. destruct (Z.eqb_spec x y); [congruence|reflexivity].
Qed.

Lemma opt_str_neq_true (a b : option string) : a <> b -> opt_str_neq a b = true.
Proof.
  destruct a as [x|], b as [y|]; simpl; try reflexivity; try congruence.
  intros H. destruct (String.eqb_spec x y); [congruence|reflexivity].
Qed.

Lemma slice_to_firstn (A : Type) (n : Z) (l : list A) :
  exists k, slice_to n l = firstn k l.
Proof. unfold slice_to. destruct (0 <=? n)%Z; eexists; reflexivity. Qed.

Lemma slice_to_incl (A : Type) (n : Z) (l : list A) (a : A) :
  In a (slice_to n l) -> In a l.
Proof.
  destruct (slice_to_firstn n l) as [k ->]. rewrite <- (firstn_skipn k l) at 2.
  intros H. apply in_or_app. now left.
Qed.

Lemma slice_to_length (A : Type) (n : Z) (l : list A) :
  (0 <= n)%Z -> (Z.of_nat (List.length (slice_to n l)) <= n)%Z.
Proof.
  intros H. unfold slice_to. destruct (Z.leb_spec 0 n); [|lia].
  rewrite length_firstn. lia.
Qed.

Lemma slice_to_map (A B : Type) (f : A -> B) (n : Z) (l : list A) :
  slice_to n (map f l) = map f (slice_to n l).
Proof.
  unfold slice_to. rewrite length_map.
  destruct (0 <=? n)%Z; now rewrite firstn_map.
Qed.

Lemma slice_to_split (A : Type) (n : Z) (l : list A) :
  exists rest, l = (slice_to n l ++ rest)%list.
Proof.
  destruct (slice_to_firstn n l) as [k ->]. exists (skipn k l).
  symmetry. apply firstn_skipn.
Qed.

Lemma score_results_admitted cfg tp uid hits :
  score_results cfg tp uid hits =
  map (fun r => {| result := r; score := boosted_score tp r |})
      (admitted cfg tp uid hits).
Proof.
  unfold admitted, passes, metadata_of.
  induction hits as [|r hits IH]; [reflexivity|].
  simpl. destruct (access_denied uid _); simpl; [assumption|].
  destruct (PyFloat.geb _ _); simpl; [now rewrite IH|assumption].
Qed.

(** The scorer is: keep the hits that pass, sort them by boosted score,
    descending and stable, and cut at [n_results]. *)
Lemma filter_and_rank_admitted cfg hits i uid n :
  _filter_and_rank_results cfg hits i uid n =
  slice_to n
    (sort_reverse (boosted_score (DOCUMENT_TYPE_PRIORITIES i))
       (admitted cfg (DOCUMENT_TYPE_PRIORITIES i) uid hits)).
Proof.
  unfold _filter_and_rank_results.
  destruct hits as [|r hits].
  - unfold slice_to. simpl. now rewrite !firstn_nil, Tauto.if_same.
  - generalize (r :: hits). intros l.
    rewrite score_results_admitted, sort_reverse_map, slice_to_map, map_map.
    simpl. apply map_id.
Qed.

Lemma admitted_num cfg tp uid hits :
  num_keys (boosted_score tp) (admitted cfg tp uid hits).
Proof.
  unfold num_keys, admitted. apply Forall_forall. intros r H.
  apply filter_In in H. destruct H as [_ H]. unfold passes in H.
  apply andb_true_iff in H. destruct H as [_ H].
  eapply float_geb_num. exact H.
Qed.

Lemma ranked_in_admitted cfg hits i uid n r :
  In r (_filter_and_rank_results cfg hits i uid n) ->
  In r (admitted cfg (DOCUMENT_TYPE_PRIORITIES i) uid hits).
Proof.
  rewrite filter_and_rank_admitted. intros H. apply slice_to_incl in H.
  eapply Permutation_in; [apply sort_reverse_perm|exact H].
Qed.

(** C1. A hit whose owner is not the requesting user and whose visibility
    is not "public" is never in the output of the scorer, whatever the raw
    hits, the intent, the threshold and the limit. *)
Theorem access_filter_is_absolute cfg hits i uid n r :
  md_user_id (metadata_of r) <> Some uid ->
  md_visibility (metadata_of r) <> Some "public"%string ->
  ~ In r (_filter_and_rank_results cfg hits i uid n).
Proof.
  intros Howner Hvis Hin. apply ranked_in_admitted in Hin.
  unfold admitted in Hin. apply filter_In in Hin. destruct Hin as [_ Hp].
  unfold passes, access_denied in Hp.
  rewrite (opt_Z_neq_true Howner), (opt_str_neq_true Hvis) in Hp.
  discriminate.
Qed.

Lemma access_filter_is_absolute_witness :
  In foreign_private sample_hits /\
  ~ In foreign_private
      (_filter_and_rank_results settings sample_hits DOUBT_CLARIFICATION 1 8).
Proof.
  split; [simpl; tauto|].
  apply access_filter_is_absolute; simpl; congruence.
Defined.

Lemma index_nth_error x l p : index x l = Some p -> nth_error l p = Some x.
Proof.
  revert p. induction l as [|y l IH]; intros p; simpl; [discriminate|].
  destruct (String.eqb_spec x y) as [->|Hne].
  - intros [= <-]. reflexivity.
  - destruct (index x l) as [q|]; [|discriminate].
    intros [= <-]. simpl. now apply IH.
Qed.

Lemma index_None x l : index x l = None <-> ~ In x l.
Proof.
  induction l as [|y l IH]; simpl; [tauto|].
  destruct (String.eqb_spec x y) as [->|Hne].
  - split; [discriminate|]. intros H. exfalso. apply H. now left.
  - destruct (index x l) as [q|].
    + split; [discriminate|]. intros H. exfalso.
      destruct IH as [_ IH]. assert (Some q = None) by (apply IH; tauto).
      discriminate.
    + split; [|reflexivity]. intros _ [H|H]; [congruence|].
      now apply IH.
Qed.

(** In a list without repetition the position of an element is the one
    [index] returns. *)
Lemma index_of_position x l p :
  NoDup l -> nth_error l p = Some x -> index x l = Some p.
Proof.
  intros Hnd. revert p. induction Hnd as [|y l Hy Hnd IH]; intros p Hp.
  - destruct p; discriminate.
  - simpl. destruct p as [|p]; simpl in Hp.
    + injection Hp as ->. now rewrite String.eqb_refl.
    + destruct (String.eqb_spec x y) as [->|Hne].
      * exfalso. apply Hy. eapply nth_error_In; eassumption.
      * now rewrite (IH _ Hp).
Qed.

Lemma priorities_NoDup i : NoDup (DOCUMENT_TYPE_PRIORITIES i).
Proof.
  destruct i; simpl; repeat constructor; simpl; intuition discriminate.
Qed.

(** C2. For a hit the access check lets through, the score is the
    similarity plus [(L - p) * 0.1] when the document type stands at
    position [p] (from 0) of the intent's priority list of length [L], and
    the similarity alone when the type is not listed; the hit is among the
    scored results exactly when this boosted score is at least the
    threshold, whose default is 0.7. *)
Theorem boosted_score_and_threshold cfg i uid hits r :
  In r hits ->
  access_denied uid (metadata_of r) = false ->
  let tp := DOCUMENT_TYPE_PRIORITIES i in
  let similarity := get (hit_similarity r) 0 in
  let doc_type := get (md_document_type (metadata_of r)) "other"%string in
  (forall p, nth_error tp p = Some doc_type ->
     boosted_score tp r
     = similarity + PyFloat.of_nat (List.length tp - p) * 0.1) /\
  (~ In doc_type tp -> boosted_score tp r = similarity) /\
  (In {| result := r; score := boosted_score tp r |}
      (score_results cfg tp uid hits)
   <-> PyFloat.geb (boosted_score tp r) (SIMILARITY_THRESHOLD cfg) = true) /\
  (forall s, In s (score_results cfg tp uid hits) ->
     score s = boosted_score tp (result s)) /\
  SIMILARITY_THRESHOLD settings = 0.7.
Proof.
  intros Hin Hacc tp similarity doc_type.
  split; [|split; [|split; [|split]]].
  - intros p Hp. subst tp similarity doc_type.
    unfold metadata_of in Hp. unfold boosted_score.
    now rewrite (@index_of_position _ _ _ (priorities_NoDup i) Hp).
  - intros Hn. subst tp similarity doc_type.
    unfold metadata_of in Hn. unfold boosted_score.
    apply index_None in Hn. now rewrite Hn.
  - rewrite score_results_admitted, in_map_iff. unfold admitted, passes.
    split.
    + intros (r' & Heq & Hr'). injection Heq as ->.
      apply filter_In in Hr'. destruct Hr' as [_ Hpass].
      now apply andb_true_iff in Hpass.
    + intros H. exists r. split; [reflexivity|].
      apply filter_In. split; [assumption|].
      rewrite Hacc. exact H.
  - intros s Hs. rewrite score_results_admitted, in_map_iff in Hs.
    destruct Hs as (r' & <- & _). reflexivity.
  - reflexivity.
Qed.

(** The threshold is applied to the boosted score: notes of similarity 0.65
    qualify for a doubt, where notes are boosted by 0.2. *)
Lemma boosted_score_and_threshold_witness :
  boosted_score (DOCUMENT_TYPE_PRIORITIES DOUBT_CLARIFICATION) own_low_notes
  = 0.65 + PyFloat.of_nat 2 * 0.1
  /\ PyFloat.geb 0.65 0.7 = false
  /\ In {| result := own_low_notes;
           score :=
             boosted_score (DOCUMENT_TYPE_PRIORITIES DOUBT_CLARIFICATION)
               own_low_notes |}
        (score_results settings (DOCUMENT_TYPE_PRIORITIES DOUBT_CLARIFICATION)
           1 sample_hits).
Proof.
  assert (Hin : In own_low_notes sample_hits) by (simpl; tauto).
  assert (Hacc : access_denied 1 (metadata_of own_low_notes) = false)
    by reflexivity.
  destruct (boosted_score_and_threshold settings DOUBT_CLARIFICATION 1
              sample_hits own_low_notes Hin Hacc) as (Hb & _ & Hiff & _).
  split; [exact (Hb 0%nat eq_refl)|].
  split; [reflexivity|].
  apply Hiff. reflexivity.
Defined.

Lemma StronglySorted_app_l (A : Type) (R : A -> A -> Prop) (l1 l2 : list A) :
  StronglySorted R (l1 ++ l2) -> StronglySorted R l1.
Proof.
  induction l1 as [|a l1 IH]; simpl; intros H; [constructor|].
  inversion H as [|? ? Hs Hf]; subst. constructor; [now apply IH|].
  apply Forall_app in Hf. tauto.
Qed.

(** C3. For every list of raw hits, intent and limit, the scorer returns
    hits in descending order of boosted score; they are the head of the one
    arrangement of the passing hits that is descending and keeps hits of
    equal score in their search order, so the output is determined by the
    input. With a limit that is a count ([0 <= n_results]) it returns at
    most that many hits. *)
Theorem ranking_is_capped_sorted_and_stable cfg hits i uid n :
  let key := boosted_score (DOCUMENT_TYPE_PRIORITIES i) in
  let passing := admitted cfg (DOCUMENT_TYPE_PRIORITIES i) uid hits in
  let out := _filter_and_rank_results cfg hits i uid n in
  ((0 <= n)%Z -> (Z.of_nat (List.length out) <= n)%Z) /\
  StronglySorted (desc key) out /\
  (exists rest,
     Permutation (out ++ rest) passing /\
     StronglySorted (desc key) (out ++ rest) /\
     forall s, ties key s (out ++ rest) = ties key s passing) /\
  (forall full,
     Permutation full passing ->
     StronglySorted (desc key) full ->
     (forall s, ties key s full = ties key s passing) ->
     out = slice_to n full).
Proof.
  intros key passing out.
  assert (Hout : out = slice_to n (sort_reverse key passing))
    by apply filter_and_rank_admitted.
  assert (Hnum : num_keys key passing) by apply admitted_num.
  assert (Hsorted : StronglySorted (desc key) (sort_reverse key passing))
    by now apply sort_reverse_sorted.
  destruct (slice_to_split n (sort_reverse key passing)) as [rest Hrest].
  rewrite <- Hout in Hrest.
  split; [intros Hn; rewrite Hout; now apply slice_to_length|].
  split; [apply StronglySorted_app_l with (l2 := rest); now rewrite <- Hrest|].
  split.
  - exists rest. rewrite <- Hrest.
    split; [apply sort_reverse_perm|].
    split; [assumption|]. intros s. apply sort_reverse_ties.
  - intros full Hperm Hs Ht. rewrite Hout. f_equal.
    apply stable_sorted_unique with (key := key); auto.
    + eapply num_keys_perm; [symmetry; apply sort_reverse_perm|assumption].
    + eapply num_keys_perm; [symmetry; exact Hperm|assumption].
    + intros s. now rewrite sort_reverse_ties, Ht.
Qed.

(** Of the five passing sample hits the best two are returned; the two
    "slides" chunks tie at 0.9 and the scheme at 1.0 precedes them. *)
Lemma ranking_is_capped_sorted_and_stable_witness :
  (Z.of_nat
     (List.length
        (_filter_and_rank_results settings sample_hits DOUBT_CLARIFICATION 1 2))
   <= 2)%Z
  /\ _filter_and_rank_results settings sample_hits DOUBT_CLARIFICATION 1 2
     = [own_notes; foreign_public]
  /\ _filter_and_rank_results settings sample_hits DOUBT_CLARIFICATION 1 8
     = [own_notes; foreign_public; own_other; own_other_2; own_low_notes].
Proof.
  destruct (ranking_is_capped_sorted_and_stable settings sample_hits
              DOUBT_CLARIFICATION 1 2) as (Hlen & _).
  split; [apply Hlen; lia|]. split; reflexivity.
Defined.

Lemma Forall2_map_r (A B : Type) (P : A -> B -> Prop) (f : A -> B) (l : list A) :
  (forall a, P a (f a)) -> Forall2 P l (map f l).
Proof. intros H. induction l; simpl; constructor; auto. Qed.

(** C4. Each returned hit is formatted into a document whose
    [similarity_score] is the similarity the search reported for that hit;
    the formatted document is a function of the raw hit alone, so the boost
    used for ranking is in none of its fields. *)
Theorem reported_score_is_original cfg hits i uid n :
  let out := _filter_and_rank_results cfg hits i uid n in
  incl out hits /\
  Forall2
    (fun r doc =>
       similarity_score doc = get (hit_similarity r) 0
       /\ doc = format_document r)
    out (_format_retrieved_documents out).
Proof.
  intros out. split.
  - intros r Hr. apply ranked_in_admitted in Hr.
    unfold admitted in Hr. now apply filter_In in Hr.
  - apply Forall2_map_r. intros r. split; reflexivity.
Qed.

(** The own notes rank first with boosted score 1.1 and are reported with
    their similarity 0.9. *)
Lemma reported_score_is_original_witness :
  let out :=
    _filter_and_rank_results settings sample_hits DOUBT_CLARIFICATION 1 8 in
  Forall2
    (fun r doc => similarity_score doc = get (hit_similarity r) 0
                  /\ doc = format_document r)
    out (_format_retrieved_documents out)
  /\ map similarity_score (_format_retrieved_documents out)
     = [0.9; 0.9; 0.9; 0.9; 0.65]
  /\ map (boosted_score (DOCUMENT_TYPE_PRIORITIES DOUBT_CLARIFICATION)) out
     = [0.9 + 0.2; 0.9 + 0.1; 0.9; 0.9; 0.65 + 0.2].
Proof.
  intros out.
  split; [exact (proj2 (reported_score_is_original settings sample_hits
                          DOUBT_CLARIFICATION 1 8))|].
  split; reflexivity.
Defined.

End Scorer.

(** ** The doubt resolver *)

Section Doubt.

Import DoubtResolver Spec.

Variable World : Type.
Variable llm_generate : string -> string -> float -> Z -> M World string.
Variables SYSTEM GENERAL_SYSTEM : string.
Variable NOTES_PROMPT : string -> string -> string.
Variable GENERAL_PROMPT : string -> string.
Variable node_exception_str : string -> string -> string.

Local Abbreviation resolve :=
  (DoubtResolver.resolve llm_generate SYSTEM GENERAL_SYSTEM NOTES_PROMPT
     GENERAL_PROMPT node_exception_str).

Lemma check_relevance_count docs :
  _check_relevance docs = (2 <=? relevant_count docs)%nat.
Proof. destruct docs; reflexivity. Qed.

(** C10. The resolver answers from the notes exactly when at least two of
    the retrieved documents have a similarity of 0.7 or more: then the
    notes prompt, with the context, is what the model is asked, and the
    answer is marked "notes". Otherwise the general prompt is asked, the
    context is not used whatever it holds, and the answer is marked
    "general_knowledge" with [has_relevant_notes] false. *)
Theorem doubt_path_by_relevant_count state w :
  let n := relevant_count (retrieved_documents state) in
  let notes_call :=
    llm_generate (NOTES_PROMPT (query state) (context state)) SYSTEM 0.7%float
      1500%Z in
  let general_call :=
    llm_generate (GENERAL_PROMPT (query state)) GENERAL_SYSTEM 0.8%float
      1500%Z in
  (_check_relevance (retrieved_documents state) = true <-> 2 <= n) /\
  (2 <= n ->
   (forall answer w', notes_call w = (Ok answer, w') ->
      exists state',
        resolve state w = (Ok state', w') /\
        task_data state'
        = {| source_type := Some "notes"; has_relevant_notes := Some true |} /\
        final_response state'
        = Some (_format_response (strip answer) "notes" true) /\
        nodes_visited state' = (nodes_visited state ++ ["doubt_resolver"])%list) /\
   (forall e w', notes_call w = (Raise e, w') ->
      resolve state w
      = (Raise (Exception "WorkflowNodeException"
                  (node_exception_str "doubt_resolver" (exn_str e))), w'))) /\
  (n < 2 ->
   (forall answer w', general_call w = (Ok answer, w') ->
      exists state',
        resolve state w = (Ok state', w') /\
        task_data state'
        = {| source_type := Some "general_knowledge";
             has_relevant_notes := Some false |} /\
        final_response state'
        = Some (_format_response (strip answer) "general_knowledge" false) /\
        nodes_visited state' = (nodes_visited state ++ ["doubt_resolver"])%list) /\
   (forall e w', general_call w = (Raise e, w') ->
      resolve state w
      = (Raise (Exception "WorkflowNodeException"
                  (node_exception_str "doubt_resolver" (exn_str e))), w'))).
Proof.
  intros n notes_call general_call.
  assert (Hc : _check_relevance (retrieved_documents state) = (2 <=? n)%nat)
    by apply check_relevance_count.
  split; [rewrite Hc; apply Nat.leb_le|].
  split; intros Hn.
  - assert (Hb : (2 <=? n)%nat = true) by now apply Nat.leb_le.
    split.
    + intros answer w' Hcall. eexists.
      unfold DoubtResolver.resolve, try_except, bind, _answer_from_notes, bind.
      rewrite Hc, Hb. fold notes_call. rewrite Hcall. simpl.
      repeat split; reflexivity.
    + intros e w' Hcall.
      unfold DoubtResolver.resolve, try_except, bind, _answer_from_notes, bind.
      rewrite Hc, Hb. fold notes_call. rewrite Hcall. reflexivity.
  - assert (Hb : (2 <=? n)%nat = false) by (apply Nat.leb_gt; lia).
    split.
    + intros answer w' Hcall. eexists.
      unfold DoubtResolver.resolve, try_except, bind,
        _answer_from_general_knowledge, bind.
      rewrite Hc, Hb. fold general_call. rewrite Hcall. simpl.
      repeat split; reflexivity.
    + intros e w' Hcall.
      unfold DoubtResolver.resolve, try_except, bind,
        _answer_from_general_knowledge, bind.
      rewrite Hc, Hb. fold general_call. rewrite Hcall. reflexivity.
Qed.

End Doubt.

(** With one document of similarity 0.85 and a context that is not empty,
    the answer is from general knowledge. *)
Lemma doubt_path_by_relevant_count_witness :
  Spec.relevant_count (retrieved_documents Demo.one_good_document) = 1%nat /\
  context Demo.one_good_document <> "" /\
  exists state',
    Demo.resolve_doubt Demo.one_good_document 0%nat = (Ok state', 1%nat) /\
    task_data state'
    = {| source_type := Some "general_knowledge";
         has_relevant_notes := Some false |} /\
    final_response state'
    = Some (DoubtResolver._format_response "Paris." "general_knowledge" false).
Proof.
  split; [reflexivity|]. split; [discriminate|].
  destruct (doubt_path_by_relevant_count Demo.llm "notes system" "general system"
              (fun q c => q ++ " / " ++ c) (fun q => q) Demo.node_exception_str
              Demo.one_good_document 0%nat) as (_ & _ & Hgen).
  assert (Hlt : Spec.relevant_count (retrieved_documents Demo.one_good_document) < 2)
    by (vm_compute; lia).
  destruct (Hgen Hlt) as (Hok & _).
  destruct (Hok " Paris. " 1%nat eq_refl) as (state' & Hr & Htd & Hfr & _).
  exists state'. split; [exact Hr|]. split; [exact Htd|exact Hfr].
Defined.

(** ** The workflow graph and the orchestrator *)

Section Orchestration.

Import Workflow Spec.

Variable World : Type.
Variables classify generate_answer evaluate_answer generate_questions
  retrieve_node resolve_doubt : NodeFn World.
Variable time_time : World -> float * World.

Local Abbreviation graph :=
  (_build_graph classify generate_answer evaluate_answer generate_questions
     retrieve_node resolve_doubt).

Local Abbreviation the_pipeline :=
  (pipeline classify generate_answer evaluate_answer generate_questions
     retrieve_node resolve_doubt).

Local Abbreviation run :=
  (process_query classify generate_answer evaluate_answer generate_questions
     retrieve_node resolve_doubt time_time).

Lemma bind_ret_r (A : Type) (c : M World A) (w : World) :
  bind c (fun a => ret a) w = c w.
Proof. unfold bind, ret. destruct (c w) as [[a|e] w']; reflexivity. Qed.

(** One step of a run from a node with a conditional edge. *)
Lemma run_from_conditional (g : StateGraph World) k name f router path_map
  state w :
  lookup name (nodes g) = Some f ->
  lookup name (conditional_edges g) = Some (router, path_map) ->
  run_from g (S k) name state w =
  match f state w with
  | (Ok state', w') =>
      match router state' with
      | Raise e => (Raise e, w')
      | Ok key =>
          match lookup key path_map with
          | Some (Node next) => run_from g k next state' w'
          | Some END => (Ok state', w')
          | None => (Raise (Exception "KeyError" key), w')
          end
      end
  | (Raise e, w') => (Raise e, w')
  end.
Proof.
  intros Hn Hc. simpl. rewrite Hn. unfold bind.
  destruct (f state w) as [[state'|e] w']; [|reflexivity].
  rewrite Hc. destruct (router state') as [key|e]; [|reflexivity].
  destruct (lookup key path_map) as [[next|]|]; reflexivity.
Qed.

(** The step of a run from a node whose edge leads to END. *)
Lemma run_from_last (g : StateGraph World) k name f state w :
  lookup name (nodes g) = Some f ->
  lookup name (conditional_edges g) = None ->
  lookup name (edges g) = Some END ->
  run_from g (S k) name state w = f state w.
Proof.
  intros Hn Hc He. simpl. rewrite Hn. unfold bind.
  destruct (f state w) as [[state'|e] w']; [|reflexivity].
  rewrite Hc, He. reflexivity.
Qed.

Ltac eval_lookup :=
  match goal with
  | |- context [lookup ?key ?items] =>
      let v := eval vm_compute in (lookup key items) in
      change (lookup key items) with v
  end.

(** A run from the retrieval node with two steps or more to spare: the
    node, then the executor its router selects. *)
Lemma run_from_retrieval (k : nat) state w :
  run_from graph (S (S k)) "retrieve_documents" state w =
  match retrieve_node state w with
  | (Ok state', w') =>
      dispatch generate_answer evaluate_answer generate_questions
        resolve_doubt state' w'
  | (Raise e, w') => (Raise e, w')
  end.
Proof.
  rewrite (@run_from_conditional graph _ "retrieve_documents" retrieve_node
             Router.route_after_retrieval _ state w eq_refl eq_refl).
  destruct (retrieve_node state w) as [[state'|e] w']; [|reflexivity].
  unfold Router.route_after_retrieval, dispatch.
  destruct (intent state') as [[]|]; cbv iota; try eval_lookup;
    try reflexivity; now apply run_from_last.
Qed.

(** A run from the entry node with three steps or more to spare. *)
Lemma run_from_entry (k : nat) state w :
  run_from graph (S (S (S k))) "classify_intent" state w = the_pipeline state w.
Proof.
  rewrite (@run_from_conditional graph _ "classify_intent" classify
             Router.route_after_intent _ state w eq_refl eq_refl).
  unfold pipeline, bind.
  destruct (classify state w) as [[state1|e] w1]; [|reflexivity].
  unfold Router.route_after_intent.
  destruct (intent state1) as [i|]; eval_lookup; [|reflexivity].
  apply run_from_retrieval.
Qed.

(** The compiled graph runs the pipeline of the specification. *)
Lemma graph_is_pipeline state w : ainvoke graph state w = the_pipeline state w.
Proof.
  unfold ainvoke. change (entry_point graph) with (Some "classify_intent").
  unfold recursion_limit. apply run_from_entry.
Qed.

(** [process_query] reads the clock, runs the pipeline, reads the clock
    again and builds one of the two envelopes. *)
Lemma process_query_pipeline uid q cid w :
  run uid q cid w =
  let (t0, w0) := time_time w in
  match the_pipeline (set_status (create_initial_state uid q cid) IN_PROGRESS) w0 with
  | (Ok final, w1) =>
      let (t1, w2) := time_time w1 in
      (Ok (_build_response
             (set_status (set_processing_time final (t1 - t0)) COMPLETED)), w2)
  | (Raise e, w1) =>
      let (t1, w2) := time_time w1 in
      (Ok (Failure (exn_str e) (exn_type e) (t1 - t0) uid q), w2)
  end.
Proof.
  unfold process_query, bind at 1, now at 1.
  destruct (time_time w) as [t0 w0].
  unfold try_except, bind at 1. rewrite graph_is_pipeline.
  destruct (pipeline _ _ _ _ _ _ _ w0) as [[final|e] w1].
  - unfold bind, now. destruct (time_time w1) as [t1 w2]. reflexivity.
  - unfold bind, now. destruct (time_time w1) as [t1 w2]. reflexivity.
Qed.

(** C8. Whatever the stages do, [process_query] returns an envelope and
    raises nothing. When the run of the graph raises, at the classifier, at
    the retrieval node or at the task executor, the envelope is the failure
    envelope, with the name and text of the exception and, as processing
    time, the clock when the exception arrived minus the clock read at the
    start. *)
Theorem failures_become_envelopes uid q cid w :
  let start := time_time w in
  let initial := set_status (create_initial_state uid q cid) IN_PROGRESS in
  let failure e w1 :=
    (Ok (Failure (exn_str e) (exn_type e)
           (fst (time_time w1) - fst start) uid q), snd (time_time w1)) in
  (exists r w', run uid q cid w = (Ok r, w')) /\
  (forall e w1,
     ainvoke graph initial (snd start) = (Raise e, w1) ->
     run uid q cid w = failure e w1) /\
  (forall e w1,
     classify initial (snd start) = (Raise e, w1) ->
     run uid q cid w = failure e w1) /\
  (forall state1 w1 i e w2,
     classify initial (snd start) = (Ok state1, w1) ->
     intent state1 = Some i ->
     retrieve_node state1 w1 = (Raise e, w2) ->
     run uid q cid w = failure e w2) /\
  (forall state1 w1 i state2 w2 e w3,
     classify initial (snd start) = (Ok state1, w1) ->
     intent state1 = Some i ->
     retrieve_node state1 w1 = (Ok state2, w2) ->
     dispatch generate_answer evaluate_answer generate_questions
       resolve_doubt state2 w2 = (Raise e, w3) ->
     run uid q cid w = failure e w3).
Proof.
  intros start initial failure.
  assert (Hraise : forall e w1,
            the_pipeline initial (snd start) = (Raise e, w1) ->
            run uid q cid w = failure e w1).
  { intros e w1 H. rewrite process_query_pipeline. subst start failure.
    destruct (time_time w) as [t0 w0]. simpl in *. fold initial. rewrite H.
    destruct (time_time w1) as [t1 w2]. reflexivity. }
  split; [|split; [|split; [|split]]].
  - rewrite process_query_pipeline. destruct (time_time w) as [t0 w0].
    destruct (pipeline _ _ _ _ _ _ _ w0) as [[final|e] w1];
      destruct (time_time w1) as [t1 w2]; eauto.
  - intros e w1 H. apply Hraise. now rewrite <- graph_is_pipeline.
  - intros e w1 H. apply Hraise. unfold pipeline, bind. now rewrite H.
  - intros state1 w1 i e w2 Hc Hi Hr. apply Hraise.
    unfold pipeline, bind. now rewrite Hc, Hi, Hr.
  - intros state1 w1 i state2 w2 e w3 Hc Hi Hr Hd. apply Hraise.
    unfold pipeline, bind. now rewrite Hc, Hi, Hr.
Qed.

End Orchestration.

(** An answer generator that fails three ticks after the start: the
    envelope reports the failure and three ticks of processing time. *)
Lemma failures_become_envelopes_witness :
  Demo.process_query ANSWER_GENERATION (Demo.search_finds Spec.sample_hits)
    Demo.broken_task 1 "What is an ion?" None 0%nat
  = (Ok (Workflow.Failure "model unavailable" "GenerationError" 3 1
           "What is an ion?"), 3%nat).
Proof.
  destruct (failures_become_envelopes
              (Demo.classify_as ANSWER_GENERATION) Demo.broken_task
              (Demo.task "evaluate_answer") (Demo.task "generate_questions")
              (Demo.retrieve (Demo.search_finds Spec.sample_hits))
              Demo.resolve_doubt Demo.time_time 1 "What is an ion?" None 0%nat)
    as (_ & Hgraph & _).
  exact (Hgraph (Exception "GenerationError" "model unavailable") 3%nat eq_refl).
Defined.

(** ** The pipeline with the retrieval node of document_retriever.py *)

Section Retrieval.

Import Workflow Spec DocumentRetriever.

Variable World : Type.
Variable upper : string -> string.
Variable format_2f : float -> string.
Variable list_of_set : DocumentRetriever.ListOfSet.
Variable vector_search : string -> Z -> M World (list Hit).
Variable cfg : Settings.
Variables classify generate_answer evaluate_answer generate_questions
  resolve_doubt : NodeFn World.
Variable time_time : World -> float * World.

Local Abbreviation retrieve :=
  (retrieve_documents_node upper format_2f list_of_set vector_search cfg).

Local Abbreviation graph :=
  (_build_graph classify generate_answer evaluate_answer generate_questions
     retrieve resolve_doubt).

Local Abbreviation run :=
  (process_query classify generate_answer evaluate_answer generate_questions
     retrieve resolve_doubt time_time).

Local Abbreviation task_of :=
  (dispatch generate_answer evaluate_answer generate_questions resolve_doubt).

(** The retrieval node returns on every state: it records itself in the
    trace as "document_retriever" and leaves the intent as it was. *)
Lemma retrieve_returns state w :
  exists state' w',
    retrieve state w = (Ok state', w') /\
    nodes_visited state' = (nodes_visited state ++ ["document_retriever"])%list /\
    intent state' = intent state.
Proof.
  unfold retrieve_documents_node, DocumentRetriever.retrieve, try_except, bind.
  destruct (vector_search _ _ w) as [[hits|e] w'];
    do 2 eexists; repeat split; reflexivity.
Qed.

(** C6. When the search raises, the retrieval node returns all the same:
    no documents, an empty context, its name appended to the trace; the
    run of the graph goes on from that state to the task executor of the
    intent. *)
Theorem retrieval_failure_degrades state w e w' :
  let i := get (intent state) DOUBT_CLARIFICATION in
  vector_search (_enhance_query (query state) i) (RETRIEVAL_COUNTS i * 2)%Z w
  = (Raise e, w') ->
  exists state',
    retrieve state w = (Ok state', w') /\
    retrieved_documents state' = [] /\
    context state' = "" /\
    document_types_available state' = [] /\
    nodes_visited state' = (nodes_visited state ++ ["document_retriever"])%list /\
    intent state' = intent state /\
    (forall k,
       run_from graph (S (S k)) "retrieve_documents" state w
       = task_of state' w') /\
    (forall state0 w0 j,
       classify state0 w0 = (Ok state, w) -> intent state = Some j ->
       ainvoke graph state0 w0 = task_of state' w').
Proof.
  intros i Hsearch.
  assert (Hr : retrieve state w
               = (Ok (append_visited
                        (set_document_types_available
                           (set_context (set_retrieved_documents state []) "")
                           [])
                        "document_retriever"), w')).
  { unfold retrieve_documents_node, DocumentRetriever.retrieve, try_except, bind.
    fold i. rewrite Hsearch. reflexivity. }
  eexists. split; [exact Hr|].
  repeat (split; [reflexivity|]).
  split.
  - intros k. rewrite run_from_retrieval, Hr. reflexivity.
  - intros state0 w0 j Hc Hj. rewrite graph_is_pipeline.
    unfold pipeline, bind. rewrite Hc, Hj, Hr. reflexivity.
Qed.

(** C5, as the code has it. A query the classifier labels
    ANSWER_GENERATION and that completes successfully, with an answer
    generator that only appends to the trace, has as its trace the
    classifier's trace, then "document_retriever", then what the answer
    generator appended; this is never the list with "retrieve_documents"
    in the second place. *)
Theorem answer_generation_trace uid q cid w state1 w1 r w' :
  let initial := set_status (create_initial_state uid q cid) IN_PROGRESS in
  classify initial (snd (time_time w)) = (Ok state1, w1) ->
  intent state1 = Some ANSWER_GENERATION ->
  (forall st wa st' wb,
     generate_answer st wa = (Ok st', wb) ->
     exists post, nodes_visited st' = (nodes_visited st ++ post)%list) ->
  run uid q cid w = (Ok r, w') ->
  success r = true ->
  exists state2 w2 state3 w3 post,
    retrieve state1 w1 = (Ok state2, w2) /\
    generate_answer state2 w2 = (Ok state3, w3) /\
    nodes_visited state3 = (nodes_visited state2 ++ post)%list /\
    response_nodes_visited r
    = Some (nodes_visited state1 ++ ["document_retriever"] ++ post)%list /\
    response_nodes_visited r
    <> Some ["classify_intent"; "retrieve_documents"; "generate_answer"].
Proof.
  intros initial Hc Hi Happ Hrun Hok.
  destruct (retrieve_returns state1 w1) as (state2 & w2 & Hr & Hn2 & Hi2).
  rewrite process_query_pipeline in Hrun.
  destruct (time_time w) as [t0 w0]. simpl in Hc.
  unfold pipeline, bind in Hrun. fold initial in Hrun.
  rewrite Hc, Hi, Hr in Hrun. unfold dispatch in Hrun.
  rewrite Hi2, Hi in Hrun.
  destruct (generate_answer state2 w2) as [[state3|e] w3] eqn:Hg.
  - destruct (time_time w3) as [t1 w4]. injection Hrun as <- <-.
    destruct (Happ _ _ _ _ Hg) as [post Hpost].
    exists state2, w2, state3, w3, post.
    assert (Htrace : nodes_visited state3
                     = (nodes_visited state1 ++ ["document_retriever"] ++ post)%list)
      by (rewrite Hpost, Hn2, <- app_assoc; reflexivity).
    split; [exact Hr|]. split; [exact Hg|]. split; [exact Hpost|].
    split; [simpl; now rewrite Htrace|].
    simpl. rewrite Htrace. intros [= H].
    assert (Hin : In "document_retriever"
                    ["classify_intent"; "retrieve_documents"; "generate_answer"]).
    { rewrite <- H. apply in_or_app. right. now left. }
    simpl in Hin. intuition discriminate.
  - destruct (time_time w3) as [t1 w4]. injection Hrun as <- <-.
    discriminate.
Qed.

(** C7. A query the classifier labels EXAM_PAPER_GENERATION is retrieved
    for and then ends at the router, which has no executor to route to and
    signals [UnsupportedIntent]: no task executor runs, and
    [process_query] returns the failure envelope that names the signal,
    not a success envelope and not an exception. A classification failure,
    the classifier raising ClassificationError, is reported under its own
    name, so that the two are told apart. The intent is not among the
    supported intents the workflow reports. *)
Theorem exam_paper_signals_unsupported_intent uid q cid w state1 w1 :
  let initial := set_status (create_initial_state uid q cid) IN_PROGRESS in
  classify initial (snd (time_time w)) = (Ok state1, w1) ->
  intent state1 = Some EXAM_PAPER_GENERATION ->
  exists state2 w2,
    retrieve state1 w1 = (Ok state2, w2) /\
    ainvoke graph initial (snd (time_time w))
    = (Raise Router.UnsupportedIntent, w2) /\
    run uid q cid w
    = (Ok (Failure "unsupported intent" "UnsupportedIntent"
             (fst (time_time w2) - fst (time_time w)) uid q),
       snd (time_time w2)) /\
    (forall r w', run uid q cid w = (Ok r, w') -> success r = false) /\
    (forall uid' q' cid' w' e w1',
       classify (set_status (create_initial_state uid' q' cid') IN_PROGRESS)
         (snd (time_time w')) = (Raise e, w1') ->
       exn_type e = "ClassificationError" ->
       run uid' q' cid' w'
       = (Ok (Failure (exn_str e) "ClassificationError"
                (fst (time_time w1') - fst (time_time w')) uid' q'),
          snd (time_time w1'))) /\
    "UnsupportedIntent" <> "ClassificationError" /\
    ~ In (Intent_value EXAM_PAPER_GENERATION)
         (supported_intents get_workflow_info).
Proof.
  intros initial Hc Hi.
  destruct (retrieve_returns state1 w1) as (state2 & w2 & Hr & Hn2 & Hi2).
  assert (Hp : pipeline classify generate_answer evaluate_answer
                 generate_questions retrieve resolve_doubt initial
                 (snd (time_time w)) = (Raise Router.UnsupportedIntent, w2)).
  { unfold pipeline, bind. rewrite Hc, Hi, Hr. unfold dispatch.
    now rewrite Hi2, Hi. }
  assert (Hrun : run uid q cid w
                 = (Ok (Failure "unsupported intent" "UnsupportedIntent"
                          (fst (time_time w2) - fst (time_time w)) uid q),
                    snd (time_time w2))).
  { rewrite process_query_pipeline. destruct (time_time w) as [t0 w0].
    simpl in Hp. fold initial. rewrite Hp.
    destruct (time_time w2) as [t1 w3]. reflexivity. }
  exists state2, w2.
  split; [exact Hr|].
  split; [now rewrite graph_is_pipeline|].
  split; [exact Hrun|].
  split; [intros r w' H; rewrite Hrun in H; now injection H as <- <-|].
  split; [|split; [discriminate|simpl; intuition discriminate]].
  intros uid' q' cid' w' e w1' Hc' He.
  rewrite process_query_pipeline. destruct (time_time w') as [t0 w0].
  simpl in Hc'. unfold pipeline, bind. rewrite Hc', <- He.
  destruct (time_time w1') as [t1 w3]. reflexivity.
Qed.

End Retrieval.

(** With the search down, the doubt resolver still runs, on an empty
    context. *)
Lemma retrieval_failure_degrades_witness :
  exists state',
    Demo.retrieve Demo.search_down
      (set_intent Demo.one_good_document (Some DOUBT_CLARIFICATION)) 0%nat
    = (Ok state', 1%nat) /\
    retrieved_documents state' = [] /\
    context state' = "" /\
    nodes_visited state' = ["document_retriever"] /\
    Workflow.run_from
      (Workflow._build_graph (Demo.classify_as DOUBT_CLARIFICATION)
         (Demo.task "generate_answer") (Demo.task "evaluate_answer")
         (Demo.task "generate_questions") (Demo.retrieve Demo.search_down)
         Demo.resolve_doubt)
      24 "retrieve_documents"
      (set_intent Demo.one_good_document (Some DOUBT_CLARIFICATION)) 0%nat
    = Demo.resolve_doubt state' 1%nat.
Proof.
  destruct (@retrieval_failure_degrades Demo.World
      Demo.upper Demo.format_2f Demo.list_of_set
              Demo.search_down settings
              (Demo.classify_as DOUBT_CLARIFICATION)
              (Demo.task "generate_answer") (Demo.task "evaluate_answer")
              (Demo.task "generate_questions") Demo.resolve_doubt
              (set_intent Demo.one_good_document (Some DOUBT_CLARIFICATION))
              0%nat (Exception "ConnectionError" "vector store unreachable")
              1%nat eq_refl)
    as (state' & Hr & Hd & Hc & _ & Hn & Hi & Hrun & _).
  exists state'. split; [exact Hr|]. split; [exact Hd|]. split; [exact Hc|].
  split; [exact Hn|].
  etransitivity; [exact (Hrun 22%nat)|].
  unfold Spec.dispatch. rewrite Hi. reflexivity.
Defined.

(** C5 fails on the code: even when the classifier and the answer
    generator record "classify_intent" and "generate_answer", a successful
    ANSWER_GENERATION run has "document_retriever" in the second place. *)
Lemma answer_generation_trace_counterexample :
  let r :=
    Workflow.Success "answer_generation" 3
      ["classify_intent"; "document_retriever"; "generate_answer"]
      {| Workflow.meta_user_id := 1;
         Workflow.meta_conversation_id := None;
         Workflow.document_types_used := ["marking_scheme"; "slides"; "notes"];
         Workflow.num_documents_retrieved := 5;
         Workflow.context_length := Some 219%nat |}
      None None None None in
  Demo.process_query ANSWER_GENERATION (Demo.search_finds Spec.sample_hits)
    (Demo.task "generate_answer") 1 "What is an ion?" None 0%nat
  = (Ok r, 3%nat)
  /\ Workflow.success r = true
  /\ Workflow.response_intent r = Some "answer_generation"
  /\ Workflow.response_nodes_visited r
     <> Some ["classify_intent"; "retrieve_documents"; "generate_answer"].
Proof.
  split; [vm_compute; reflexivity|].
  split; [reflexivity|]. split; [reflexivity|]. discriminate.
Qed.

Lemma answer_generation_trace_witness :
  exists r w',
    Demo.process_query ANSWER_GENERATION (Demo.search_finds Spec.sample_hits)
      (Demo.task "generate_answer") 1 "What is an ion?" None 0%nat
    = (Ok r, w') /\
    Workflow.response_nodes_visited r
    = Some ["classify_intent"; "document_retriever"; "generate_answer"].
Proof.
  assert (Happ : forall st wa st' wb,
            Demo.task "generate_answer" st wa = (Ok st', wb) ->
            exists post, nodes_visited st' = (nodes_visited st ++ post)%list).
  { intros st wa st' wb [= <- _]. eexists. reflexivity. }
  pose (state1 :=
          append_visited
            (set_intent
               (set_status (create_initial_state 1 "What is an ion?" None)
                  IN_PROGRESS)
               (Some ANSWER_GENERATION))
            "classify_intent").
  let v := eval vm_compute in
    (Demo.process_query ANSWER_GENERATION (Demo.search_finds Spec.sample_hits)
       (Demo.task "generate_answer") 1 "What is an ion?" None 0%nat) in
  lazymatch v with
  | (Ok ?r, ?w') =>
      exists r, w'; split; [vm_compute; reflexivity|];
      assert (Hrun : Workflow.process_query
                       (Demo.classify_as ANSWER_GENERATION)
                       (Demo.task "generate_answer")
                       (Demo.task "evaluate_answer")
                       (Demo.task "generate_questions")
                       (DocumentRetriever.retrieve_documents_node
                          Demo.upper Demo.format_2f Demo.list_of_set
                          (Demo.search_finds Spec.sample_hits)
                          settings)
                       Demo.resolve_doubt Demo.time_time 1 "What is an ion?"
                       None 0%nat
                     = (Ok r, w')) by (vm_compute; reflexivity);
      pose proof (@answer_generation_trace Demo.World
          Demo.upper Demo.format_2f Demo.list_of_set
                    (Demo.search_finds Spec.sample_hits) settings
                    (Demo.classify_as ANSWER_GENERATION)
                    (Demo.task "generate_answer") (Demo.task "evaluate_answer")
                    (Demo.task "generate_questions") Demo.resolve_doubt
                    Demo.time_time 1 "What is an ion?" None 0%nat state1 1%nat
                    r w') as Htrace
  end.
  destruct (Htrace eq_refl eq_refl Happ Hrun eq_refl)
    as (state2 & w2 & state3 & w3 & post & _).
  reflexivity.
Defined.

(** A query labelled EXAM_PAPER_GENERATION, with five documents found:
    the run ends after retrieval, two ticks after the start, in the
    failure envelope of the unsupported intent. *)
Lemma exam_paper_signals_unsupported_intent_witness :
  Demo.process_query EXAM_PAPER_GENERATION
    (Demo.search_finds Spec.sample_hits) (Demo.task "generate_answer")
    1 "Set a paper on ions" None 0%nat
  = (Ok (Workflow.Failure "unsupported intent" "UnsupportedIntent" 2 1
           "Set a paper on ions"), 2%nat).
Proof.
  destruct (@exam_paper_signals_unsupported_intent Demo.World Demo.upper
              Demo.format_2f Demo.list_of_set
              (Demo.search_finds Spec.sample_hits) settings
              (Demo.classify_as EXAM_PAPER_GENERATION)
              (Demo.task "generate_answer") (Demo.task "evaluate_answer")
              (Demo.task "generate_questions") Demo.resolve_doubt
              Demo.time_time 1 "Set a paper on ions" None 0%nat _ _
              eq_refl eq_refl)
    as (state2 & w2 & Hr & _ & Hrun & _).
  injection Hr as _ <-. exact Hrun.
Defined.

(** ** The streaming session: history and message list *)

Section History.

Import Chat.

Local Open Scope Z_scope.

Lemma insert_by_id_perm r l : Permutation (insert_by_id_desc r l) (r :: l).
Proof.
  induction l as [|r' l IH]; simpl; [reflexivity|].
  destruct (id r <? id r'); [|reflexivity].
  rewrite IH. apply perm_swap.
Qed.

Lemma order_by_id_perm l : Permutation (order_by_id_desc l) l.
Proof.
  induction l as [|r l IH]; simpl; [constructor|].
  rewrite insert_by_id_perm. now constructor.
Qed.

Lemma insert_by_id_sorted r l :
  newest_first l -> newest_first (insert_by_id_desc r l).
Proof.
  unfold newest_first. intros Hs.
  induction Hs as [|r' l Hs IH Hr']; simpl; [repeat constructor|].
  destruct (Z.ltb_spec (id r) (id r')).
  - constructor; [assumption|].
    rewrite (insert_by_id_perm r l). constructor; [lia|assumption].
  - constructor; [now constructor|].
    constructor; [assumption|].
    eapply Forall_impl; [|exact Hr']. simpl. intros. lia.
Qed.

Lemma order_by_id_sorted l : newest_first (order_by_id_desc l).
Proof.
  induction l as [|r l IH]; simpl; [constructor|].
  now apply insert_by_id_sorted.
Qed.

Lemma sorted_snoc (R : MessageRow -> MessageRow -> Prop) l x :
  StronglySorted R l -> Forall (fun a => R a x) l ->
  StronglySorted R (l ++ [x])%list.
Proof.
  intros Hs Hf. induction Hs as [|a l Hs IH Ha]; simpl.
  - repeat constructor.
  - inversion Hf; subst. constructor; [now apply IH|].
    apply Forall_app. split; [assumption|]. now repeat constructor.
Qed.

Lemma sorted_rev l : newest_first l -> chronological (rev l).
Proof.
  unfold newest_first, chronological. intros Hs.
  induction Hs as [|r l Hs IH Hr]; simpl; [constructor|].
  apply sorted_snoc; [assumption|]. now apply Forall_rev.
Qed.

Lemma sorted_app_cross (R : MessageRow -> MessageRow -> Prop) l1 l2 a b :
  StronglySorted R (l1 ++ l2)%list -> In a l1 -> In b l2 -> R a b.
Proof.
  induction l1 as [|x l1 IH]; simpl; intros Hs Ha Hb; [contradiction|].
  inversion Hs as [|? ? Hs' Hf]; subst.
  destruct Ha as [->|Ha]; [|now apply IH].
  rewrite Forall_forall in Hf. apply Hf. apply in_or_app. now right.
Qed.

Lemma drop_last_app (A : Type) (l : list A) (x : A) :
  drop_last (l ++ [x])%list = l.
Proof.
  unfold drop_last, slice_to. simpl. rewrite length_app. simpl.
  replace (Z.to_nat (Z.of_nat (List.length l + 1) + -1)) with (List.length l + 0)%nat
    by lia.
  rewrite firstn_app_2. simpl. apply app_nil_r.
Qed.

Lemma exclude_current_last h row query :
  exclude_current (h ++ [row])%list query
  = if String.eqb (snd row) query then h else (h ++ [row])%list.
Proof.
  unfold exclude_current. rewrite rev_app_distr. simpl.
  destruct (String.eqb (snd row) query); [apply drop_last_app|reflexivity].
Qed.

Lemma exclude_current_length h query :
  (List.length (exclude_current h query) <= List.length h)%nat.
Proof.
  destruct (rev h) as [|row t] eqn:E.
  - unfold exclude_current. now rewrite E.
  - assert (Hh : h = (rev t ++ [row])%list)
      by (rewrite <- (rev_involutive h), E; reflexivity).
    rewrite Hh, exclude_current_last.
    destruct (String.eqb (snd row) query); rewrite ?length_app; simpl; lia.
Qed.

Lemma fetch_history_rows db cid :
  fetch_history db cid = fetchall (rev (select_last_rows db cid)).
Proof. unfold fetch_history, fetchall. now rewrite map_rev. Qed.

Lemma next_id_above db r : In r db -> id r < next_id db.
Proof.
  unfold next_id. induction db as [|r' db IH]; [contradiction|].
  cbn [map fold_right In]. intros [->|H]; [lia|]. specialize (IH H). lia.
Qed.

(** The newest row sorts first. *)
Lemma order_by_id_newest l x :
  Forall (fun r => id r < id x) l ->
  order_by_id_desc (l ++ [x])%list = x :: order_by_id_desc l.
Proof.
  intros Hf. unfold order_by_id_desc.
  induction Hf as [|a l Ha Hf IH]; [reflexivity|].
  cbn [app fold_right]. rewrite IH. cbn [insert_by_id_desc].
  destruct (Z.ltb_spec (id a) (id x)); [reflexivity|lia].
Qed.

Lemma conversation_rows_save db cid r c i m :
  conversation_rows (save_message db cid r c i m) cid
  = (conversation_rows db cid
     ++ [{| id := next_id db; row_conversation_id := cid; role := r;
            content := c; row_intent := i; row_metadata := m |}])%list.
Proof.
  unfold conversation_rows, save_message. rewrite filter_app. simpl.
  now rewrite Z.eqb_refl.
Qed.

Variables SYSTEM GENERAL_SYSTEM : string.

Local Abbreviation to_message :=
  (fun row : string * string =>
     {| msg_role := fst row; msg_content := snd row |}).

(** C9. The message list is the system prompt, the history, and the
    current query. The history is read from the at most ten newest rows of
    the conversation, oldest first; when the newest of them has the text of
    the current query it is left out. In a streaming session, where the
    query is saved before the list is built, the history is therefore made
    of rows saved earlier, and the current query stands once, at the end. *)
Theorem history_is_last_ten_without_current db cid query context :
  let conversation := conversation_rows db cid in
  let rows := rev (select_last_rows db cid) in
  let history := exclude_current (fetch_history db cid) query in
  let system :=
    {| msg_role := "system";
       msg_content := system_prompt_of SYSTEM GENERAL_SYSTEM context |} in
  let current :=
    {| msg_role := "user"; msg_content := final_query_of context query |} in
  build_messages SYSTEM GENERAL_SYSTEM (fetch_history db cid) context query
  = (system :: map to_message history ++ [current])%list /\
  fetch_history db cid = fetchall rows /\
  (List.length history <= 10)%nat /\
  List.length rows = Nat.min 10 (List.length conversation) /\
  chronological rows /\
  incl rows conversation /\
  (forall r r', In r conversation -> ~ In r rows -> In r' rows -> id r <= id r') /\
  (forall older r,
     rows = (older ++ [r])%list ->
     history = if String.eqb (content r) query then fetchall older
               else fetchall rows) /\
  (let db' := save_message db cid "user" query None None in
   let earlier := rev (firstn 9 (order_by_id_desc conversation)) in
   build_messages SYSTEM GENERAL_SYSTEM (fetch_history db' cid) context query
   = (system :: map to_message (fetchall earlier) ++ [current])%list /\
   incl earlier db /\
   Forall (fun r => id r < next_id db) earlier /\
   forall (World : Type) (retrieve : GraphState -> M World GraphState)
          uid w state' w',
     retrieve
       (set_intent (create_initial_state uid query None)
          (Some DOUBT_CLARIFICATION)) w
     = (Ok state', w') ->
     State.context state' = context ->
     let session :=
       stream_query SYSTEM GENERAL_SYSTEM retrieve db uid query cid in
     fst session = db' /\
     snd session w
     = (Ok (system :: map to_message (fetchall earlier) ++ [current])%list, w')).
Proof.
  intros conversation rows history system current.
  assert (Hfetch : fetch_history db cid = fetchall rows)
    by apply fetch_history_rows.
  assert (Hlen : List.length rows = Nat.min 10 (List.length conversation)).
  { unfold rows, select_last_rows. rewrite length_rev, length_firstn.
    fold conversation.
    now rewrite (Permutation_length (order_by_id_perm conversation)). }
  assert (Hsplit : order_by_id_desc conversation
                   = (select_last_rows db cid
                      ++ skipn 10 (order_by_id_desc conversation))%list)
    by (symmetry; apply firstn_skipn).
  assert (Hsorted : newest_first (order_by_id_desc conversation))
    by apply order_by_id_sorted.
  split; [reflexivity|]. split; [exact Hfetch|].
  split.
  { unfold history. etransitivity; [apply exclude_current_length|].
    rewrite Hfetch. unfold fetchall. rewrite length_map, Hlen. lia. }
  split; [exact Hlen|].
  split.
  { apply sorted_rev. unfold newest_first in *. rewrite Hsplit in Hsorted.
    eapply StronglySorted_app_l. exact Hsorted. }
  split.
  { intros r Hr. unfold rows in Hr. apply in_rev in Hr.
    unfold select_last_rows in Hr. fold conversation in Hr.
    eapply Permutation_in; [apply order_by_id_perm|].
    rewrite <- (firstn_skipn 10 (order_by_id_desc conversation)).
    apply in_or_app. now left. }
  split.
  { intros r r' Hr Hnot Hr'. unfold rows in Hnot, Hr'.
    rewrite <- in_rev in Hnot, Hr'.
    assert (Hin : In r (order_by_id_desc conversation))
      by (eapply Permutation_in; [symmetry; apply order_by_id_perm|exact Hr]).
    rewrite Hsplit in Hin. apply in_app_or in Hin.
    destruct Hin as [Hin|Hin]; [contradiction|].
    unfold newest_first in Hsorted. rewrite Hsplit in Hsorted.
    exact (sorted_app_cross _ _ _ _ Hsorted Hr' Hin). }
  split.
  { intros older r Hrows. unfold history. rewrite Hfetch, Hrows.
    unfold fetchall. rewrite map_app. simpl.
    rewrite exclude_current_last. simpl.
    destruct (String.eqb (content r) query); reflexivity. }
  intros db' earlier.
  assert (Hnew : select_last_rows db' cid
                 = {| id := next_id db; row_conversation_id := cid;
                      role := "user"; content := query; row_intent := None;
                      row_metadata := None |}
                   :: firstn 9 (order_by_id_desc conversation)).
  { unfold select_last_rows, db'. rewrite conversation_rows_save.
    fold conversation. rewrite order_by_id_newest; [reflexivity|].
    apply Forall_forall. intros r Hr. simpl. apply next_id_above.
    unfold conversation, conversation_rows in Hr. now apply filter_In in Hr. }
  assert (Hincl : incl earlier db).
  { intros r Hr. unfold earlier in Hr. apply in_rev in Hr.
    assert (Hin : In r conversation).
    { eapply Permutation_in; [apply order_by_id_perm|].
      rewrite <- (firstn_skipn 9 (order_by_id_desc conversation)).
      apply in_or_app. now left. }
    unfold conversation, conversation_rows in Hin. now apply filter_In in Hin. }
  assert (Hbuild : forall c,
            build_messages SYSTEM GENERAL_SYSTEM (fetch_history db' cid) c query
            = ({| msg_role := "system";
                  msg_content := system_prompt_of SYSTEM GENERAL_SYSTEM c |}
               :: map to_message (fetchall earlier)
               ++ [{| msg_role := "user";
                      msg_content := final_query_of c query |}])%list).
  { intros c. unfold build_messages. rewrite fetch_history_rows, Hnew.
    cbn [rev]. fold earlier. unfold fetchall at 1. rewrite map_app.
    cbn [map]. rewrite exclude_current_last. cbn [snd].
    rewrite String.eqb_refl. reflexivity. }
  split; [apply Hbuild|].
  split; [exact Hincl|].
  split.
  - apply Forall_forall. intros r Hr. apply next_id_above. now apply Hincl.
  - intros World retrieve uid w state' w' Hret Hctx session.
    split; [reflexivity|].
    unfold session, stream_query, event_generator_messages, bind. cbn [snd].
    rewrite Hret. unfold ret. fold db'. rewrite Hctx, Hbuild. reflexivity.
Qed.

End History.

(** Twelve earlier messages and the query "m13": the list is the general
    system prompt, the nine newest earlier messages oldest first, and the
    query once. *)
Lemma history_is_last_ten_without_current_witness :
  map Chat.msg_content
    (Chat.build_messages "S" "G"
       (Chat.fetch_history
          (Chat.save_message Demo.earlier_messages 7 "user" "m13" None None) 7)
       "" "m13")
  = ["G"; "m4"; "m5"; "m6"; "m7"; "m8"; "m9"; "m10"; "m11"; "m12"; "m13"].
Proof.
  destruct (history_is_last_ten_without_current "S" "G" Demo.earlier_messages
              7 "m13" "") as (_ & _ & _ & _ & _ & _ & _ & _ & Hsession & _).
  rewrite Hsession. reflexivity.
Defined.

(** * Part III: further properties of the code *)

(** ** The context and the groups of documents *)

Section ContextFacts.

Import DocumentRetriever More.

Lemma group_by_type_snoc docs doc :
  group_by_type (docs ++ [doc]) = group_add doc (group_by_type docs).
Proof. unfold group_by_type. now rewrite fold_left_app. Qed.

Lemma first_seen_In x l : In x (first_seen l) <-> In x l.
Proof.
  induction l as [|y l IH]; simpl; [tauto|].
  rewrite filter_In, IH. destruct (String.eqb_spec x y) as [->|Hne].
  - tauto.
  - simpl. intuition congruence.
Qed.

Lemma first_seen_NoDup l : NoDup (first_seen l).
Proof.
  induction l as [|y l IH]; simpl; constructor.
  - rewrite filter_In. rewrite String.eqb_refl. simpl. intuition discriminate.
  - now apply NoDup_filter.
Qed.

Lemma filter_all_false (A : Type) (f : A -> bool) l :
  (forall x, In x l -> f x = false) -> filter f l = [].
Proof.
  induction l as [|a l IH]; simpl; intros H; [reflexivity|].
  rewrite (H a) by now left. apply IH. intros. apply H. now right.
Qed.

Lemma first_seen_snoc l x :
  first_seen (l ++ [x])
  = if existsb (String.eqb x) l then first_seen l else (first_seen l ++ [x])%list.
Proof.
  induction l as [|y l IH]; simpl; [reflexivity|].
  rewrite IH. destruct (String.eqb_spec x y) as [->|Hne]; simpl.
  - destruct (existsb (String.eqb y) l); [reflexivity|].
    rewrite filter_app. simpl. rewrite String.eqb_refl. simpl.
    now rewrite app_nil_r.
  - destruct (existsb (String.eqb x) l); [reflexivity|].
    rewrite filter_app. simpl.
    destruct (String.eqb_spec x y); [congruence|reflexivity].
Qed.

Lemma group_add_keys doc (f : string -> list RetrievedDocument) ks :
  NoDup ks ->
  group_add doc (map (fun t => (t, f t)) ks)
  = (map (fun t => (t, if String.eqb t (document_type doc)
                       then (f t ++ [doc])%list else f t)) ks
     ++ (if existsb (String.eqb (document_type doc)) ks then []
         else [(document_type doc, [doc])]))%list.
Proof.
  intros Hnd. induction Hnd as [|k ks Hk Hnd IH]; [reflexivity|].
  simpl. rewrite (String.eqb_sym (document_type doc) k).
  destruct (String.eqb_spec k (document_type doc)) as [->|Hne]; simpl.
  - rewrite app_nil_r. f_equal. apply map_ext_in. intros t Ht.
    destruct (String.eqb_spec t (document_type doc)); [congruence|reflexivity].
  - now rewrite IH.
Qed.

Lemma existsb_first_seen x l :
  existsb (String.eqb x) (first_seen l) = existsb (String.eqb x) l.
Proof.
  destruct (existsb (String.eqb x) l) eqn:E.
  - apply existsb_exists in E. destruct E as (y & Hy & Hxy).
    apply existsb_exists. exists y. split; [now rewrite first_seen_In|assumption].
  - destruct (existsb (String.eqb x) (first_seen l)) eqn:E'; [|reflexivity].
    apply existsb_exists in E'. destruct E' as (y & Hy & Hxy).
    rewrite first_seen_In in Hy.
    assert (Hex : existsb (String.eqb x) l = true).
    { apply existsb_exists. exists y. split; assumption. }
    rewrite Hex in E. discriminate.
Qed.

Lemma group_by_type_groups docs : group_by_type docs = groups_of docs.
Proof.
  induction docs as [|doc docs IH] using rev_ind; [reflexivity|].
  rewrite group_by_type_snoc, IH. unfold groups_of.
  rewrite group_add_keys by apply first_seen_NoDup.
  rewrite (map_app document_type docs [doc]).
  change (map document_type [doc]) with [document_type doc].
  rewrite first_seen_snoc, existsb_first_seen.
  assert (Hold : map (fun t => (t, if String.eqb t (document_type doc)
                                   then (filter (is_type t) docs ++ [doc])%list
                                   else filter (is_type t) docs))
                   (first_seen (map document_type docs))
                 = map (fun t => (t, filter (is_type t) (docs ++ [doc])))
                       (first_seen (map document_type docs))).
  { apply map_ext. intros t. rewrite filter_app. simpl.
    change (is_type t doc) with (String.eqb (document_type doc) t).
    rewrite (String.eqb_sym (document_type doc) t).
    destruct (String.eqb t (document_type doc)); [reflexivity|].
    now rewrite app_nil_r. }
  rewrite Hold.
  destruct (existsb (String.eqb (document_type doc)) (map document_type docs))
    eqn:E.
  - now rewrite app_nil_r.
  - rewrite map_app. simpl. f_equal. f_equal. f_equal.
    rewrite filter_app. simpl.
    change (is_type (document_type doc) doc)
      with (String.eqb (document_type doc) (document_type doc)).
    rewrite String.eqb_refl.
    replace (filter (is_type (document_type doc)) docs) with (@nil RetrievedDocument);
      [reflexivity|].
    symmetry. apply filter_all_false. intros d Hd. unfold is_type.
    destruct (String.eqb_spec (document_type d) (document_type doc)) as [Heq|];
      [|reflexivity].
    assert (existsb (String.eqb (document_type doc)) (map document_type docs) = true).
    { apply existsb_exists. exists (document_type d).
      split; [now apply in_map|]. rewrite Heq. apply String.eqb_refl. }
    congruence.
Qed.

(** X1. The documents are grouped by type without loss: there is one group
    per document type, the groups stand in the order in which their types
    first occur, and each group holds exactly the documents of its type, in
    the order they were given. *)
Theorem group_by_type_partitions docs :
  map fst (group_by_type docs) = first_seen (map document_type docs) /\
  NoDup (map fst (group_by_type docs)) /\
  (forall t ds, In (t, ds) (group_by_type docs) ->
     ds = filter (is_type t) docs /\ ds <> []) /\
  (forall doc, In doc docs ->
     In (document_type doc, filter (is_type (document_type doc)) docs)
        (group_by_type docs)).
Proof.
  rewrite group_by_type_groups. unfold groups_of.
  assert (Hkeys : map fst
                    (map (fun t => (t, filter (is_type t) docs))
                       (first_seen (map document_type docs)))
                  = first_seen (map document_type docs)).
  { rewrite map_map. simpl. apply map_id. }
  split; [exact Hkeys|].
  split; [rewrite Hkeys; apply first_seen_NoDup|].
  split.
  - intros t ds Hin. apply in_map_iff in Hin. destruct Hin as (t' & [= <- <-] & Ht).
    split; [reflexivity|].
    apply first_seen_In, in_map_iff in Ht. destruct Ht as (d & Hd & Hin).
    intros Hnil.
    assert (Hd' : In d (filter (is_type t') docs)).
    { apply filter_In. split; [assumption|]. unfold is_type. rewrite Hd.
      apply String.eqb_refl. }
    rewrite Hnil in Hd'. contradiction.
  - intros doc Hdoc. apply in_map_iff. exists (document_type doc).
    split; [reflexivity|]. apply first_seen_In. now apply in_map.
Qed.

Lemma group_by_type_nonempty doc docs : group_by_type (doc :: docs) <> [].
Proof.
  rewrite group_by_type_groups. unfold groups_of. simpl. discriminate.
Qed.

Variable upper : string -> string.
Variable format_2f : float -> string.

(** X2. The context is the empty string exactly when there is no document:
    any retrieved document gives a context that the callers read as
    present. *)
Theorem context_empty_iff_no_documents docs :
  _build_context upper format_2f docs = "" <-> docs = [].
Proof.
  split; [|intros ->; reflexivity].
  destruct docs as [|doc docs]; [reflexivity|].
  intros H. exfalso. unfold _build_context in H.
  pose proof (group_by_type_nonempty doc docs) as Hne.
  destruct (group_by_type (doc :: docs)) as [|[t ds] gs]; [congruence|].
  simpl in H.
  destruct (chunk_parts format_2f 1 ds
            ++ flat_map (group_parts upper format_2f) gs)%list;
    discriminate.
Qed.

End ContextFacts.

Lemma group_by_type_partitions_witness :
  let docs :=
    DocumentRetriever._format_retrieved_documents
      (DocumentRetriever._filter_and_rank_results settings Spec.sample_hits
         DOUBT_CLARIFICATION 1 8) in
  map fst (DocumentRetriever.group_by_type docs)
  = ["notes"; "marking_scheme"; "slides"]
  /\ map (fun g => map chunk_text (snd g)) (DocumentRetriever.group_by_type docs)
     = [["n2"; "n1"]; ["m"]; ["o"; "p"]].
Proof.
  intros docs.
  destruct (group_by_type_partitions docs) as (Hkeys & _).
  split; [rewrite Hkeys; reflexivity|reflexivity].
Defined.

(** ** The scorer and the retrieval node, further *)

Section ScorerFacts.

Import DocumentRetriever Spec More.

Local Open Scope Z_scope.

Lemma access_granted_iff uid r :
  access_denied uid (metadata_of r) = false <-> permitted uid r.
Proof.
  unfold access_denied, permitted.
  destruct (md_user_id (metadata_of r)) as [o|],
           (md_visibility (metadata_of r)) as [v|]; simpl.
  - destruct (Z.eqb_spec o uid), (String.eqb_spec v "public"); simpl;
      split; intros H; try reflexivity; try discriminate;
      try (left; congruence); try (right; congruence).
    destruct H as [H|H]; congruence.
  - destruct (Z.eqb_spec o uid); simpl; split; intros H;
      try reflexivity; try discriminate; try (left; congruence).
    destruct H as [H|H]; congruence.
  - destruct (String.eqb_spec v "public"); simpl; split; intros H;
      try reflexivity; try discriminate; try (right; congruence).
    destruct H as [H|H]; congruence.
  - split; [discriminate|]. intros [H|H]; discriminate.
Qed.

Lemma slice_to_all (A : Type) (n : Z) (l : list A) :
  Z.of_nat (List.length l) <= n -> slice_to n l = l.
Proof.
  intros H. unfold slice_to. destruct (Z.leb_spec 0 n); [|lia].
  apply firstn_all2. lia.
Qed.

Lemma slice_to_size (A : Type) (n : Z) (l : list A) :
  Z.of_nat (List.length (slice_to n l))
  = if 0 <=? n then Z.min n (Z.of_nat (List.length l))
    else Z.max 0 (Z.of_nat (List.length l) + n).
Proof.
  unfold slice_to. destruct (Z.leb_spec 0 n); rewrite length_firstn; lia.
Qed.

(** X3. Nothing the user may read is lost to the cut when the limit
    covers the hits that pass: every raw hit that is the user's own or
    public, and whose boosted score reaches the threshold, is then in the
    output, which is a rearrangement of exactly those hits. *)
Theorem permitted_hits_are_returned cfg hits i uid n :
  Z.of_nat (List.length (admitted cfg (DOCUMENT_TYPE_PRIORITIES i) uid hits))
  <= n ->
  Permutation (_filter_and_rank_results cfg hits i uid n)
    (admitted cfg (DOCUMENT_TYPE_PRIORITIES i) uid hits) /\
  forall r,
    In r hits -> permitted uid r ->
    PyFloat.geb (boosted_score (DOCUMENT_TYPE_PRIORITIES i) r)
      (SIMILARITY_THRESHOLD cfg) = true ->
    In r (_filter_and_rank_results cfg hits i uid n).
Proof.
  intros Hn.
  assert (Hall : _filter_and_rank_results cfg hits i uid n
                 = sort_reverse (boosted_score (DOCUMENT_TYPE_PRIORITIES i))
                     (admitted cfg (DOCUMENT_TYPE_PRIORITIES i) uid hits)).
  { rewrite filter_and_rank_admitted. apply slice_to_all.
    now rewrite sort_reverse_length. }
  split; [rewrite Hall; apply sort_reverse_perm|].
  intros r Hin Hperm Hscore. rewrite Hall.
  eapply Permutation_in; [symmetry; apply sort_reverse_perm|].
  unfold admitted. apply filter_In. split; [assumption|].
  unfold passes. apply access_granted_iff in Hperm. now rewrite Hperm, Hscore.
Qed.

(** X4. The number of hits returned, for every integer limit: with a limit
    of zero or more it is the smaller of the limit and the number of
    passing hits; a negative limit [-k] does not fail but cuts the [k]
    lowest-ranked passing hits. *)
Theorem number_of_results cfg hits i uid n :
  let passing := admitted cfg (DOCUMENT_TYPE_PRIORITIES i) uid hits in
  Z.of_nat (List.length (_filter_and_rank_results cfg hits i uid n))
  = if 0 <=? n then Z.min n (Z.of_nat (List.length passing))
    else Z.max 0 (Z.of_nat (List.length passing) + n).
Proof.
  intros passing. rewrite filter_and_rank_admitted, slice_to_size.
  now rewrite sort_reverse_length.
Qed.

End ScorerFacts.

Lemma permitted_hits_are_returned_witness :
  Permutation
    (DocumentRetriever._filter_and_rank_results settings Spec.sample_hits
       DOUBT_CLARIFICATION 1 5)
    [Spec.own_low_notes; Spec.own_other; Spec.foreign_public;
     Spec.own_other_2; Spec.own_notes].
Proof.
  assert (H : (Z.of_nat
                 (List.length
                    (Spec.admitted settings
                       (DocumentRetriever.DOCUMENT_TYPE_PRIORITIES
                          DOUBT_CLARIFICATION) 1 Spec.sample_hits)) <= 5)%Z)
    by (vm_compute; discriminate).
  exact (proj1 (permitted_hits_are_returned settings Spec.sample_hits
                  DOUBT_CLARIFICATION 1 H)).
Defined.

Lemma number_of_results_witness :
  map hit_document
    (DocumentRetriever._filter_and_rank_results settings Spec.sample_hits
       DOUBT_CLARIFICATION 1 (-2))
  = [Some "n2"; Some "m"; Some "o"]
  /\ Z.of_nat
       (List.length
          (DocumentRetriever._filter_and_rank_results settings Spec.sample_hits
             DOUBT_CLARIFICATION 1 (-2))) = 3%Z.
Proof.
  split; [reflexivity|].
  rewrite (number_of_results settings Spec.sample_hits DOUBT_CLARIFICATION 1 (-2)).
  reflexivity.
Defined.

Section EnhanceFacts.

Import DocumentRetriever More.

Lemma chars_app (a b : string) :
  list_ascii_of_string (a ++ b)
  = (list_ascii_of_string a ++ list_ascii_of_string b)%list.
Proof. induction a as [|c a IH]; simpl; [reflexivity|now rewrite IH]. Qed.

Lemma string_of_chars_app (a b : list ascii) :
  string_of_list_ascii (a ++ b)%list
  = string_of_list_ascii a ++ string_of_list_ascii b.
Proof. induction a as [|c a IH]; simpl; [reflexivity|now rewrite IH]. Qed.

Lemma space2_plain c1 c2 : (byte c2 <? 128)%N = true -> space2 c1 c2 = false.
Proof.
  unfold space2. intros H. apply N.ltb_lt in H.
  destruct (N.eqb_spec (byte c2) 133); [lia|].
  destruct (N.eqb_spec (byte c2) 160); [lia|reflexivity].
Qed.

Lemma space3_plain c1 c2 c3 :
  (byte c3 <? 128)%N = true -> space3 c1 c2 c3 = false.
Proof.
  unfold space3, continuation. intros H. apply N.ltb_lt in H.
  destruct (N.leb_spec 128 (byte c3)); [lia|reflexivity].
Qed.

(** Stripping bytes that are followed by ASCII text [b]: the white space
    at the head of [a] goes, and when nothing of [a] is left, that at the
    head of [b]. *)
Lemma lstrip_chars_app a b :
  Forall (fun c => (byte c <? 128)%N = true) b ->
  lstrip_chars (a ++ b)
  = match lstrip_chars a with
    | [] => lstrip_chars b
    | _ :: _ => (lstrip_chars a ++ b)%list
    end.
Proof.
  intros Hb.
  assert (H : forall n a, (List.length a <= n)%nat ->
            lstrip_chars (a ++ b)
            = match lstrip_chars a with
              | [] => lstrip_chars b
              | _ :: _ => (lstrip_chars a ++ b)%list
              end); [|now apply (H (List.length a))].
  clear a. unfold lstrip_chars.
  induction n as [|n IH]; intros [|c1 a1] Hlen; try reflexivity;
    [simpl in Hlen; lia|].
  cbn [app strip_with]. destruct (space1 c1).
  { apply IH. simpl in Hlen. lia. }
  destruct a1 as [|c2 a2].
  { cbn [app]. destruct Hb as [|c2 b2 Hc2 Hb2]; [reflexivity|].
    rewrite (space2_plain c1 _ Hc2).
    destruct Hb2 as [|c3 b3 Hc3 Hb3]; [reflexivity|].
    now rewrite (space3_plain c1 c2 _ Hc3). }
  cbn [app]. destruct (space2 c1 c2).
  { apply IH. simpl in Hlen. lia. }
  destruct a2 as [|c3 a3].
  { cbn [app]. destruct Hb as [|c3 b3 Hc3 Hb3]; [reflexivity|].
    now rewrite (space3_plain c1 c2 _ Hc3). }
  cbn [app]. destruct (space3 c1 c2 c3); [|reflexivity].
  apply IH. simpl in Hlen. lia.
Qed.

(** Bytes that end in an ASCII character other than white space lose
    nothing on the right. *)
Lemma rstrip_reversed_plain c r :
  (byte c <? 128)%N = true -> space1 c = false ->
  rstrip_reversed (c :: r) = c :: r.
Proof.
  intros Hc Hs. unfold rstrip_reversed. cbn [strip_with]. rewrite Hs.
  destruct r as [|c2 r2]; [reflexivity|].
  rewrite (space2_plain c2 _ Hc).
  destruct r2 as [|c3 r3]; [reflexivity|].
  now rewrite (space3_plain c3 c2 _ Hc).
Qed.

Lemma enhance_query_strip q i :
  _enhance_query q i = strip (q ++ " " ++ enhancement i).
Proof. destruct i; reflexivity. Qed.

(** The keywords are ASCII text that starts and ends with a letter. *)
Lemma enhancement_edges i :
  Forall (fun c => (byte c <? 128)%N = true)
    (list_ascii_of_string (" " ++ enhancement i)) /\
  lstrip_chars (list_ascii_of_string (" " ++ enhancement i))
  = list_ascii_of_string (enhancement i) /\
  (exists c t, list_ascii_of_string (enhancement i) = c :: t) /\
  (exists c t, rev (list_ascii_of_string (enhancement i)) = c :: t
               /\ (byte c <? 128)%N = true /\ space1 c = false).
Proof.
  destruct i; (split; [repeat constructor|]); (split; [reflexivity|]);
    split; do 2 eexists; repeat split; reflexivity.
Qed.

Lemma append_assoc (a b c : string) : (a ++ b) ++ c = a ++ b ++ c.
Proof. induction a as [|x a IH]; simpl; [reflexivity|now rewrite IH]. Qed.

(** X5. The query sent to the search is the user's query without the
    white space it starts with, one space, and the keywords of the intent.
    It therefore always ends with the keywords and is never empty; a query
    that does not start with white space is kept whole, and a query of
    white space only leaves the keywords alone. White space is what
    [str.strip()] takes for it, the Unicode spaces included. *)
Theorem enhanced_query_shape q i :
  _enhance_query q i = lstrip (q ++ " ") ++ enhancement i /\
  _enhance_query q i <> "" /\
  (q <> "" -> lstrip q = q ->
   _enhance_query q i = q ++ " " ++ enhancement i) /\
  (lstrip q = "" -> _enhance_query q i = enhancement i).
Proof.
  destruct (enhancement_edges i) as (Hplain & Hhead & Hfirst & Hlast).
  pose (e := list_ascii_of_string (enhancement i)).
  assert (Hq : lstrip (q ++ " ")
               = match lstrip_chars (list_ascii_of_string q) with
                 | [] => ""
                 | _ :: _ => lstrip q ++ " "
                 end).
  { unfold lstrip. rewrite chars_app.
    rewrite lstrip_chars_app by (repeat constructor).
    destruct (lstrip_chars (list_ascii_of_string q)); [reflexivity|].
    now rewrite string_of_chars_app. }
  assert (Hmain : _enhance_query q i = lstrip (q ++ " ") ++ enhancement i).
  { rewrite enhance_query_strip, Hq. unfold strip, lstrip.
    rewrite chars_app, (lstrip_chars_app _ Hplain), Hhead. fold e.
    assert (Hkeep : forall l,
              string_of_list_ascii (rev (rstrip_reversed (rev (l ++ e))))
              = string_of_list_ascii l ++ enhancement i).
    { intros l. rewrite rev_app_distr.
      destruct Hlast as (c & t & Hrev & Hc & Hs). fold e in Hrev.
      rewrite Hrev. cbn [app]. rewrite (@rstrip_reversed_plain c _ Hc Hs).
      change (c :: t ++ rev l)%list with ((c :: t) ++ rev l)%list.
      rewrite <- Hrev, <- rev_app_distr, rev_involutive, string_of_chars_app.
      unfold e. now rewrite string_of_list_ascii_of_string. }
    destruct (lstrip_chars (list_ascii_of_string q)) as [|c l] eqn:E.
    - apply (Hkeep []).
    - change (list_ascii_of_string (" " ++ enhancement i))
        with (" "%char :: e).
      change ((c :: l) ++ " "%char :: e)%list
        with ((c :: l) ++ [" "%char] ++ e)%list.
      rewrite app_assoc, Hkeep, string_of_chars_app. reflexivity. }
  split; [exact Hmain|]. split; [|split].
  - rewrite Hmain. destruct Hfirst as (c & t & He).
    rewrite <- (string_of_list_ascii_of_string (enhancement i)), He.
    destruct (lstrip (q ++ " ")); discriminate.
  - intros Hne Hkept. rewrite Hmain, Hq.
    destruct (lstrip_chars (list_ascii_of_string q)) as [|c l] eqn:E.
    + exfalso. apply Hne. rewrite <- Hkept. unfold lstrip. now rewrite E.
    + rewrite Hkept. apply append_assoc.
  - intros Hblank. rewrite Hmain, Hq.
    destruct (lstrip_chars (list_ascii_of_string q)) as [|c l] eqn:E;
      [reflexivity|].
    unfold lstrip in Hblank. rewrite E in Hblank. discriminate.
Qed.

End EnhanceFacts.

(** Leading and trailing spaces go and inner ones stay; a blank query
    leaves the keywords; U+00A0 and U+001F at the head are white space,
    U+200B is not. *)
Lemma enhanced_query_shape_witness :
  DocumentRetriever._enhance_query "  What is an ion? " ANSWER_EVALUATION
  = "What is an ion?  marking scheme grading criteria"
  /\ DocumentRetriever._enhance_query "   " ANSWER_EVALUATION
     = "marking scheme grading criteria"
  /\ DocumentRetriever._enhance_query
       (String "194" (String "160" (String "031" "ion"))) ANSWER_EVALUATION
     = "ion marking scheme grading criteria"
  /\ DocumentRetriever._enhance_query
       (String "226" (String "128" (String "139" "ion"))) ANSWER_EVALUATION
     = String "226" (String "128" (String "139" "ion"))
       ++ " marking scheme grading criteria".
Proof.
  destruct (enhanced_query_shape "  What is an ion? " ANSWER_EVALUATION)
    as (H1 & _).
  destruct (enhanced_query_shape "   " ANSWER_EVALUATION) as (_ & _ & _ & H2).
  destruct (enhanced_query_shape
              (String "194" (String "160" (String "031" "ion")))
              ANSWER_EVALUATION) as (H3 & _).
  destruct (enhanced_query_shape
              (String "226" (String "128" (String "139" "ion")))
              ANSWER_EVALUATION) as (_ & _ & H4 & _).
  split; [rewrite H1; reflexivity|]. split; [apply H2; reflexivity|].
  split; [rewrite H3; reflexivity|].
  apply H4; [discriminate|reflexivity].
Defined.

Section RetrieveFacts.

Import DocumentRetriever Spec More.

Variable World : Type.
Variable upper : string -> string.
Variable format_2f : float -> string.
Variable list_of_set : DocumentRetriever.ListOfSet.
Variable vector_search : string -> Z -> M World (list Hit).
Variable cfg : Settings.

Local Abbreviation retrieve :=
  (DocumentRetriever.retrieve upper format_2f list_of_set vector_search cfg).

Lemma retrieval_counts_bounds i : (5 <= RETRIEVAL_COUNTS i <= 15)%Z.
Proof. destruct i; simpl; lia. Qed.

(** What the retrieval node returns on each outcome of the search. *)
Lemma retrieve_outcome state w :
  let i := get (intent state) DOUBT_CLARIFICATION in
  let enhanced := _enhance_query (query state) i in
  retrieve state w =
  match vector_search enhanced (RETRIEVAL_COUNTS i * 2)%Z w with
  | (Ok hits, w') =>
      let docs :=
        _format_retrieved_documents
          (_filter_and_rank_results cfg hits i (user_id state)
             (RETRIEVAL_COUNTS i)) in
      (Ok (append_visited
             (set_retrieval_query
                (set_document_types_available
                   (set_context (set_retrieved_documents state docs)
                      (_build_context upper format_2f docs))
                   (distinct_types list_of_set docs))
                enhanced)
             "document_retriever"), w')
  | (Raise e, w') =>
      (Ok (append_visited
             (set_document_types_available
                (set_context (set_retrieved_documents state []) "") [])
             "document_retriever"), w')
  end.
Proof.
  intros i enhanced.
  unfold DocumentRetriever.retrieve, try_except, bind. fold i. fold enhanced.
  destruct (vector_search enhanced (RETRIEVAL_COUNTS i * 2)%Z w) as [[hits|e] w'];
    reflexivity.
Qed.

(** X6. When the search answers, the retrieval node asks it for twice the
    count of the intent and keeps at most the count, which is 15 at most:
    the state then holds the formatted ranking of the hits, the context
    built from it, each document type of it once, the enhanced query, and
    one more trace entry. *)
Theorem retrieve_success state w hits w' :
  let i := get (intent state) DOUBT_CLARIFICATION in
  vector_search (_enhance_query (query state) i) (RETRIEVAL_COUNTS i * 2)%Z w
  = (Ok hits, w') ->
  exists state',
    retrieve state w = (Ok state', w') /\
    retrieved_documents state'
    = map format_document
        (_filter_and_rank_results cfg hits i (user_id state)
           (RETRIEVAL_COUNTS i)) /\
    (Z.of_nat (List.length (retrieved_documents state'))
     <= RETRIEVAL_COUNTS i <= 15)%Z /\
    context state' = _build_context upper format_2f (retrieved_documents state') /\
    NoDup (document_types_available state') /\
    (forall t, In t (document_types_available state') <->
               exists doc, In doc (retrieved_documents state')
                           /\ document_type doc = t) /\
    retrieval_query state' = Some (_enhance_query (query state) i) /\
    nodes_visited state'
    = (nodes_visited state ++ ["document_retriever"])%list.
Proof.
  intros i Hsearch. pose proof (retrieve_outcome state w) as Hr.
  cbv zeta in Hr. fold i in Hr. rewrite Hsearch in Hr.
  eexists. split; [exact Hr|]. simpl.
  split; [reflexivity|]. split.
  - unfold _format_retrieved_documents. rewrite length_map.
    split; [|apply retrieval_counts_bounds].
    rewrite filter_and_rank_admitted. apply slice_to_length.
    pose proof (retrieval_counts_bounds i). lia.
  - split; [reflexivity|]. unfold distinct_types.
    destruct (list_of_set _) as (types & Hnd & Hin). cbn [proj1_sig].
    split; [exact Hnd|]. split; [|split; reflexivity].
    intros t. rewrite Hin, in_map_iff.
    split; intros (doc & H1 & H2); exists doc; tauto.
Qed.

(** X7. Whatever the search does, the retrieval node returns, keeps the
    user, the query, the intent and the conversation of the state, and
    leaves in the state only documents the user may read: each is the
    user's own or public. *)
Theorem retrieved_documents_are_permitted state w :
  exists state' w',
    retrieve state w = (Ok state', w') /\
    user_id state' = user_id state /\
    query state' = query state /\
    intent state' = intent state /\
    conversation_id state' = conversation_id state /\
    forall doc, In doc (retrieved_documents state') ->
      md_user_id (metadata doc) = Some (user_id state)
      \/ md_visibility (metadata doc) = Some "public".
Proof.
  pose proof (retrieve_outcome state w) as Hr. cbv zeta in Hr.
  destruct (vector_search _ _ w) as [[hits|e] w'].
  - do 2 eexists. split; [exact Hr|]. simpl.
    repeat (split; [reflexivity|]).
    intros doc Hdoc. unfold _format_retrieved_documents in Hdoc.
    apply in_map_iff in Hdoc. destruct Hdoc as (r & <- & Hr').
    apply ranked_in_admitted in Hr'. unfold admitted in Hr'.
    apply filter_In in Hr'. destruct Hr' as [_ Hp]. unfold passes in Hp.
    apply andb_true_iff in Hp. destruct Hp as [Hp _].
    apply negb_true_iff, access_granted_iff in Hp. exact Hp.
  - do 2 eexists. split; [exact Hr|]. simpl.
    repeat (split; [reflexivity|]). intros doc [].
Qed.

Lemma retrieve_keeps state w state' w' :
  retrieve state w = (Ok state', w') ->
  query state' = query state /\
  intent state' = intent state /\
  user_id state' = user_id state /\
  nodes_visited state' = (nodes_visited state ++ ["document_retriever"])%list.
Proof.
  intros H. pose proof (retrieve_outcome state w) as Hr. cbv zeta in Hr.
  rewrite H in Hr.
  destruct (vector_search _ _ w) as [[hits|e] w1]; injection Hr as -> ->;
    repeat split; reflexivity.
Qed.

Lemma build_context_some doc docs :
  _build_context upper format_2f (doc :: docs) <> "".
Proof.
  unfold _build_context.
  pose proof (group_by_type_nonempty doc docs) as Hne.
  destruct (group_by_type (doc :: docs)) as [|[t ds] gs]; [congruence|].
  simpl.
  destruct (chunk_parts format_2f 1 ds
            ++ flat_map (group_parts upper format_2f) gs)%list;
    discriminate.
Qed.

Lemma retrieve_documents_built state w state' w' :
  retrieve state w = (Ok state', w') ->
  context state' = _build_context upper format_2f (retrieved_documents state') /\
  (Z.of_nat (List.length (retrieved_documents state'))
   <= RETRIEVAL_COUNTS (get (intent state) DOUBT_CLARIFICATION))%Z /\
  conversation_id state' = conversation_id state.
Proof.
  intros H. pose proof (retrieve_outcome state w) as Hr. cbv zeta in Hr.
  rewrite H in Hr.
  pose proof (retrieval_counts_bounds (get (intent state) DOUBT_CLARIFICATION))
    as Hb.
  destruct (vector_search _ _ w) as [[hits|e] w1]; injection Hr as -> ->;
    cbn [context retrieved_documents conversation_id append_visited
           set_retrieval_query set_document_types_available set_context
           set_retrieved_documents].
  - split; [reflexivity|]. split; [|reflexivity].
    unfold _format_retrieved_documents. rewrite length_map.
    rewrite filter_and_rank_admitted. apply slice_to_length. lia.
  - split; [reflexivity|]. split; [simpl; lia|reflexivity].
Qed.

End RetrieveFacts.

Section ByTypeFacts.

Import DocumentRetriever RetrieveByType More.

Variable World : Type.
Variable vector_search_where : string -> Z -> string -> M World (list Hit).

Lemma search_types_collect q n types acc w :
  search_types vector_search_where q n types acc w =
  match collect vector_search_where q n types w with
  | (Ok hits, w') => (Ok (acc ++ map format_document hits)%list, w')
  | (Raise e, w') => (Raise e, w')
  end.
Proof.
  revert acc w. induction types as [|t types IH]; intros acc w; simpl.
  - unfold ret. now rewrite app_nil_r.
  - unfold bind at 1 2.
    destruct (vector_search_where q n t w) as [[hits|e] w1]; [|reflexivity].
    rewrite IH. unfold bind.
    destruct (collect vector_search_where q n types w1) as [[more|e] w2];
      [|reflexivity].
    unfold ret, _format_retrieved_documents.
    now rewrite map_app, app_assoc.
Qed.

(** X8. Retrieval by document type runs one search per type, in order, and
    returns one document for every hit of every search, in that order:
    unlike the retrieval node it applies no access check, no threshold and
    no cut, and the first search that raises makes the whole call raise. *)
Theorem retrieve_by_document_type_collects state types n w :
  retrieve_by_document_type vector_search_where state types n w =
  match collect vector_search_where (query state) n types w with
  | (Ok hits, w') => (Ok (map format_document hits), w')
  | (Raise e, w') => (Raise e, w')
  end.
Proof. unfold retrieve_by_document_type. now rewrite search_types_collect. Qed.

End ByTypeFacts.

Lemma retrieve_success_witness :
  exists state',
    Demo.retrieve (Demo.search_finds Spec.sample_hits)
      (set_intent Demo.one_good_document (Some DOUBT_CLARIFICATION)) 0%nat
    = (Ok state', 1%nat) /\
    map chunk_text (retrieved_documents state') = ["n2"; "m"; "o"; "p"; "n1"].
Proof.
  destruct (@retrieve_success Demo.World
      Demo.upper Demo.format_2f Demo.list_of_set
              (Demo.search_finds Spec.sample_hits) settings
              (set_intent Demo.one_good_document (Some DOUBT_CLARIFICATION))
              0%nat Spec.sample_hits 1%nat eq_refl)
    as (state' & Hr & Hdocs & _).
  exists state'. split; [exact Hr|]. rewrite Hdocs. reflexivity.
Defined.

(** A search by type that returns the private chunk of another user: the
    chunk is in the result. *)
Lemma retrieve_by_document_type_collects_witness :
  RetrieveByType.retrieve_by_document_type
    (fun q n t => Demo.tick (if String.eqb t "notes" then [Spec.foreign_private]
                             else []))
    Demo.one_good_document ["marking_scheme"; "notes"] 10 0%nat
  = (Ok [DocumentRetriever.format_document Spec.foreign_private], 2%nat).
Proof.
  rewrite retrieve_by_document_type_collects. reflexivity.
Defined.

(** ** The doubt resolver in the pipeline *)

Section RelevanceFacts.

Import DocumentRetriever DoubtResolver Spec More.

Lemma relevant_count_app d1 d2 :
  relevant_count (d1 ++ d2) = (relevant_count d1 + relevant_count d2)%nat.
Proof. unfold relevant_count. now rewrite filter_app, length_app. Qed.

Lemma relevant_count_perm d1 d2 :
  Permutation d1 d2 -> relevant_count d1 = relevant_count d2.
Proof.
  unfold relevant_count. intros P.
  induction P as [|x l l' P IH|x y l|l l' l'' P1 IH1 P2 IH2]; simpl.
  - reflexivity.
  - destruct (PyFloat.geb _ _); simpl; now rewrite IH.
  - destruct (PyFloat.geb (similarity_score y) _),
             (PyFloat.geb (similarity_score x) _); reflexivity.
  - now rewrite IH1.
Qed.

Lemma relevant_count_le docs : (relevant_count docs <= List.length docs)%nat.
Proof. unfold relevant_count. apply filter_length_le. Qed.

(** X9. Notes count as relevant only from two documents on: fewer than two
    documents are never relevant, whatever their scores. Relevance depends
    on the documents and not on their order, and further documents never
    take it away. *)
Theorem relevance_needs_two_documents :
  (forall docs, (List.length docs < 2)%nat -> _check_relevance docs = false) /\
  (forall d1 d2, Permutation d1 d2 ->
     _check_relevance d1 = _check_relevance d2) /\
  (forall d1 d2, _check_relevance d1 = true ->
     _check_relevance (d1 ++ d2) = true /\ _check_relevance (d2 ++ d1) = true).
Proof.
  split; [|split].
  - intros docs Hlen. rewrite check_relevance_count. apply Nat.leb_gt.
    pose proof (relevant_count_le docs). lia.
  - intros d1 d2 P. rewrite !check_relevance_count.
    now rewrite (relevant_count_perm P).
  - intros d1 d2 H. rewrite !check_relevance_count in *.
    rewrite !relevant_count_app. apply Nat.leb_le in H.
    split; apply Nat.leb_le; lia.
Qed.

(** X10. Relevance is judged on the similarity the search reported, not on
    the boosted score that let a hit through: the retrieved documents are
    relevant exactly when at least two of the returned hits have a raw
    similarity of 0.7 or more. *)
Theorem relevance_uses_raw_similarity cfg hits i uid n :
  let ranked := _filter_and_rank_results cfg hits i uid n in
  relevant_count (_format_retrieved_documents ranked)
  = List.length (similar_hits ranked) /\
  (_check_relevance (_format_retrieved_documents ranked) = true
   <-> (2 <= List.length (similar_hits ranked))%nat).
Proof.
  intros ranked.
  assert (H : relevant_count (_format_retrieved_documents ranked)
              = List.length (similar_hits ranked)).
  { unfold relevant_count, similar_hits, _format_retrieved_documents.
    induction ranked as [|r l IH]; [reflexivity|].
    simpl. destruct (PyFloat.geb (get (hit_similarity r) 0%float) 0.7); simpl;
      now rewrite IH. }
  split; [exact H|].
  rewrite check_relevance_count, H. apply Nat.leb_le.
Qed.

End RelevanceFacts.

(** The example at the end of doubt_resolver.py, one document of similarity
    0.85 announced as an answer from notes, is not relevant. *)
Lemma relevance_needs_two_documents_witness :
  DoubtResolver._check_relevance (retrieved_documents Demo.one_good_document)
  = false.
Proof.
  apply (proj1 relevance_needs_two_documents). simpl. lia.
Defined.

(** Two notes of similarity 0.65 are both retrieved for a doubt, through
    their boost, and are not relevant. *)
Lemma relevance_uses_raw_similarity_witness :
  List.length
    (DocumentRetriever._filter_and_rank_results settings More.low_notes
       DOUBT_CLARIFICATION 1 8) = 2%nat
  /\ DoubtResolver._check_relevance
       (DocumentRetriever._format_retrieved_documents
          (DocumentRetriever._filter_and_rank_results settings More.low_notes
             DOUBT_CLARIFICATION 1 8)) = false.
Proof.
  split; [reflexivity|].
  destruct (relevance_uses_raw_similarity settings More.low_notes
              DOUBT_CLARIFICATION 1 8) as (_ & Hiff).
  apply not_true_is_false. intros E. apply Hiff in E.
  vm_compute in E. lia.
Defined.

Section DoubtPipeline.

Import Workflow DocumentRetriever DoubtResolver Spec More.

Variable World : Type.
Variable upper : string -> string.
Variable format_2f : float -> string.
Variable list_of_set : DocumentRetriever.ListOfSet.
Variable vector_search : string -> Z -> M World (list Hit).
Variable cfg : Settings.
Variables classify generate_answer evaluate_answer generate_questions
  : NodeFn World.
Variable time_time : World -> float * World.
Variable llm_generate : string -> string -> float -> Z -> M World string.
Variables SYSTEM GENERAL_SYSTEM : string.
Variable NOTES_PROMPT : string -> string -> string.
Variable GENERAL_PROMPT : string -> string.
Variable node_exception_str : string -> string -> string.

Local Abbreviation retrieve :=
  (retrieve_documents_node upper format_2f list_of_set vector_search cfg).

Local Abbreviation resolve :=
  (resolve_doubt_node llm_generate SYSTEM GENERAL_SYSTEM NOTES_PROMPT
     GENERAL_PROMPT node_exception_str).

Local Abbreviation run :=
  (process_query classify generate_answer evaluate_answer generate_questions
     retrieve resolve time_time).

Local Abbreviation model_call :=
  (More.model_call llm_generate SYSTEM GENERAL_SYSTEM NOTES_PROMPT
     GENERAL_PROMPT).

Lemma resolve_outcome state w :
  resolve state w =
  match model_call state w with
  | (Ok answer, w') =>
      (Ok (append_visited
             (set_task_data
                (set_task_data
                   (set_final_response state
                      (_format_response (strip answer) (source_of state)
                         (_check_relevance (retrieved_documents state))))
                   {| source_type := Some (source_of state);
                      has_relevant_notes :=
                        has_relevant_notes (task_data state) |})
                {| source_type := Some (source_of state);
                   has_relevant_notes :=
                     Some (_check_relevance (retrieved_documents state)) |})
             "doubt_resolver"), w')
  | (Raise e, w') =>
      (Raise (Exception "WorkflowNodeException"
                (node_exception_str "doubt_resolver" (exn_str e))), w')
  end.
Proof.
  unfold resolve_doubt_node, DoubtResolver.resolve, try_except, bind,
    More.model_call, source_of, _answer_from_notes,
    _answer_from_general_knowledge, bind.
  destruct (_check_relevance (retrieved_documents state));
    match goal with
    | |- context [llm_generate ?a ?b ?c ?d w] =>
        destruct (llm_generate a b c d w) as [[answer|e] w']
    end; reflexivity.
Qed.

Lemma doubt_pipeline state w state1 w1 state2 w2 :
  classify state w = (Ok state1, w1) ->
  intent state1 = Some DOUBT_CLARIFICATION ->
  retrieve state1 w1 = (Ok state2, w2) ->
  pipeline classify generate_answer evaluate_answer generate_questions
    retrieve resolve state w
  = resolve state2 w2.
Proof.
  intros Hc Hi Hr. unfold pipeline, bind. rewrite Hc, Hi, Hr.
  unfold dispatch.
  destruct (@retrieve_keeps World
      upper format_2f list_of_set vector_search cfg
      _ _ _ _ Hr) as (_ & Hi2 & _).
  now rewrite Hi2, Hi.
Qed.

Lemma run_success uid q cid w final w1 :
  pipeline classify generate_answer evaluate_answer generate_questions
    retrieve resolve
    (set_status (create_initial_state uid q cid) IN_PROGRESS)
    (snd (time_time w)) = (Ok final, w1) ->
  run uid q cid w
  = (Ok (_build_response
           (set_status
              (set_processing_time final
                 (fst (time_time w1) - fst (time_time w)))
              COMPLETED)), snd (time_time w1)).
Proof.
  intros H. rewrite process_query_pipeline. destruct (time_time w) as [t0 w0].
  simpl in H. rewrite H. destruct (time_time w1) as [t1 w2]. reflexivity.
Qed.

(** X11. A doubt for which fewer than two relevant documents were
    retrieved, none at all when the corpus is empty or the search is down,
    is still answered: when the model answers the general prompt, the
    query succeeds with the answer under the general-knowledge header and
    disclaimer, and the trace ends with "document_retriever" and
    "doubt_resolver". The route from retrieval to the resolver is
    [Router.route_after_retrieval]. *)
Theorem doubt_without_notes_is_answered uid q cid w state1 w1 state2 w2
  answer w3 :
  let initial := set_status (create_initial_state uid q cid) IN_PROGRESS in
  classify initial (snd (time_time w)) = (Ok state1, w1) ->
  intent state1 = Some DOUBT_CLARIFICATION ->
  retrieve state1 w1 = (Ok state2, w2) ->
  (relevant_count (retrieved_documents state2) < 2)%nat ->
  llm_generate (GENERAL_PROMPT (query state1)) GENERAL_SYSTEM 0.8%float
    1500%Z w2 = (Ok answer, w3) ->
  exists r,
    run uid q cid w = (Ok r, snd (time_time w3)) /\
    success r = true /\
    response_intent r = Some "doubt_clarification" /\
    response_text r
    = Some (_format_response (strip answer) "general_knowledge" false) /\
    response_nodes_visited r
    = Some (nodes_visited state1
            ++ ["document_retriever"; "doubt_resolver"])%list /\
    response_processing_time r
    = (fst (time_time w3) - fst (time_time w))%float.
Proof.
  intros initial Hc Hi Hr Hfew Hllm.
  destruct (@retrieve_keeps World
      upper format_2f list_of_set vector_search cfg
      _ _ _ _ Hr) as (Hq & Hi2 & _ & Hn).
  assert (Hrel : _check_relevance (retrieved_documents state2) = false)
    by (rewrite check_relevance_count; apply Nat.leb_gt; lia).
  assert (Hcall : model_call state2 w2 = (Ok answer, w3))
    by (unfold More.model_call; rewrite Hrel, Hq; exact Hllm).
  eexists. split.
  - apply run_success. fold initial.
    rewrite (doubt_pipeline Hc Hi Hr), resolve_outcome, Hcall. reflexivity.
  - unfold source_of. rewrite Hrel. simpl. rewrite Hi2, Hi, Hn.
    rewrite <- app_assoc. repeat split; reflexivity.
Qed.

(** X12. When the model fails in the doubt resolver, whichever prompt it
    was asked, the query ends in the failure envelope, and the envelope
    names "WorkflowNodeException" as the error type, with the text that
    exception gives for the node "doubt_resolver" and the original
    message: the type of the model's own exception is not reported. The
    route from retrieval to the resolver is [Router.route_after_retrieval]. *)
Theorem model_failure_is_reported_as_node_failure uid q cid w state1 w1
  state2 w2 e w3 :
  let initial := set_status (create_initial_state uid q cid) IN_PROGRESS in
  classify initial (snd (time_time w)) = (Ok state1, w1) ->
  intent state1 = Some DOUBT_CLARIFICATION ->
  retrieve state1 w1 = (Ok state2, w2) ->
  model_call state2 w2 = (Raise e, w3) ->
  run uid q cid w
  = (Ok (Failure (node_exception_str "doubt_resolver" (exn_str e))
           "WorkflowNodeException"
           (fst (time_time w3) - fst (time_time w)) uid q),
     snd (time_time w3)).
Proof.
  intros initial Hc Hi Hr Hcall.
  rewrite process_query_pipeline. destruct (time_time w) as [t0 w0].
  simpl in Hc. fold initial.
  rewrite (doubt_pipeline Hc Hi Hr), resolve_outcome, Hcall.
  destruct (time_time w3) as [t1 w4]. reflexivity.
Qed.

(** X13. A doubt for which two or more relevant documents were retrieved
    is answered from them: the model is asked the notes prompt with the
    context built from the retrieved documents, and when it answers, the
    query succeeds with the answer under the header and footer for notes;
    the metadata count the documents, between two and eight, and give the
    length of that context in code points. The route from retrieval to the
    resolver is [Router.route_after_retrieval]. *)
Theorem doubt_with_notes_is_answered_from_notes uid q cid w state1 w1 state2
  w2 answer w3 :
  let initial := set_status (create_initial_state uid q cid) IN_PROGRESS in
  let notes := _build_context upper format_2f (retrieved_documents state2) in
  classify initial (snd (time_time w)) = (Ok state1, w1) ->
  intent state1 = Some DOUBT_CLARIFICATION ->
  retrieve state1 w1 = (Ok state2, w2) ->
  (2 <= relevant_count (retrieved_documents state2))%nat ->
  llm_generate (NOTES_PROMPT (query state1) notes) SYSTEM 0.7%float 1500%Z w2
  = (Ok answer, w3) ->
  exists r metadata,
    run uid q cid w = (Ok r, snd (time_time w3)) /\
    success r = true /\
    response_text r = Some (_format_response (strip answer) "notes" true) /\
    response_nodes_visited r
    = Some (nodes_visited state1
            ++ ["document_retriever"; "doubt_resolver"])%list /\
    response_metadata r = Some metadata /\
    num_documents_retrieved metadata
    = List.length (retrieved_documents state2) /\
    (2 <= num_documents_retrieved metadata <= 8)%nat /\
    context_length metadata = Some (len notes).
Proof.
  intros initial notes Hc Hi Hr Hmany Hllm.
  destruct (@retrieve_keeps World
      upper format_2f list_of_set vector_search cfg _ _ _ _ Hr)
    as (Hq & Hi2 & _ & Hn).
  destruct (@retrieve_documents_built World
      upper format_2f list_of_set vector_search cfg _ _ _ _
              Hr) as (Hctx & Hlen & _).
  rewrite Hi in Hlen. cbn [get RETRIEVAL_COUNTS] in Hlen.
  assert (Hrel : _check_relevance (retrieved_documents state2) = true)
    by (rewrite check_relevance_count; now apply Nat.leb_le).
  assert (Hcall : model_call state2 w2 = (Ok answer, w3))
    by (unfold More.model_call; rewrite Hrel, Hq, Hctx; exact Hllm).
  pose proof (relevant_count_le (retrieved_documents state2)) as Hle.
  assert (Hsome : match context state2 with
                  | EmptyString => None
                  | c => Some (len c)
                  end = Some (len notes)).
  { rewrite Hctx. fold notes.
    destruct (retrieved_documents state2) as [|doc docs] eqn:E;
      [simpl in Hle; lia|].
    pose proof (build_context_some upper format_2f doc docs) as Hne.
    fold notes in Hne. now destruct notes. }
  do 2 eexists. split.
  - apply run_success. fold initial.
    rewrite (doubt_pipeline Hc Hi Hr), resolve_outcome, Hcall. reflexivity.
  - unfold source_of. rewrite Hrel. simpl in Hsome |- *. rewrite Hn, Hsome.
    rewrite <- app_assoc. repeat split; try reflexivity;
      cbn [num_documents_retrieved]; lia.
Qed.

End DoubtPipeline.

(** With the search down and a model that answers " Paris. ", a doubt is
    answered from general knowledge. *)
Lemma doubt_without_notes_is_answered_witness :
  exists r,
    Demo.process_query DOUBT_CLARIFICATION Demo.search_down
      (Demo.task "generate_answer") 1 "What is the capital of France?" None
      0%nat
    = (Ok r, 3%nat)
    /\ Workflow.success r = true
    /\ More.response_text r
       = Some (DoubtResolver._format_response "Paris." "general_knowledge"
                 false)
    /\ Workflow.response_nodes_visited r
       = Some ["classify_intent"; "document_retriever"; "doubt_resolver"].
Proof.
  pose (initial :=
          set_status
            (create_initial_state 1 "What is the capital of France?" None)
            IN_PROGRESS).
  pose (state1 :=
          append_visited (set_intent initial (Some DOUBT_CLARIFICATION))
            "classify_intent").
  pose (state2 :=
          append_visited
            (set_document_types_available
               (set_context (set_retrieved_documents state1 []) "") [])
            "document_retriever").
  destruct (@doubt_without_notes_is_answered Demo.World
      Demo.upper Demo.format_2f Demo.list_of_set
              Demo.search_down settings
              (Demo.classify_as DOUBT_CLARIFICATION)
              (Demo.task "generate_answer") (Demo.task "evaluate_answer")
              (Demo.task "generate_questions") Demo.time_time Demo.llm
              "notes system" "general system"
              (fun q c => q ++ " / " ++ c) (fun q => q)
              Demo.node_exception_str 1 "What is the capital of France?" None
              0%nat state1 1%nat state2 2%nat " Paris. " 3%nat)
    as (r & Hrun & Hs & _ & Ht & Hn & _).
  - reflexivity.
  - reflexivity.
  - vm_compute. reflexivity.
  - vm_compute. lia.
  - reflexivity.
  - exists r. unfold Demo.process_query, Demo.retrieve, Demo.resolve_doubt.
    split; [exact Hrun|]. split; [exact Hs|]. split; [exact Ht|]. exact Hn.
Defined.

(** With the search down and a model that does not answer, the failure
    envelope names the node exception. *)
Lemma model_failure_is_reported_as_node_failure_witness :
  Workflow.process_query (Demo.classify_as DOUBT_CLARIFICATION)
    (Demo.task "generate_answer") (Demo.task "evaluate_answer")
    (Demo.task "generate_questions")
    (DocumentRetriever.retrieve_documents_node
        Demo.upper Demo.format_2f Demo.list_of_set
       Demo.search_down settings)
    (DoubtResolver.resolve_doubt_node
       (fun _ _ _ _ => Demo.fail (Exception "TimeoutError" "no answer"))
       "notes system" "general system" (fun q c => q ++ " / " ++ c)
       (fun q => q) Demo.node_exception_str)
    Demo.time_time 1 "What is an ion?" None 0%nat
  = (Ok (Workflow.Failure "doubt_resolver: no answer" "WorkflowNodeException"
           (PyFloat.of_nat 3 - PyFloat.of_nat 0) 1 "What is an ion?"),
     3%nat).
Proof.
  pose (initial :=
          set_status (create_initial_state 1 "What is an ion?" None)
            IN_PROGRESS).
  pose (state1 :=
          append_visited (set_intent initial (Some DOUBT_CLARIFICATION))
            "classify_intent").
  pose (state2 :=
          append_visited
            (set_document_types_available
               (set_context (set_retrieved_documents state1 []) "") [])
            "document_retriever").
  apply (@model_failure_is_reported_as_node_failure Demo.World
      Demo.upper Demo.format_2f Demo.list_of_set
           Demo.search_down settings
           (Demo.classify_as DOUBT_CLARIFICATION)
           (Demo.task "generate_answer") (Demo.task "evaluate_answer")
           (Demo.task "generate_questions") Demo.time_time
           (fun _ _ _ _ => Demo.fail (Exception "TimeoutError" "no answer"))
           "notes system" "general system"
           (fun q c => q ++ " / " ++ c) (fun q => q)
           Demo.node_exception_str 1 "What is an ion?" None
           0%nat state1 1%nat state2 2%nat
           (Exception "TimeoutError" "no answer") 3%nat).
  - reflexivity.
  - reflexivity.
  - vm_compute. reflexivity.
  - reflexivity.
Defined.

(** ** app/api/chat.py: the messages table *)

Section MessageFacts.

Import Chat.

Local Open Scope Z_scope.

Lemma conversation_rows_elsewhere db cid cid' r c i m :
  cid <> cid' ->
  conversation_rows (save_message db cid r c i m) cid'
  = conversation_rows db cid'.
Proof.
  intros Hne. unfold conversation_rows, save_message. rewrite filter_app.
  cbn [filter row_conversation_id].
  destruct (Z.eqb_spec cid cid'); [contradiction|apply app_nil_r].
Qed.

Lemma conversation_rows_below db cid :
  Forall (fun r => id r < next_id db) (conversation_rows db cid).
Proof.
  apply Forall_forall. intros r Hr. apply next_id_above.
  unfold conversation_rows in Hr. now apply filter_In in Hr.
Qed.

Lemma select_last_rows_save db cid r c i m :
  select_last_rows (save_message db cid r c i m) cid
  = {| id := next_id db; row_conversation_id := cid; role := r;
       content := c; row_intent := i; row_metadata := m |}
    :: firstn 9 (order_by_id_desc (conversation_rows db cid)).
Proof.
  unfold select_last_rows. rewrite conversation_rows_save.
  rewrite order_by_id_newest; [reflexivity|].
  apply conversation_rows_below.
Qed.

(** X14. Conversations do not leak into one another through the table: a
    message saved in one conversation changes neither the rows nor the
    history read for any other conversation. *)
Theorem other_conversations_are_untouched db cid cid' r c i m :
  cid <> cid' ->
  conversation_rows (save_message db cid r c i m) cid'
  = conversation_rows db cid'
  /\ fetch_history (save_message db cid r c i m) cid'
     = fetch_history db cid'.
Proof.
  intros Hne. split; [now apply conversation_rows_elsewhere|].
  unfold fetch_history, select_last_rows.
  now rewrite conversation_rows_elsewhere.
Qed.

(** X15. A completed turn is remembered in order: once the user's message
    and then the assistant's reply are saved, the history read for the
    conversation ends with the two of them, the question before the reply,
    and what precedes them are the eight newest earlier messages, oldest
    first. *)
Theorem completed_turn_is_remembered db cid q a i m :
  let db1 := save_message db cid "user" q None None in
  let db2 := save_message db1 cid "assistant" a i m in
  fetch_history db2 cid
  = (rev (fetchall (firstn 8 (order_by_id_desc (conversation_rows db cid))))
     ++ [("user", q); ("assistant", a)])%list.
Proof.
  intros db1 db2. unfold fetch_history, db2.
  rewrite select_last_rows_save. unfold db1.
  rewrite conversation_rows_save, order_by_id_newest
    by apply conversation_rows_below.
  cbn [firstn fetchall map rev role content].
  rewrite <- app_assoc. reflexivity.
Qed.

(** X16. The ids of the table stay a key: when no two rows share an id,
    saving a message gives a table where still no two rows do, the rows
    that were there are kept in place, and the new row has an id above
    every earlier one. *)
Theorem saved_ids_stay_unique db cid r c i m :
  NoDup (map id db) ->
  let db' := save_message db cid r c i m in
  NoDup (map id db')
  /\ firstn (List.length db) db' = db
  /\ List.length db' = S (List.length db)
  /\ forall row, In row db' ->
       In row db \/ (~ In row db /\ Forall (fun old => id old < id row) db).
Proof.
  intros Hnd db'. unfold db', save_message.
  assert (Hfresh : ~ In (next_id db) (map id db)).
  { intros Hin. apply in_map_iff in Hin. destruct Hin as (r0 & Hid & Hin).
    apply next_id_above in Hin. lia. }
  split.
  { rewrite map_app. cbn [map id].
    apply NoDup_app; [assumption|repeat constructor; intros []|].
    intros x Hx [<-|[]]. contradiction. }
  split.
  { rewrite firstn_app, Nat.sub_diag, firstn_all. apply app_nil_r. }
  split; [rewrite length_app; simpl; lia|].
  intros row Hrow. apply in_app_or in Hrow.
  destruct Hrow as [Hrow|[<-|[]]]; [now left|right].
  split.
  - intros Hin. apply Hfresh. apply in_map_iff. eexists. split; [|exact Hin].
    reflexivity.
  - apply Forall_forall. intros old Hold. cbn [id]. now apply next_id_above.
Qed.

End MessageFacts.

(** ** app/api/chat.py: the endpoints *)

Section EndpointFacts.

Import Chat ChatApi.

Local Open Scope Z_scope.

Variable World : Type.
Variable uuid4 : World -> string * World.
Variable process_user_query :
  Z -> string -> option Z -> M World Workflow.Response.
Variable json_dumps : Workflow.ResponseMetadata -> string.
Variable timestamp : MessageRow -> Z.
Variables started_at last_message_at : ConversationRow -> Z.

Local Abbreviation post_query :=
  (ChatApi.process_query uuid4 process_user_query json_dumps).

Local Abbreviation get_conversation := (ChatApi.get_conversation timestamp).

Local Abbreviation list_conversations :=
  (ChatApi.list_conversations started_at last_message_at).

Local Abbreviation not_found :=
  (HTTPException 404 "Conversation not found").

(** The conversation a request is filed under, and the conversations table
    once it is. *)
Local Abbreviation filed_under db request :=
  (if no_conversation (req_conversation_id request)
   then next_conversation_id db
   else get (req_conversation_id request) 0).

Local Abbreviation conversations_after db uid request w :=
  (if no_conversation (req_conversation_id request)
   then app (conversations db)
          [{| conv_id := next_conversation_id db; conv_user_id := uid;
              session_id := fst (uuid4 w) |}]
   else conversations db).

Lemma process_query_cases db uid request w :
  let cid := filed_under db request in
  let asked :=
    {| conversations := conversations_after db uid request w;
       messages :=
         save_message (messages db) cid "user" (req_query request) None
           None |} in
  (exists detail w',
     post_query db uid request w = ((asked, HTTPException 500 detail), w'))
  \/ (exists resp content w',
        post_query db uid request w
        = ((save asked cid "assistant" content (Some (resp_intent resp))
              (Some (json_dumps (resp_metadata resp))),
            Returns resp), w')
        /\ resp_success resp = true).
Proof.
  intros cid asked. unfold asked, cid, ChatApi.process_query.
  destruct (no_conversation (req_conversation_id request)).
  - destruct (uuid4 w) as [uuid w0]. cbn [create_conversation fst].
    destruct (process_user_query uid (req_query request)
                (Some (next_conversation_id db)) w0) as [[resp|e] w1].
    + destruct resp as [iv pt nv md an ev rs qs|err et pt u q'].
      * destruct (response_content rs an ev) as [content|e].
        -- right.
           exists {| resp_success := true; resp_intent := iv;
                     resp_response := rs; resp_answer := an;
                     resp_evaluation := ev; resp_questions := qs;
                     resp_processing_time := pt; resp_metadata := md |},
                  content, w1.
           split; reflexivity.
        -- left. eexists _, w1. reflexivity.
      * left. eexists _, w1. reflexivity.
    + left. eexists _, w1. reflexivity.
  - destruct (process_user_query uid (req_query request)
                (Some (get (req_conversation_id request) 0)) w)
      as [[resp|e] w1].
    + destruct resp as [iv pt nv md an ev rs qs|err et pt u q'].
      * destruct (response_content rs an ev) as [content|e].
        -- right.
           exists {| resp_success := true; resp_intent := iv;
                     resp_response := rs; resp_answer := an;
                     resp_evaluation := ev; resp_questions := qs;
                     resp_processing_time := pt; resp_metadata := md |},
                  content, w1.
           split; reflexivity.
        -- left. eexists _, w1. reflexivity.
      * left. eexists _, w1. reflexivity.
    + left. eexists _, w1. reflexivity.
Qed.

Lemma insert_by_timestamp_perm r l :
  Permutation (insert_by_timestamp timestamp r l) (r :: l).
Proof.
  induction l as [|r' l IH]; simpl; [reflexivity|].
  destruct (timestamp r' <? timestamp r); [|reflexivity].
  rewrite IH. apply perm_swap.
Qed.

Lemma order_by_timestamp_perm l :
  Permutation (order_by_timestamp timestamp l) l.
Proof.
  induction l as [|r l IH]; simpl; [constructor|].
  rewrite insert_by_timestamp_perm. now constructor.
Qed.

Lemma insert_by_timestamp_sorted r l :
  StronglySorted (fun a b => timestamp a <= timestamp b) l ->
  StronglySorted (fun a b => timestamp a <= timestamp b)
    (insert_by_timestamp timestamp r l).
Proof.
  intros Hs. induction Hs as [|r' l Hs IH Hr']; simpl; [repeat constructor|].
  destruct (Z.ltb_spec (timestamp r') (timestamp r)).
  - constructor; [assumption|].
    rewrite (insert_by_timestamp_perm r l). constructor; [lia|assumption].
  - constructor; [now constructor|].
    constructor; [assumption|].
    eapply Forall_impl; [|exact Hr']. simpl. intros. lia.
Qed.

Lemma order_by_timestamp_sorted l :
  StronglySorted (fun a b => timestamp a <= timestamp b)
    (order_by_timestamp timestamp l).
Proof.
  induction l as [|r l IH]; simpl; [constructor|].
  now apply insert_by_timestamp_sorted.
Qed.

Lemma insert_by_last_message_perm c l :
  Permutation (insert_by_last_message last_message_at c l) (c :: l).
Proof.
  induction l as [|c' l IH]; simpl; [reflexivity|].
  destruct (last_message_at c <? last_message_at c'); [|reflexivity].
  rewrite IH. apply perm_swap.
Qed.

Lemma order_by_last_message_perm l :
  Permutation (fold_right (insert_by_last_message last_message_at) [] l) l.
Proof.
  induction l as [|c l IH]; simpl; [constructor|].
  rewrite insert_by_last_message_perm. now constructor.
Qed.

Lemma insert_by_last_message_sorted c l :
  StronglySorted (fun a b => last_message_at b <= last_message_at a) l ->
  StronglySorted (fun a b => last_message_at b <= last_message_at a)
    (insert_by_last_message last_message_at c l).
Proof.
  intros Hs. induction Hs as [|c' l Hs IH Hc']; simpl; [repeat constructor|].
  destruct (Z.ltb_spec (last_message_at c) (last_message_at c')).
  - constructor; [assumption|].
    rewrite (insert_by_last_message_perm c l). constructor; [lia|assumption].
  - constructor; [now constructor|].
    constructor; [assumption|].
    eapply Forall_impl; [|exact Hc']. simpl. intros. lia.
Qed.

Lemma order_by_last_message_sorted l :
  StronglySorted (fun a b => last_message_at b <= last_message_at a)
    (fold_right (insert_by_last_message last_message_at) [] l).
Proof.
  induction l as [|c l IH]; simpl; [constructor|].
  now apply insert_by_last_message_sorted.
Qed.

Lemma find_conversation_none db cid uid :
  find_conversation db cid uid = None
  <-> forall c, In c (conversations db) ->
        ~ (conv_id c = cid /\ conv_user_id c = uid).
Proof.
  unfold find_conversation. split.
  - intros Hnone c Hin [Hc Hu].
    pose proof (find_none _ _ Hnone c Hin) as Hf. unfold owned in Hf.
    rewrite Hc, Hu, !Z.eqb_refl in Hf. discriminate.
  - intros Hall. destruct (find (owned cid uid) (conversations db)) as [c|] eqn:E;
      [|reflexivity].
    apply find_some in E. destruct E as [Hin Ho]. unfold owned in Ho.
    apply andb_true_iff in Ho. destruct Ho as [Hc Hu].
    apply Z.eqb_eq in Hc, Hu. exfalso. exact (Hall c Hin (conj Hc Hu)).
Qed.

Lemma find_filter (A : Type) (p q : A -> bool) l :
  (forall x, p x = true -> q x = true) ->
  find p (filter q l) = find p l.
Proof.
  intros Hpq. induction l as [|x l IH]; [reflexivity|]. simpl.
  destruct (p x) eqn:Hp.
  - rewrite (Hpq x Hp). simpl. now rewrite Hp.
  - destruct (q x); simpl; [rewrite Hp|]; exact IH.
Qed.

Lemma find_snoc (A : Type) (p : A -> bool) l x :
  find p (l ++ [x])
  = match find p l with
    | Some y => Some y
    | None => if p x then Some x else None
    end.
Proof.
  induction l as [|y l IH]; [reflexivity|].
  cbn [app find]. destruct (p y); [reflexivity|exact IH].
Qed.

Lemma StronglySorted_firstn (A : Type) (R : A -> A -> Prop) n l :
  StronglySorted R l -> StronglySorted R (firstn n l).
Proof.
  intros Hs. rewrite <- (firstn_skipn n l) in Hs.
  eapply StronglySorted_app_l. exact Hs.
Qed.

Lemma StronglySorted_map (A B : Type) (f : A -> B) (R : B -> B -> Prop) l :
  StronglySorted (fun a b => R (f a) (f b)) l -> StronglySorted R (map f l).
Proof.
  intros Hs. induction Hs as [|a l Hs IH Ha]; simpl; constructor;
    [assumption|].
  apply Forall_map. exact Ha.
Qed.

(** X17. What a query leaves in the database. The user's message is saved
    under the conversation of the request whatever the workflow does; the
    assistant's reply is saved after it exactly when the endpoint returns,
    with the intent of the response; every failure is reported with status
    500 and leaves the question without a reply. The rows that were there
    are kept, and a conversation is added only when the request names
    none. *)
Theorem user_message_is_always_saved db uid request w :
  let cid := filed_under db request in
  let out := post_query db uid request w in
  let db' := fst (fst out) in
  let asked :=
    {| id := next_id (messages db); row_conversation_id := cid;
       role := "user"; content := req_query request; row_intent := None;
       row_metadata := None |} in
  conversations db' = conversations_after db uid request w
  /\ match snd (fst out) with
     | Returns resp =>
         resp_success resp = true
         /\ exists reply,
              messages db' = (messages db ++ [asked; reply])%list
              /\ row_conversation_id reply = cid
              /\ role reply = "assistant"
              /\ row_intent reply = Some (resp_intent resp)
              /\ id asked < id reply
     | HTTPException status_code _ =>
         status_code = 500 /\ messages db' = (messages db ++ [asked])%list
     end.
Proof.
  intros cid out db' asked. unfold db', out.
  destruct (process_query_cases db uid request w)
    as [(detail & w' & ->)|(resp & reply & w' & -> & Hs)];
    cbn [fst snd conversations messages save].
  - repeat split.
  - split; [reflexivity|]. split; [exact Hs|].
    eexists. unfold save_message. rewrite <- app_assoc.
    split; [reflexivity|]. cbn [row_conversation_id role row_intent id].
    repeat split.
    apply (@next_id_above (messages db ++ [asked])%list asked).
    apply in_or_app. right. now left.
Qed.

(** X18. The query endpoint does not ask whose conversation it writes to:
    when a request names an existing conversation, the question is filed
    under it whoever the caller is, and the owner of the conversation then
    reads it among the messages of the conversation. *)
Theorem posting_does_not_check_ownership db owner caller cid q w :
  cid <> 0 ->
  find_conversation db cid owner <> None ->
  let request := {| req_query := q; req_conversation_id := Some cid |} in
  let db' := fst (fst (post_query db caller request w)) in
  exists messages_read,
    get_conversation db' cid owner = Returns (cid, messages_read)
    /\ exists v,
         In v messages_read /\ view_role v = "user" /\ view_content v = q.
Proof.
  intros Hcid Hfound request db'.
  assert (Hno : no_conversation (req_conversation_id request) = false)
    by (simpl; now apply Z.eqb_neq).
  pose (asked :=
          {| id := next_id (messages db); row_conversation_id := cid;
             role := "user"; content := q; row_intent := None;
             row_metadata := None |}).
  assert (Hdb : conversations db' = conversations db
                /\ In asked (messages db')).
  { unfold db'.
    destruct (process_query_cases db caller request w)
      as [(detail & w' & ->)|(resp & reply & w' & -> & _)];
      rewrite Hno; cbn [fst snd conversations messages save get
                          req_conversation_id req_query request];
      (split; [reflexivity|]); unfold save_message;
      rewrite ?in_app_iff; cbn [In]; auto. }
  destruct Hdb as [Hconv Hin].
  unfold ChatApi.get_conversation, find_conversation. rewrite Hconv.
  fold (find_conversation db cid owner).
  destruct (find_conversation db cid owner) as [c|]; [|contradiction].
  eexists. split; [reflexivity|].
  exists (view timestamp asked). split; [|split; reflexivity].
  apply in_map.
  eapply Permutation_in; [symmetry; apply order_by_timestamp_perm|].
  unfold conversation_rows. apply filter_In. split; [exact Hin|].
  apply Z.eqb_refl.
Qed.

(** X19. A request that names no conversation, or the conversation 0,
    opens a new one under an id no conversation has yet; the new
    conversation is the caller's and nobody else's. *)
Theorem new_conversation_belongs_to_caller db uid request w :
  req_conversation_id request = None \/ req_conversation_id request = Some 0 ->
  let db' := fst (fst (post_query db uid request w)) in
  let cid := next_conversation_id db in
  (forall c, In c (conversations db) -> conv_id c < cid)
  /\ find_conversation db' cid uid
     = Some {| conv_id := cid; conv_user_id := uid;
               session_id := fst (uuid4 w) |}
  /\ (forall other, other <> uid -> find_conversation db' cid other = None)
  /\ forall cid' uid',
       cid' <> cid ->
       find_conversation db' cid' uid' = find_conversation db cid' uid'.
Proof.
  intros Hreq db' cid.
  assert (Hno : no_conversation (req_conversation_id request) = true)
    by (destruct Hreq as [->| ->]; reflexivity).
  assert (Hbelow : forall c, In c (conversations db) -> conv_id c < cid).
  { unfold cid, next_conversation_id. induction (conversations db) as [|c' l IH];
      [contradiction|].
    cbn [map fold_right In]. intros c [->|Hin]; [lia|].
    specialize (IH c Hin). lia. }
  assert (Hconv : conversations db'
                  = (conversations db
                     ++ [{| conv_id := cid; conv_user_id := uid;
                            session_id := fst (uuid4 w) |}])%list).
  { unfold db'.
    destruct (process_query_cases db uid request w)
      as [(detail & w' & ->)|(resp & reply & w' & -> & _)];
      rewrite Hno; reflexivity. }
  assert (Hfind : forall cid' uid',
            find (owned cid' uid') (conversations db')
            = match find (owned cid' uid') (conversations db) with
              | Some c => Some c
              | None =>
                  if owned cid' uid'
                       {| conv_id := cid; conv_user_id := uid;
                          session_id := fst (uuid4 w) |}
                  then Some {| conv_id := cid; conv_user_id := uid;
                               session_id := fst (uuid4 w) |}
                  else None
              end).
  { intros cid' uid'. rewrite Hconv. apply find_snoc. }
  assert (Hnone : forall u, find (owned cid u) (conversations db) = None).
  { intros u. apply (proj2 (find_conversation_none db cid u)).
    intros c Hin [Hc _]. specialize (Hbelow c Hin). lia. }
  split; [exact Hbelow|]. unfold find_conversation.
  split; [|split].
  - rewrite Hfind, Hnone. unfold owned. cbn [conv_id conv_user_id].
    now rewrite !Z.eqb_refl.
  - intros other Hother. rewrite Hfind, Hnone. unfold owned.
    cbn [conv_id conv_user_id]. rewrite Z.eqb_refl.
    destruct (Z.eqb_spec uid other); [congruence|reflexivity].
  - intros cid' uid' Hne. rewrite Hfind.
    destruct (find (owned cid' uid') (conversations db)); [reflexivity|].
    unfold owned. cbn [conv_id conv_user_id].
    destruct (Z.eqb_spec cid cid'); [congruence|reflexivity].
Qed.

(** X20. Reading a conversation: the answer is 404 exactly when no
    conversation has both the id asked for and the caller as its user, so
    that a conversation of somebody else is not told apart from one that
    does not exist; otherwise the messages returned are those filed under
    the id, every one of them once, by ascending timestamp. *)
Theorem get_conversation_access db cid uid :
  (get_conversation db cid uid = not_found
   <-> forall c, In c (conversations db) ->
         ~ (conv_id c = cid /\ conv_user_id c = uid))
  /\ (get_conversation db cid uid <> not_found ->
      exists rows,
        get_conversation db cid uid = Returns (cid, map (view timestamp) rows)
        /\ Permutation rows (conversation_rows (messages db) cid)
        /\ StronglySorted (fun a b => timestamp a <= timestamp b) rows
        /\ Forall (fun r => row_conversation_id r = cid) rows).
Proof.
  rewrite <- find_conversation_none. unfold ChatApi.get_conversation.
  destruct (find_conversation db cid uid) as [c|].
  - split; [split; discriminate|]. intros _. eexists.
    split; [reflexivity|].
    split; [apply order_by_timestamp_perm|].
    split; [apply order_by_timestamp_sorted|].
    apply Forall_forall. intros r Hr.
    eapply Permutation_in in Hr; [|apply order_by_timestamp_perm].
    unfold conversation_rows in Hr. apply filter_In in Hr.
    now apply Z.eqb_eq.
  - split; [split; reflexivity|]. intros H. now contradiction H.
Qed.

(** X21. Deleting a conversation: when no conversation has the id and the
    caller as its user the answer is 404 and nothing changes; otherwise
    the conversation is removed and every other one is kept, in place.
    After a deletion the conversation can be neither read nor deleted
    again by the caller, and what any other id or user finds is what it
    found before. *)
Theorem delete_conversation_effect db cid uid :
  let db' := fst (delete_conversation db cid uid) in
  let out := snd (delete_conversation db cid uid) in
  (find_conversation db cid uid = None -> out = not_found /\ db' = db)
  /\ (find_conversation db cid uid <> None ->
      out = Returns ("Conversation deleted successfully", cid))
  /\ conversations db'
     = filter (fun c => negb (owned cid uid c)) (conversations db)
  /\ get_conversation db' cid uid = not_found
  /\ snd (delete_conversation db' cid uid) = not_found
  /\ forall cid' uid',
       (cid', uid') <> (cid, uid) ->
       find_conversation db' cid' uid' = find_conversation db cid' uid'.
Proof.
  intros db' out.
  assert (Hcount : forall l,
            (List.length (filter (owned cid uid) l) =? 0)%nat = true
            <-> find (owned cid uid) l = None).
  { induction l as [|c l IH]; simpl; [tauto|].
    destruct (owned cid uid c); simpl; [split; discriminate|exact IH]. }
  assert (Hkeep : forall l,
            (forall c, In c l -> owned cid uid c = false) ->
            filter (fun c => negb (owned cid uid c)) l = l).
  { induction l as [|c l IH]; intros Hall; [reflexivity|]. simpl.
    rewrite (Hall c (or_introl eq_refl)). simpl. f_equal. apply IH.
    intros c' Hc'. apply Hall. now right. }
  assert (Hconv : conversations db'
                  = filter (fun c => negb (owned cid uid c)) (conversations db)).
  { unfold db', ChatApi.delete_conversation.
    destruct (List.length (filter (owned cid uid) (conversations db)) =? 0)%nat
      eqn:E; [|reflexivity].
    cbn [fst]. symmetry. apply Hkeep. apply Hcount in E.
    intros c Hc. exact (find_none _ _ E c Hc). }
  assert (Hgone : find_conversation db' cid uid = None).
  { unfold find_conversation. rewrite Hconv.
    destruct (find (owned cid uid)
                (filter (fun c => negb (owned cid uid c)) (conversations db)))
      as [c|] eqn:E; [|reflexivity].
    apply find_some in E. destruct E as [Hin Ho].
    apply filter_In in Hin. destruct Hin as [_ Hn]. rewrite Ho in Hn.
    discriminate. }
  split.
  { intros Hnone. unfold out, db', ChatApi.delete_conversation.
    apply (proj2 (Hcount _)) in Hnone. rewrite Hnone. now split. }
  split.
  { intros Hsome. unfold out, ChatApi.delete_conversation.
    destruct (List.length (filter (owned cid uid) (conversations db)) =? 0)%nat
      eqn:E; [|reflexivity].
    apply Hcount in E. contradiction. }
  split; [exact Hconv|].
  split; [unfold ChatApi.get_conversation; now rewrite Hgone|].
  split.
  { unfold ChatApi.delete_conversation.
    apply (proj2 (Hcount _)) in Hgone. now rewrite Hgone. }
  intros cid' uid' Hne. unfold find_conversation. rewrite Hconv.
  apply find_filter. intros c Hc. unfold owned in *.
  apply andb_true_iff in Hc. destruct Hc as [Hc Hu].
  apply Z.eqb_eq in Hc, Hu. apply negb_true_iff. apply andb_false_iff.
  destruct (Z.eqb_spec (conv_id c) cid) as [Ec|]; [|now left].
  destruct (Z.eqb_spec (conv_user_id c) uid) as [Eu|]; [|now right].
  exfalso. apply Hne. congruence.
Qed.

(** X22. The list of conversations shows at most twenty, all of them the
    caller's, each with the number of messages filed under its id, the
    most recently used first; none is shown twice over, and one that is
    left out was used no later than every one shown. *)
Theorem list_conversations_shows_own_recent db uid :
  let own := filter (fun c => conv_user_id c =? uid) (conversations db) in
  exists shown hidden,
    list_conversations db uid
    = map (fun c =>
             {| view_conversation_id := conv_id c;
                view_started_at := started_at c;
                view_last_message_at := last_message_at c;
                message_count :=
                  List.length (conversation_rows (messages db) (conv_id c)) |})
          shown
    /\ Permutation (shown ++ hidden) own
    /\ List.length shown = Nat.min 20 (List.length own)
    /\ Forall (fun c => In c (conversations db) /\ conv_user_id c = uid) shown
    /\ StronglySorted (fun a b => last_message_at b <= last_message_at a) shown
    /\ forall c c', In c shown -> In c' hidden ->
         last_message_at c' <= last_message_at c.
Proof.
  intros own.
  pose (sorted := fold_right (insert_by_last_message last_message_at) [] own).
  assert (Hperm : Permutation sorted own) by apply order_by_last_message_perm.
  assert (Hsorted : StronglySorted
                      (fun a b => last_message_at b <= last_message_at a)
                      sorted) by apply order_by_last_message_sorted.
  exists (firstn 20 sorted), (skipn 20 sorted).
  split; [reflexivity|].
  split; [now rewrite firstn_skipn|].
  split; [rewrite length_firstn; now rewrite (Permutation_length Hperm)|].
  split.
  { apply Forall_forall. intros c Hc.
    assert (Hin : In c own).
    { eapply Permutation_in; [exact Hperm|].
      rewrite <- (firstn_skipn 20 sorted). apply in_or_app. now left. }
    unfold own in Hin. apply filter_In in Hin. destruct Hin as [Hin Hu].
    split; [exact Hin|now apply Z.eqb_eq]. }
  split; [now apply StronglySorted_firstn|].
  intros c c' Hc Hc'. rewrite <- (firstn_skipn 20 sorted) in Hsorted.
  clear - Hsorted Hc Hc'.
  induction (firstn 20 sorted) as [|x l IH]; [contradiction|].
  simpl in Hsorted. inversion Hsorted as [|? ? Hs Hf]; subst.
  destruct Hc as [->|Hc]; [|now apply IH].
  rewrite Forall_forall in Hf. apply Hf. apply in_or_app. now right.
Qed.

(** X23. A reply without text is saved empty: when the workflow succeeds
    with no response, no answer and no evaluation, as it does when its
    output is a list of questions, the endpoint returns the questions to
    the caller and saves an assistant message whose content is the empty
    string, so the questions do not reach the stored conversation. *)
Theorem reply_without_text_is_saved_empty db uid request w iv pt nv md an ev
  rs qs w' :
  let cid := filed_under db request in
  let w0 :=
    if no_conversation (req_conversation_id request) then snd (uuid4 w)
    else w in
  let asked :=
    {| id := next_id (messages db); row_conversation_id := cid;
       role := "user"; content := req_query request; row_intent := None;
       row_metadata := None |} in
  process_user_query uid (req_query request) (Some cid) w0
  = (Ok (Workflow.Success iv pt nv md an ev rs qs), w') ->
  truthy_str rs = false -> truthy_str an = false -> truthy_list ev = false ->
  exists db' resp,
    post_query db uid request w = ((db', Returns resp), w')
    /\ resp_questions resp = qs
    /\ resp_intent resp = iv
    /\ messages db'
       = (messages db
          ++ [asked;
              {| id := next_id (messages db ++ [asked]);
                 row_conversation_id := cid; role := "assistant";
                 content := ""; row_intent := Some iv;
                 row_metadata := Some (json_dumps md) |}])%list.
Proof.
  intros cid w0 asked Hrun Hrs Han Hev.
  unfold ChatApi.process_query. unfold cid, w0 in Hrun.
  assert (Hcontent : response_content rs an ev = Ok "")
    by (unfold response_content; now rewrite Hrs, Han, Hev).
  destruct (no_conversation (req_conversation_id request)).
  - destruct (uuid4 w) as [uuid w1]. cbn [create_conversation snd] in *.
    cbn [save conversations messages]. rewrite Hrun, Hcontent.
    do 2 eexists. split; [reflexivity|]. cbn [save messages]. unfold save_message.
    rewrite <- app_assoc. repeat split.
  - cbn [save conversations messages]. rewrite Hrun, Hcontent.
    do 2 eexists. split; [reflexivity|]. cbn [save messages]. unfold save_message.
    rewrite <- app_assoc. repeat split.
Qed.

End EndpointFacts.

(** ** app/api/chat.py: the streaming endpoint against the resolver *)

Section StreamFacts.

Import Chat DocumentRetriever Spec.

Variable World : Type.
Variable upper : string -> string.
Variable format_2f : float -> string.
Variable list_of_set : DocumentRetriever.ListOfSet.
Variable vector_search : string -> Z -> M World (list Hit).
Variable cfg : Settings.
Variable llm_generate : string -> string -> float -> Z -> M World string.
Variables SYSTEM GENERAL_SYSTEM : string.
Variable NOTES_PROMPT : string -> string -> string.
Variable GENERAL_PROMPT : string -> string.

Local Abbreviation retrieve :=
  (DocumentRetriever.retrieve upper format_2f list_of_set vector_search cfg).

Lemma string_length_append (s1 s2 : string) :
  String.length (s1 ++ s2) = (String.length s1 + String.length s2)%nat.
Proof. induction s1 as [|a s1 IH]; simpl; [reflexivity|now rewrite IH]. Qed.

(** X24. The streaming endpoint takes any retrieved document for notes:
    with one document or more it sends the notes system prompt and wraps
    the query in the context, with none it sends the general system prompt
    and the bare query. The doubt resolver, on the same retrieval, asks the
    general prompt as long as fewer than two documents are relevant, so
    the two disagree between one document and two relevant ones. *)
Theorem stream_reads_any_document_as_notes db uid q cid w state' w' :
  let state :=
    set_intent (create_initial_state uid q None) (Some DOUBT_CLARIFICATION) in
  let docs := retrieved_documents state' in
  let notes := _build_context upper format_2f docs in
  retrieve state w = (Ok state', w') ->
  (exists history,
     event_generator_messages SYSTEM GENERAL_SYSTEM retrieve db uid q cid w
     = (Ok ({| msg_role := "system";
               msg_content :=
                 match docs with [] => GENERAL_SYSTEM | _ => SYSTEM end |}
            :: history
            ++ [{| msg_role := "user";
                   msg_content :=
                     match docs with
                     | [] => q
                     | _ => final_query_of notes q
                     end |}])%list, w'))
  /\ (docs <> [] -> final_query_of notes q <> q)
  /\ ((relevant_count docs < 2)%nat ->
      More.model_call llm_generate SYSTEM GENERAL_SYSTEM NOTES_PROMPT
        GENERAL_PROMPT state'
      = llm_generate (GENERAL_PROMPT q) GENERAL_SYSTEM 0.8%float 1500%Z).
Proof.
  intros state docs notes Hr.
  destruct (@retrieve_documents_built World
      upper format_2f list_of_set vector_search cfg _ _ _ _
              Hr) as (Hctx & _ & _).
  destruct (@retrieve_keeps World
      upper format_2f list_of_set vector_search cfg _ _ _ _ Hr)
    as (Hq & _).
  fold docs in Hctx. fold notes in Hctx.
  split; [|split].
  - eexists. unfold event_generator_messages, bind. fold state. rewrite Hr.
    unfold ret, build_messages. rewrite Hctx. cbn [app]. do 3 f_equal.
    + unfold system_prompt_of.
      destruct docs as [|doc rest] eqn:E; [reflexivity|].
      pose proof (build_context_some upper format_2f doc rest) as Hne.
      fold notes in Hne. now destruct notes.
    + do 3 f_equal. destruct docs as [|doc rest] eqn:E; reflexivity.
  - intros Hne Heq. destruct docs as [|doc rest] eqn:E; [congruence|].
    pose proof (build_context_some upper format_2f doc rest) as Hctx'.
    fold notes in Hctx'. destruct notes as [|a s]; [congruence|].
    unfold final_query_of in Heq.
    apply (f_equal String.length) in Heq.
    rewrite !string_length_append in Heq. simpl in Heq. lia.
  - intros Hfew. unfold More.model_call.
    rewrite check_relevance_count. fold docs.
    destruct (Nat.leb_spec 2 (relevant_count docs)); [lia|].
    now rewrite Hq.
Qed.

End StreamFacts.

(** ** app/api/auth.py: login *)

Section LoginFacts.

Import Auth ChatApi.

Variable World : Type.
Variable verify_password : string -> string -> Result bool.
Variable create_access_token : string -> Z -> World -> string * World.

Local Abbreviation login := (Auth.login verify_password create_access_token).

(** X25. Login gives a token only to a user that exists and whose stored
    hash the password verifies against, and signs it for the name typed in
    and the id of that user. When it refuses, the answer is the same 401
    with the same text whether the name is unknown or the password wrong,
    and no token is made. When the password check itself raises, login
    raises that exception and gives neither answer; this happens only for
    a name that exists, an unknown name being always refused with the
    401. *)
Theorem login_outcomes users name password w :
  (forall token w',
     login users name password w = (Ok (Returns token), w') ->
     exists user,
       In user users /\ username user = name
       /\ verify_password password (hashed_password user) = Ok true
       /\ (access_token token, w')
          = create_access_token name (user_row_id user) w
       /\ token_type token = "bearer")
  /\ (forall status_code detail w',
        login users name password w
        = (Ok (HTTPException status_code detail), w') ->
        status_code = 401%Z /\ detail = "Incorrect username or password"
        /\ w' = w
        /\ forall user,
             get_user_by_username users name = Some user ->
             verify_password password (hashed_password user) = Ok false)
  /\ ((forall user, In user users -> username user <> name) ->
      login users name password w
      = (Ok (HTTPException 401 "Incorrect username or password"), w))
  /\ (forall e w',
        login users name password w = (Raise e, w')
        <-> w' = w
            /\ exists user,
                 get_user_by_username users name = Some user
                 /\ verify_password password (hashed_password user)
                    = Raise e).
Proof.
  unfold Auth.login.
  destruct (get_user_by_username users name) as [user|] eqn:E.
  - pose proof E as Hfound. unfold get_user_by_username in E.
    apply find_some in E.
    destruct E as [Hin Hname]. apply String.eqb_eq in Hname. subst name.
    destruct (verify_password password (hashed_password user))
      as [[|]|e0] eqn:Hv.
    + destruct (create_access_token (username user) (user_row_id user) w)
        as [token w1] eqn:Ht.
      split; [|split; [|split]].
      * intros tk w' [= <- <-]. exists user. rewrite Ht.
        repeat split; assumption.
      * intros ? ? ? [=].
      * intros Hall. exfalso. exact (Hall user Hin eq_refl).
      * intros e w'. split; [intros [=]|].
        intros (_ & user' & [= <-] & Hraise). congruence.
    + split; [|split; [|split]].
      * intros ? ? [=].
      * intros sc d w' [= <- <- <-]. repeat split.
        intros user' [= <-]. exact Hv.
      * intros Hall. exfalso. exact (Hall user Hin eq_refl).
      * intros e w'. split; [intros [=]|].
        intros (_ & user' & [= <-] & Hraise). congruence.
    + split; [|split; [|split]].
      * intros ? ? [=].
      * intros ? ? ? [=].
      * intros Hall. exfalso. exact (Hall user Hin eq_refl).
      * intros e w'. split.
        -- intros [= <- <-]. split; [reflexivity|]. now exists user.
        -- intros (-> & user' & [= <-] & Hraise).
           rewrite Hv in Hraise. now injection Hraise as <-.
  - split; [|split; [|split]].
    + intros ? ? [=].
    + intros sc d w' [= <- <- <-]. repeat split. intros ? [=].
    + reflexivity.
    + intros e w'. split; [intros [=]|].
      intros (_ & user' & [=] & _).
Qed.

End LoginFacts.

(** A message saved in conversation 7 leaves the history of conversation 8
    as it was. *)
Lemma other_conversations_are_untouched_witness :
  Chat.fetch_history
    (Chat.save_message Demo.earlier_messages 7 "user" "m13" None None) 8
  = [("user", "elsewhere")].
Proof.
  destruct (@other_conversations_are_untouched Demo.earlier_messages 7 8
              "user" "m13" None None) as [_ H]; [lia|].
  rewrite H. reflexivity.
Defined.

(** The thirteen ids of the sample table are distinct, and stay so. *)
Lemma saved_ids_stay_unique_witness :
  NoDup
    (map Chat.id
       (Chat.save_message Demo.earlier_messages 7 "user" "m13" None None)).
Proof.
  refine (proj1 (@saved_ids_stay_unique Demo.earlier_messages 7 "user" "m13"
                   None None _)).
  vm_compute. repeat (constructor; [simpl; intuition discriminate|]).
  constructor.
Defined.

(** User 2 asks in conversation 7, which is user 1's; user 1 reads the
    question there. *)
Lemma posting_does_not_check_ownership_witness :
  let request :=
    {| ChatApi.req_query := "hello"; ChatApi.req_conversation_id := Some 7%Z |} in
  let db' :=
    fst (fst (ChatApi.process_query (fun w : nat => ("u", w))
                (fun _ _ _ => Demo.fail (Exception "Timeout" "down"))
                (fun _ => "{}") More.sample_database 2 request 0%nat)) in
  exists messages_read,
    ChatApi.get_conversation Chat.id db' 7 1
    = ChatApi.Returns (7%Z, messages_read)
    /\ exists v,
         In v messages_read /\ ChatApi.view_role v = "user"
         /\ ChatApi.view_content v = "hello".
Proof.
  apply (@posting_does_not_check_ownership nat (fun w : nat => ("u", w))
           (fun _ _ _ => Demo.fail (Exception "Timeout" "down"))
           (fun _ => "{}") Chat.id More.sample_database 1 2 7 "hello" 0%nat).
  - lia.
  - vm_compute. discriminate.
Defined.

(** A request for conversation 0 opens conversation 9 for user 1. *)
Lemma new_conversation_belongs_to_caller_witness :
  ChatApi.find_conversation
    (fst (fst (ChatApi.process_query (fun w : nat => ("u", w))
                 (fun _ _ _ => Demo.fail (Exception "Timeout" "down"))
                 (fun _ => "{}") More.sample_database 1
                 {| ChatApi.req_query := "hello";
                    ChatApi.req_conversation_id := Some 0%Z |} 0%nat)))
    9 1
  = Some {| ChatApi.conv_id := 9; ChatApi.conv_user_id := 1;
            ChatApi.session_id := "u" |}.
Proof.
  destruct (@new_conversation_belongs_to_caller nat (fun w : nat => ("u", w))
              (fun _ _ _ => Demo.fail (Exception "Timeout" "down"))
              (fun _ => "{}") More.sample_database 1
              {| ChatApi.req_query := "hello";
                 ChatApi.req_conversation_id := Some 0%Z |} 0%nat
              (or_intror eq_refl)) as (_ & H & _).
  exact H.
Defined.

(** With the sample hits, four of the five documents retrieved for user 1
    are relevant, and the doubt is answered from the notes. *)
Lemma doubt_with_notes_is_answered_from_notes_witness :
  exists r metadata,
    Demo.process_query DOUBT_CLARIFICATION (Demo.search_finds Spec.sample_hits)
      (Demo.task "generate_answer") 1 "What is an ion?" None 0%nat
    = (Ok r, 3%nat)
    /\ More.response_text r
       = Some (DoubtResolver._format_response "Paris." "notes" true)
    /\ More.response_metadata r = Some metadata
    /\ Workflow.num_documents_retrieved metadata = 5%nat.
Proof.
  pose (state1 :=
          append_visited
            (set_intent
               (set_status (create_initial_state 1 "What is an ion?" None)
                  IN_PROGRESS)
               (Some DOUBT_CLARIFICATION))
            "classify_intent").
  let v := eval vm_compute in
    (DocumentRetriever.retrieve_documents_node
        Demo.upper Demo.format_2f Demo.list_of_set
       (Demo.search_finds Spec.sample_hits) settings state1 1%nat) in
  lazymatch v with
  | (Ok ?state2, ?w2) =>
      destruct (@doubt_with_notes_is_answered_from_notes Demo.World
                  Demo.upper Demo.format_2f Demo.list_of_set
                  (Demo.search_finds Spec.sample_hits) settings
                  (Demo.classify_as DOUBT_CLARIFICATION)
                  (Demo.task "generate_answer") (Demo.task "evaluate_answer")
                  (Demo.task "generate_questions") Demo.time_time Demo.llm
                  "notes system" "general system"
                  (fun q c => q ++ " / " ++ c) (fun q => q)
                  Demo.node_exception_str 1 "What is an ion?" None
                  0%nat state1 1%nat state2 w2 " Paris. " 3%nat)
        as (r & metadata & Hrun & _ & Ht & _ & Hm & Hn & _)
  end.
  - reflexivity.
  - reflexivity.
  - vm_compute. reflexivity.
  - vm_compute. lia.
  - reflexivity.
  - exists r, metadata.
    unfold Demo.process_query, Demo.retrieve, Demo.resolve_doubt.
    split; [exact Hrun|]. split; [exact Ht|]. split; [exact Hm|].
    rewrite Hn. reflexivity.
Defined.

(** Two notes of similarity 0.65 are retrieved: the streaming endpoint
    sends the notes system prompt, the resolver asks the general prompt. *)
Lemma stream_reads_any_document_as_notes_witness :
  exists state' messages,
    DocumentRetriever.retrieve
        Demo.upper Demo.format_2f Demo.list_of_set
        (Demo.search_finds More.low_notes)
      settings
      (set_intent (create_initial_state 1 "What is an ion?" None)
         (Some DOUBT_CLARIFICATION)) 0%nat
    = (Ok state', 1%nat)
    /\ Chat.event_generator_messages "notes system" "general system"
         (DocumentRetriever.retrieve Demo.upper Demo.format_2f Demo.list_of_set
            (Demo.search_finds More.low_notes) settings)
         Demo.earlier_messages 1 "What is an ion?" 7 0%nat
       = (Ok messages, 1%nat)
    /\ hd_error messages
       = Some {| Chat.msg_role := "system";
                 Chat.msg_content := "notes system" |}
    /\ More.model_call Demo.llm "notes system" "general system"
         (fun q c => q ++ " / " ++ c) (fun q => q) state'
       = Demo.llm "What is an ion?" "general system" 0.8%float 1500%Z.
Proof.
  let v := eval vm_compute in
    (DocumentRetriever.retrieve Demo.upper Demo.format_2f Demo.list_of_set
       (Demo.search_finds More.low_notes) settings
       (set_intent (create_initial_state 1 "What is an ion?" None)
          (Some DOUBT_CLARIFICATION)) 0%nat) in
  lazymatch v with
  | (Ok ?state', ?w') =>
      assert (Hr : DocumentRetriever.retrieve
          Demo.upper Demo.format_2f Demo.list_of_set
                     (Demo.search_finds More.low_notes) settings
                     (set_intent
                        (create_initial_state 1 "What is an ion?" None)
                        (Some DOUBT_CLARIFICATION)) 0%nat
                   = (Ok state', w')) by (vm_compute; reflexivity);
      destruct (@stream_reads_any_document_as_notes Demo.World
          Demo.upper Demo.format_2f Demo.list_of_set
                  (Demo.search_finds More.low_notes) settings Demo.llm
                  "notes system" "general system"
                  (fun q c => q ++ " / " ++ c) (fun q => q)
                  Demo.earlier_messages 1 "What is an ion?" 7 0%nat state' w'
                  Hr) as ((history & Hmessages) & _ & Hcall);
      exists state'; eexists;
      split; [exact Hr|]; split; [exact Hmessages|];
      split; [reflexivity|]; apply Hcall; vm_compute; lia
  end.
Defined.

(** A workflow that gives two questions and no text: the questions are
    returned, and the assistant message saved in conversation 7 is empty. *)
Lemma reply_without_text_is_saved_empty_witness :
  exists db' resp,
    ChatApi.process_query (fun w : nat => ("u", w))
      (fun _ _ _ =>
         Demo.tick
           (Workflow.Success "question_generation" 0%float
              ["classify_intent"; "document_retriever"; "generate_questions"]
              {| Workflow.meta_user_id := 1;
                 Workflow.meta_conversation_id := Some 7%Z;
                 Workflow.document_types_used := [];
                 Workflow.num_documents_retrieved := 0;
                 Workflow.context_length := None |}
              None None None
              (Some [[("question", "What is an ion?")];
                     [("question", "What is a cation?")]])))
      (fun _ => "{}") More.sample_database 1
      {| ChatApi.req_query := "Two questions on ions";
         ChatApi.req_conversation_id := Some 7%Z |} 0%nat
    = ((db', ChatApi.Returns resp), 1%nat)
    /\ ChatApi.resp_questions resp
       = Some [[("question", "What is an ion?")];
               [("question", "What is a cation?")]]
    /\ map Chat.content (skipn 13 (ChatApi.messages db'))
       = ["Two questions on ions"; ""].
Proof.
  destruct (@reply_without_text_is_saved_empty nat (fun w : nat => ("u", w))
              (fun _ _ _ =>
                 Demo.tick
                   (Workflow.Success "question_generation" 0%float
                      ["classify_intent"; "document_retriever";
                       "generate_questions"]
                      {| Workflow.meta_user_id := 1;
                         Workflow.meta_conversation_id := Some 7%Z;
                         Workflow.document_types_used := [];
                         Workflow.num_documents_retrieved := 0;
                         Workflow.context_length := None |}
                      None None None
                      (Some [[("question", "What is an ion?")];
                             [("question", "What is a cation?")]])))
              (fun _ => "{}") More.sample_database 1
              {| ChatApi.req_query := "Two questions on ions";
                 ChatApi.req_conversation_id := Some 7%Z |} 0%nat
              _ _ _ _ _ _ _ _ _
              eq_refl eq_refl eq_refl eq_refl)
    as (db' & resp & Hrun & Hq & _ & Hm).
  exists db', resp. split; [exact Hrun|]. split; [exact Hq|].
  rewrite Hm. reflexivity.
Defined.
